(** * Crop-price service: fallback pricing, request validation and the
      training-data validator

    Shallow embedding of
      - [ml-service/api/predict.py]  (get_fallback_prediction, validate_input,
        prepare_features, get_season_from_month, predict_price_route),
      - [ml-service/data/validate_data.py]  (class DataValidator),
      - [ml-service/utils/data_loader.py]  (get_season_from_date,
        validate_data_quality), and
      - [ml-service/data/generate_training_data.py]  (get_month_season,
        generate_records).

    Python floats are IEEE binary64 numbers: they are modelled by Rocq's
    primitive floats, so every product and comparison below is the one the
    interpreter performs.  Python exceptions are modelled by an error monad. *)

From Stdlib Require Import ZArith Floats String Ascii.
From stdpp Require Import gmap strings list fin_maps.

Set Warnings "-inexact-float,-register-all".
Open Scope string_scope.

(** ** Exceptions *)

Inductive exn : Set :=
  | TypeError
  | ValueError
  | OverflowError
  | KeyError
  | AttributeError
  | PredictorError
  | ZeroDivisionError.

Inductive result (A : Type) : Type :=
  | Ok (a : A)
  | Raise (e : exn).
Arguments Ok {A} a.
Arguments Raise {A} e.

#[global] Instance result_ret : MRet result := fun A a => Ok a.
#[global] Instance result_bind : MBind result := fun A B f m =>
  match m with
  | Ok a => f a
  | Raise e => Raise e
  end.

(** ** Python values: what [request.get_json()] can deliver *)

Inductive pyval :=
  | PyNone
  | PyBool (b : bool)
  | PyInt (z : Z)
  | PyFloat (f : float)
  | PyStr (s : string)
  | PyList (l : list pyval)
  | PyDict (d : gmap string pyval).

(** ** Floating-point helpers *)

(** [float(n)] for a Python int: the nearest binary64 number, ties to even;
    an int beyond the binary64 range raises OverflowError. *)
Definition Z2float (n : Z) : float :=
  SF2Prim (binary_normalize prec emax n 0 false).

Definition int_to_float (n : Z) : result float :=
  let f := Z2float n in
  if PrimFloat.is_infinity f then Raise OverflowError else Ok f.

(** Nearest integer to [n / d] for [d > 0], ties to the even integer. *)
Definition div_half_even (n d : Z) : Z :=
  let q := (n / d)%Z in
  let r := (n mod d)%Z in
  match (2 * r ?= d)%Z with
  | Lt => q
  | Gt => (q + 1)%Z
  | Eq => if Z.even q then q else (q + 1)%Z
  end.

(** [round(x, 2)] on a float.  CPython prints the exact binary value with two
    decimals, correctly rounded (ties to even), and reads the decimal string
    back as the nearest float.  With [n] the number of hundredths, the nearest
    float to [n / 100] is the correctly rounded quotient of the two floats [n]
    and [100] as long as [n] is exactly representable ([n < 2^53]); beyond
    that [x] is at least [2^46], consecutive floats are at least [2^-6] apart
    and the nearest float to the two-decimal value is [x] itself.  Zeros,
    infinities and NaN are returned as they are. *)
Definition py_round2 (x : float) : float :=
  match Prim2SF x with
  | S754_finite s m e =>
      if (0 <=? e)%Z then x
      else
        let n := div_half_even (Z.pos m * 100) (2 ^ (- e)) in
        if (2 ^ 53 <=? n)%Z then x
        else
          let r := (Z2float n / 100)%float in
          if s then (- r)%float else r
  | _ => x
  end.

(** ** Python operators on values *)

(** [v > n] for an int literal [n] (exactly representable as a float). *)
Definition py_gt_int (v : pyval) (n : Z) : result bool :=
  match v with
  | PyBool b => Ok (n <? Z.b2z b)%Z
  | PyInt z => Ok (n <? z)%Z
  | PyFloat f => Ok (Z2float n <? f)%float
  | _ => Raise TypeError
  end.

(** [v <= n] for an int literal [n]. *)
Definition py_le_int (v : pyval) (n : Z) : result bool :=
  match v with
  | PyBool b => Ok (Z.b2z b <=? n)%Z
  | PyInt z => Ok (z <=? n)%Z
  | PyFloat f => Ok (f <=? Z2float n)%float
  | _ => Raise TypeError
  end.

(** [d.get(key, dflt)] on a dict literal with string keys: lists and dicts are
    unhashable, any other non-string key is simply not found. *)
Definition dict_get {A : Type} (d : gmap string A) (key : pyval) (dflt : A)
  : result A :=
  match key with
  | PyStr s => Ok (default dflt (d !! s))
  | PyList _ | PyDict _ => Raise TypeError
  | _ => Ok dflt
  end.

(** [features.get(name, dflt)]. *)
Definition features_get (features : gmap string pyval) (name : string)
    (dflt : pyval) : pyval :=
  default dflt (features !! name).

(** ** predict.py: get_fallback_prediction *)

Definition base_prices : gmap string float :=
  list_to_map
    [ ("Wheat", 45.0%float); ("Rice", 65.0%float); ("Corn", 35.0%float);
      ("Pulses", 85.0%float); ("Vegetables", 32.0%float);
      ("Fruits", 55.0%float); ("Sugarcane", 40.0%float);
      ("Cotton", 60.0%float); ("Soybean", 50.0%float) ].

Definition quality_multiplier : gmap string float :=
  list_to_map
    [ ("Premium", 1.2%float); ("Grade_A", 1.0%float);
      ("Grade_B", 0.8%float); ("Grade_C", 0.6%float) ].

Definition region_multiplier : gmap string float :=
  list_to_map
    [ ("North", 1.0%float); ("South", 1.05%float);
      ("East", 0.95%float); ("West", 1.02%float) ].

Definition season_multiplier : gmap string float :=
  list_to_map
    [ ("Winter", 1.0%float); ("Spring", 1.1%float);
      ("Summer", 0.95%float); ("Autumn", 1.05%float) ].

(** Lines 20-57: the price before the bulk discount. *)
Definition price_before_discount (features : gmap string pyval) : result float :=
  let crop_type := features_get features "crop_type" (PyStr "Wheat") in
  let quality := features_get features "quality" (PyStr "Grade_A") in
  base_price ← dict_get base_prices crop_type 40.0%float;
  let region := features_get features "region" (PyStr "North") in
  let season := features_get features "season" (PyStr "Winter") in
  let price := base_price in
  qm ← dict_get quality_multiplier quality 1.0%float;
  let price := (price * qm)%float in
  rm ← dict_get region_multiplier region 1.0%float;
  let price := (price * rm)%float in
  sm ← dict_get season_multiplier season 1.0%float;
  let price := (price * sm)%float in
  mret price.

(** Lines 59-63: the [if quantity > 5000 / elif quantity > 2000] block. *)
Definition bulk_discount (price : float) (quantity : pyval) : result float :=
  gt5000 ← py_gt_int quantity 5000;
  if gt5000 : bool then mret (price * 0.9)%float
  else
    gt2000 ← py_gt_int quantity 2000;
    if gt2000 : bool then mret (price * 0.95)%float
    else mret price.

Definition get_fallback_prediction (features : gmap string pyval) : result float :=
  let quantity := features_get features "quantity_kg" (PyInt 1000) in
  price ← price_before_discount features;
  price ← bulk_discount price quantity;
  mret (py_round2 price).

(** ** predict.py: validate_input, prepare_features, predict_price_route *)

(** Truth value of a Python object, as [if not data] tests it. *)
Definition py_truthy (v : pyval) : bool :=
  match v with
  | PyNone => false
  | PyBool b => b
  | PyInt z => negb (z =? 0)%Z
  | PyFloat f => negb (f =? 0)%float
  | PyStr s => negb (String.eqb s EmptyString)
  | PyList l => negb (Nat.eqb (length l) 0)
  | PyDict d => negb (Nat.eqb (size d) 0)
  end.

Definition is_substring (sub s : string) : bool :=
  match String.index 0 sub s with
  | Some _ => true
  | None => false
  end.

Definition is_py_str (field : string) (v : pyval) : bool :=
  match v with
  | PyStr s => String.eqb s field
  | _ => false
  end.

(** [field in data]: key membership for a dict, element membership for a
    list, substring test for a str; other values are not iterable. *)
Definition py_in (field : string) (data : pyval) : result bool :=
  match data with
  | PyDict d => Ok (bool_decide (is_Some (d !! field)))
  | PyList l => Ok (existsb (is_py_str field) l)
  | PyStr s => Ok (is_substring field s)
  | _ => Raise TypeError
  end.

(** [data[field]] for a string subscript. *)
Definition py_getitem (data : pyval) (field : string) : result pyval :=
  match data with
  | PyDict d =>
      match d !! field with
      | Some v => Ok v
      | None => Raise KeyError
      end
  | _ => Raise TypeError
  end.

(** [repr] of a list of plain strings, as the f-string prints it. *)
Definition py_repr_str_list (l : list string) : string :=
  "[" ++ String.concat ", " (map (fun s => "'" ++ s ++ "'") l) ++ "]".

Definition required_fields : list string :=
  ["crop_type"; "region"; "quality"; "quantity_kg"].

(** [[field for field in fields if field not in data]] *)
Fixpoint missing_fields_of (fields : list string) (data : pyval)
  : result (list string) :=
  match fields with
  | [] => mret []
  | field :: rest =>
      present ← py_in field data;
      others ← missing_fields_of rest data;
      mret (if present : bool then others else field :: others)
  end.

Section Service.

(** [float(s)] on a str is the interpreter's parser: [None] stands for
    ValueError. *)
Variable float_of_str : string -> option float.

(** [predictor.predict], the trained model behind the service. *)
Variable predict : gmap string pyval -> result float.
Variable model_loaded : bool.

(** [datetime.now()] *)
Variable now_year now_month : Z.

(** The builtin [float(v)]. *)
Definition py_float (v : pyval) : result float :=
  match v with
  | PyFloat f => Ok f
  | PyInt z => int_to_float z
  | PyBool b => Ok (if b then 1%float else 0%float)
  | PyStr s =>
      match float_of_str s with
      | Some f => Ok f
      | None => Raise ValueError
      end
  | _ => Raise TypeError
  end.

Definition validate_input (data : pyval) : result (bool * string) :=
  missing_fields ← missing_fields_of required_fields data;
  match missing_fields with
  | _ :: _ =>
      mret (false, "Missing required fields: " ++ py_repr_str_list missing_fields)
  | [] =>
      match (q ← py_getitem data "quantity_kg"; py_float q) with
      | Ok f =>
          if (f <=? 0)%float then mret (false, "Quantity must be positive")
          else mret (true, "Valid")
      | Raise ValueError | Raise TypeError =>
          mret (false, "Quantity must be a number")
      | Raise e => Raise e
      end
  end.

Definition get_season_from_month (month : Z) : string :=
  if bool_decide (month ∈ [12; 1; 2]%Z) then "Winter"
  else if bool_decide (month ∈ [3; 4; 5]%Z) then "Spring"
  else if bool_decide (month ∈ [6; 7; 8]%Z) then "Summer"
  else if bool_decide (month ∈ [9; 10; 11]%Z) then "Autumn"
  else "Winter".

(** [data.get(name, dflt)]; only a dict has the method. *)
Definition data_get (data : pyval) (name : string) (dflt : pyval)
  : result pyval :=
  match data with
  | PyDict d => Ok (default dflt (d !! name))
  | _ => Raise AttributeError
  end.

Definition prepare_features (data : pyval) : result (gmap string pyval) :=
  crop_type ← data_get data "crop_type" PyNone;
  region ← data_get data "region" PyNone;
  quality ← data_get data "quality" PyNone;
  quantity ← data_get data "quantity_kg" (PyInt 1000);
  quantity_kg ← py_float quantity;
  season ← data_get data "season" (PyStr (get_season_from_month now_month));
  weather ← data_get data "weather" (PyStr "Normal");
  market_demand ← data_get data "market_demand" (PyStr "Medium");
  year ← data_get data "year" (PyInt now_year);
  month ← data_get data "month" (PyInt now_month);
  mret (list_to_map
          [ ("crop_type", crop_type); ("region", region);
            ("quality", quality); ("quantity_kg", PyFloat quantity_kg);
            ("season", season); ("weather", weather);
            ("market_demand", market_demand); ("year", year);
            ("month", month) ]).

(** What the route hands to Flask: the JSON payload and the status code. *)
Inductive response :=
  | Response400 (error : string)
  | Response200 (predicted_price confidence : float) (method : string)
      (total_value : float) (input_features : gmap string pyval)
  | Response500 (e : exn).

Definition status_code (r : response) : Z :=
  match r with
  | Response400 _ => 400
  | Response200 _ _ _ _ _ => 200
  | Response500 _ => 500
  end.

Definition success (r : response) : bool :=
  match r with
  | Response200 _ _ _ _ _ => true
  | _ => false
  end.

(** Lines 141-156: the model when it is loaded and answers, the fallback
    formula otherwise. *)
Definition make_prediction (features : gmap string pyval)
  : result (float * float * string) :=
  let fallback :=
    p ← get_fallback_prediction features;
    mret (p, 0.65%float, "fallback") in
  if model_loaded then
    match predict features with
    | Ok p => mret (p, 0.85%float, "ml_model")
    | Raise _ => fallback
    end
  else fallback.

(** The body of the [try]; any exception leaving it is answered with 500. *)
Definition predict_price_route_body (data : pyval) : result response :=
  if negb (py_truthy data) then mret (Response400 "No data provided")
  else
    '(is_valid, message) ← validate_input data;
    if negb is_valid then mret (Response400 message)
    else
      features ← prepare_features data;
      '(predicted_price, confidence, method) ← make_prediction features;
      quantity_kg ← py_float (features_get features "quantity_kg" PyNone);
      let total_value := (predicted_price * quantity_kg)%float in
      mret (Response200 (py_round2 predicted_price) confidence method
              (py_round2 total_value) features).

Definition predict_price_route (data : pyval) : response :=
  match predict_price_route_body data with
  | Ok r => r
  | Raise e => Response500 e
  end.

End Service.

(** ** validate_data.py: the pandas operations the validator uses

    A DataFrame is a list of column labels and a list of rows; a row maps a
    column label to its cell.  A cell read from CSV is a number or a string;
    pandas stores a missing entry as the float NaN, whatever the column. *)

Inductive cell :=
  | Num (x : float)
  | Str (s : string).

Record DataFrame := mkDataFrame {
  columns : list string;
  rows : list (gmap string cell)
}.

(** [isnull] on one entry. *)
Definition isnull (c : cell) : bool :=
  match c with
  | Num x => PrimFloat.is_nan x
  | Str _ => false
  end.

Definition cell_at (r : gmap string cell) (col : string) : cell :=
  default (Num nan) (r !! col).

(** The values of [df[col]], top to bottom. *)
Definition column_values (d : DataFrame) (col : string) : list cell :=
  map (fun r => cell_at r col) (rows d).

(** [df[col]]: a label that is not a column raises KeyError. *)
Definition get_column (d : DataFrame) (col : string) : result (list cell) :=
  if bool_decide (col ∈ columns d) then Ok (column_values d col)
  else Raise KeyError.

(** The floats of a numeric Series; arithmetic and comparisons on a column
    that holds a string raise TypeError. *)
Fixpoint as_floats (l : list cell) : result (list float) :=
  match l with
  | [] => mret []
  | Num x :: t => fs ← as_floats t; mret (x :: fs)
  | Str _ :: _ => Raise TypeError
  end.

(** [mask.sum()] *)
Definition count_true (mask : list bool) : nat :=
  length (filter (fun b => b = true) mask).

(** [l[mask]]: the entries at which the mask is True, in order. *)
Fixpoint select {A : Type} (mask : list bool) (l : list A) : list A :=
  match mask, l with
  | b :: mask', x :: l' => if b then x :: select mask' l' else select mask' l'
  | _, _ => []
  end.

(** [df[mask].reset_index(drop=True)] *)
Definition boolean_index (d : DataFrame) (mask : list bool) : DataFrame :=
  mkDataFrame (columns d) (select mask (rows d)).

(** Equality of entries as [duplicated], [mode] and [value_counts] see it:
    two missing entries are equal. *)
Definition cell_eqb (a b : cell) : bool :=
  match a, b with
  | Num x, Num y => (x =? y)%float || (PrimFloat.is_nan x && PrimFloat.is_nan y)
  | Str s, Str t => String.eqb s t
  | _, _ => false
  end.

Definition row_eqb (cols : list string) (r1 r2 : gmap string cell) : bool :=
  forallb (fun col => cell_eqb (cell_at r1 col) (cell_at r2 col)) cols.

(** [df.duplicated()]: True at every row equal to an earlier one. *)
Fixpoint duplicated_from (cols : list string) (seen l : list (gmap string cell))
  : list bool :=
  match l with
  | [] => []
  | r :: t => existsb (row_eqb cols r) seen :: duplicated_from cols (r :: seen) t
  end.

Definition duplicated (d : DataFrame) : list bool :=
  duplicated_from (columns d) [] (rows d).

(** [df[col].fillna(v, inplace=True)]: the column handed out by [df[col]]
    shares its data with the DataFrame, so the fill lands in [df]. *)
Definition fillna (d : DataFrame) (col : string) (v : cell) : DataFrame :=
  mkDataFrame (columns d)
    (map (fun r => if isnull (cell_at r col) then <[col := v]> r else r) (rows d)).

Fixpoint insert_float (x : float) (l : list float) : list float :=
  match l with
  | [] => [x]
  | y :: t => if (x <=? y)%float then x :: l else y :: insert_float x t
  end.

Definition sort_floats (l : list float) : list float :=
  foldr insert_float [] l.

Definition dropna (l : list float) : list float :=
  filter (fun x => PrimFloat.is_nan x = false) l.

(** Integer part of a float, rounding down. *)
Definition float_floor (x : float) : Z :=
  match Prim2SF x with
  | S754_finite s m e =>
      if (0 <=? e)%Z then (if s then - (Z.pos m * 2 ^ e) else Z.pos m * 2 ^ e)%Z
      else if s then (- ((Z.pos m + 2 ^ (- e) - 1) / 2 ^ (- e)))%Z
      else (Z.pos m / 2 ^ (- e))%Z
  | _ => 0%Z
  end.

(** [series.median()]: missing entries are skipped; the middle value, or the
    mean of the two middle values; NaN when nothing is left. *)
Definition median (l : list float) : float :=
  let v := sort_floats (dropna l) in
  let n := length v in
  if Nat.eqb n 0 then nan
  else if Nat.odd n then nth (n / 2) v nan
  else ((nth (n / 2 - 1) v nan + nth (n / 2) v nan) / 2)%float.

(** numpy's [_lerp], in which [np.percentile] ends: the value at weight
    [t] between [a] and [b], computed from [a] for [t < 0.5] and from [b]
    for [t >= 0.5]. *)
Definition lerp (a b t : float) : float :=
  let diff_b_a := (b - a)%float in
  if (0.5 <=? t)%float then (b - diff_b_a * (1 - t))%float
  else (a + diff_b_a * t)%float.

(** [series.quantile(q)] for [0 <= q <= 1] with the default linear
    interpolation, as pandas hands it to [np.percentile]: missing entries
    are skipped, the position [(n - 1) * q] is split into an index and a
    fraction, and the result is interpolated between the two neighbours (the
    last value is its own neighbour). *)
Definition quantile (l : list float) (q : float) : float :=
  let v := sort_floats (dropna l) in
  let n := length v in
  if Nat.eqb n 0 then nan
  else
    let pos := (Z2float (Z.of_nat n - 1) * q)%float in
    let i := Z.to_nat (float_floor pos) in
    let frac := (pos - Z2float (Z.of_nat i))%float in
    let lo := nth i v nan in
    let hi := nth (S i) v lo in
    lerp lo hi frac.

(** Order used to sort the modes: numbers by value, strings by code point
    (a column read from CSV holds one kind only). *)
Definition cell_leb (a b : cell) : bool :=
  match a, b with
  | Num x, Num y => (x <=? y)%float
  | Str s, Str t => String.leb s t
  | Num _, Str _ => true
  | Str _, Num _ => false
  end.

Fixpoint insert_cell (x : cell) (l : list cell) : list cell :=
  match l with
  | [] => [x]
  | y :: t => if cell_leb x y then x :: l else y :: insert_cell x t
  end.

Definition count_cell (c : cell) (l : list cell) : nat :=
  length (filter (fun c' => cell_eqb c c' = true) l).

Fixpoint unique_cells (l : list cell) : list cell :=
  match l with
  | [] => []
  | c :: t => c :: filter (fun c' => cell_eqb c c' = false) (unique_cells t)
  end.

(** [series.mode()]: the most frequent values among the entries that are not
    missing, sorted. *)
Definition mode (l : list cell) : list cell :=
  let vals := filter (fun c => isnull c = false) l in
  let best := foldr Nat.max 0 (map (fun c => count_cell c vals) vals) in
  foldr insert_cell []
    (unique_cells (filter (fun c => count_cell c vals = best) vals)).

(** [series.mode()[0]]: KeyError on an empty result. *)
Definition mode0 (l : list cell) : result cell :=
  match mode l with
  | m :: _ => Ok m
  | [] => Raise KeyError
  end.

(** [series.isin(valid_list)] on one entry. *)
Definition isin (c : cell) (valid_list : list string) : bool :=
  match c with
  | Str s => bool_decide (s ∈ valid_list)
  | Num _ => false
  end.

(** ** validate_data.py: class DataValidator

    The validator's state is its DataFrame and its quality report.  Of a
    check record the name and the verdict are kept; the [details] are log
    lines and are not modelled. *)

Record check := mkCheck {
  name : string;
  passed : bool
}.

Record QualityReport := mkReport {
  checks : list check;
  issues_found : nat;
  issues_fixed : nat
}.

Record DataValidator := mkValidator {
  df : DataFrame;
  quality_report : QualityReport
}.

(** [self.quality_report['checks'].append(check)] *)
Definition append_check (r : QualityReport) (c : check) : QualityReport :=
  mkReport (checks r ++ [c]) (issues_found r) (issues_fixed r).

(** Lines 49-54: the fill applied to one column that has missing entries. *)
Definition fill_missing_column (d : DataFrame) (col : string) : result DataFrame :=
  if String.eqb col "market_price" then
    prices ← as_floats (column_values d col);
    mret (fillna d col (Num (median prices)))
  else if bool_decide (col ∈ ["weather"; "market_demand"; "season"]) then
    mret (fillna d col (Str "Unknown"))
  else
    m ← mode0 (column_values d col);
    mret (fillna d col m).

(** The [for col, count in missing[missing > 0].items()] loop. *)
Fixpoint fill_missing_columns (cols : list string) (d : DataFrame)
  : result DataFrame :=
  match cols with
  | [] => mret d
  | col :: rest =>
      d' ← fill_missing_column d col;
      fill_missing_columns rest d'
  end.

(** [self.df.isnull().sum()], one count per column. *)
Definition null_counts (d : DataFrame) : list (string * nat) :=
  map (fun col => (col, count_true (map isnull (column_values d col))))
      (columns d).

Definition check_missing_values (self : DataValidator)
  : result (check * DataValidator) :=
  let missing := null_counts (df self) in
  let report := quality_report self in
  if (0 <? foldr Nat.add 0 (map snd missing))%nat then
    let cols := map fst (filter (fun p => (0 < snd p)%nat) missing) in
    d ← fill_missing_columns cols (df self);
    let chk := mkCheck "Missing Values" false in
    let report :=
      mkReport (checks report) (S (issues_found report))
               (issues_fixed report + length cols) in
    mret (chk, mkValidator d (append_check report chk))
  else
    let chk := mkCheck "Missing Values" true in
    mret (chk, mkValidator (df self) (append_check report chk)).

Definition check_duplicates (self : DataValidator) : check * DataValidator :=
  let report := quality_report self in
  let dup := duplicated (df self) in
  if (0 <? count_true dup)%nat then
    let chk := mkCheck "Duplicate Records" false in
    let report :=
      mkReport (checks report) (S (issues_found report))
               (S (issues_fixed report)) in
    (chk, mkValidator (boolean_index (df self) (map negb dup))
                      (append_check report chk))
  else
    let chk := mkCheck "Duplicate Records" true in
    (chk, mkValidator (df self) (append_check report chk)).

Definition check_quantity_validity (self : DataValidator)
  : result (check * DataValidator) :=
  let report := quality_report self in
  col ← get_column (df self) "quantity_kg";
  quantities ← as_floats col;
  let invalid :=
    map (fun q => (q <=? 0)%float || (100000 <? q)%float) quantities in
  if (0 <? count_true invalid)%nat then
    let chk := mkCheck "Quantity Validity" false in
    let report :=
      mkReport (checks report) (S (issues_found report))
               (S (issues_fixed report)) in
    mret (chk, mkValidator (boolean_index (df self) (map negb invalid))
                           (append_check report chk))
  else
    let chk := mkCheck "Quantity Validity" true in
    mret (chk, mkValidator (df self) (append_check report chk)).

Definition valid_values : list (string * list string) :=
  [ ("crop_type", ["Wheat"; "Rice"; "Corn"; "Pulses"; "Sugarcane"; "Cotton";
                   "Soybean"; "Vegetables"; "Fruits"; "Spices"]);
    ("region", ["North"; "South"; "East"; "West"; "Central"; "Northeast"]);
    ("quality", ["Premium"; "Grade_A"; "Grade_B"; "Grade_C"]);
    ("season", ["Winter"; "Spring"; "Summer"; "Autumn"; "Monsoon"]);
    ("market_demand", ["Very High"; "High"; "Medium"; "Low"; "Very Low"]) ].

(** One turn of the loop over [valid_values.items()]; the accumulator is the
    DataFrame, the verdict so far and the two counters. *)
Definition categorical_step (acc : DataFrame * bool * nat * nat)
    (entry : string * list string) : DataFrame * bool * nat * nat :=
  let '(d, ok, found, fixed) := acc in
  let '(column, valid_list) := entry in
  if bool_decide (column ∈ columns d) then
    let invalid :=
      map (fun c => negb (isin c valid_list)) (column_values d column) in
    if (0 <? count_true invalid)%nat then
      (boolean_index d (map negb invalid), false, S found, S fixed)
    else acc
  else acc.

Definition check_categorical_values (self : DataValidator)
  : check * DataValidator :=
  let report := quality_report self in
  let '(d, ok, found, fixed) :=
    foldl categorical_step
          (df self, true, issues_found report, issues_fixed report)
          valid_values in
  let chk := mkCheck "Categorical Values" ok in
  (chk, mkValidator d (append_check (mkReport (checks report) found fixed) chk)).

(** The smallest count of [series.value_counts()], NaN for an empty Series. *)
Definition min_value_count (l : list cell) : float :=
  let vals := filter (fun c => isnull c = false) l in
  match map (fun c => count_cell c vals) vals with
  | [] => nan
  | n :: ns => Z2float (Z.of_nat (foldr Nat.min n ns))
  end.

(** In [region_dist.min() / len(self.df)] the numerator is a numpy number
    as soon as there is a row; without rows it is the Python float nan, and
    dividing that by the int 0 raises ZeroDivisionError. *)
Definition check_data_distribution (self : DataValidator)
  : result (check * DataValidator) :=
  _ ← get_column (df self) "crop_type";
  regions ← get_column (df self) "region";
  let len := length (rows (df self)) in
  share ←
    (if Nat.eqb len 0 then Raise ZeroDivisionError
     else mret (min_value_count regions / Z2float (Z.of_nat len))%float);
  let min_region_pct := (share * 100)%float in
  let chk :=
    mkCheck "Data Distribution" (negb (min_region_pct <? 5)%float) in
  mret (chk, mkValidator (df self) (append_check (quality_report self) chk)).

Definition is_Str (c : cell) : bool :=
  match c with
  | Str _ => true
  | Num _ => false
  end.

(** [series.min()] and [series.max()] compare the entries with one another,
    a missing entry of a column of strings being replaced by an infinity
    first: a column that holds a string and anything else raises
    TypeError. *)
Definition min_max (l : list cell) : result unit :=
  if existsb is_Str l && negb (forallb is_Str l) then Raise TypeError
  else mret tt.

(** [generate_statistics]: the dict literal is evaluated entry by entry, and
    the first entry that cannot be computed raises.  The statistics go to
    the report file; what is kept of them here is whether they can be
    computed: the date range needs a date column whose entries can be
    compared, the price and quantity statistics need numbers, the counts of
    distinct values need their columns. *)
Definition generate_statistics (d : DataFrame) : result unit :=
  dates ← get_column d "date";
  _ ← min_max dates;
  prices ← get_column d "market_price";
  _ ← as_floats prices;
  quantities ← get_column d "quantity_kg";
  _ ← as_floats quantities;
  _ ← get_column d "crop_type";
  _ ← get_column d "region";
  _ ← get_column d "quality";
  _ ← get_column d "season";
  mret tt.

(** [save_report]: the statistics are computed and the report is written
    out; writing the file is not modelled. *)
Definition save_report (self : DataValidator) : result unit :=
  generate_statistics (df self).

Section Validator.

(** [np.abs(stats.zscore(series))], the scores of the alternative method. *)
Variable abs_zscore : list float -> list float.

Definition check_price_outliers (self : DataValidator)
    (method : string) (threshold : float) : result (check * DataValidator) :=
  let report := quality_report self in
  col ← get_column (df self) "market_price";
  prices ← as_floats col;
  let outliers :=
    if String.eqb method "iqr" then
      let Q1 := quantile prices 0.25 in
      let Q3 := quantile prices 0.75 in
      let IQR := (Q3 - Q1)%float in
      let lower_bound := (Q1 - threshold * IQR)%float in
      let upper_bound := (Q3 + threshold * IQR)%float in
      map (fun p => (p <? lower_bound)%float || (upper_bound <? p)%float)
          prices
    else
      map (fun z => (threshold <? z)%float) (abs_zscore prices) in
  if (0 <? count_true outliers)%nat then
    let chk := mkCheck "Price Outliers" false in
    let report :=
      mkReport (checks report) (S (issues_found report))
               (S (issues_fixed report)) in
    mret (chk, mkValidator (boolean_index (df self) (map negb outliers))
                           (append_check report chk))
  else
    let chk := mkCheck "Price Outliers" true in
    mret (chk, mkValidator (df self) (append_check report chk)).

(** [validate]: the DataFrame of the returned state is the cleaned dataset
    that [self.df.to_csv(self.filepath)] writes back after the checks.
    [loaded] is what [pd.read_csv] delivered, [None] when [load_data]
    failed.  Saving the report follows the checks and can still raise;
    printing the summary does not touch the state. *)
Definition validate (self : DataValidator) (loaded : option DataFrame)
  : result (bool * DataValidator) :=
  match loaded with
  | None => mret (false, self)
  | Some d =>
      let self := mkValidator d (quality_report self) in
      '(_, self) ← check_missing_values self;
      let '(_, self) := check_duplicates self in
      '(_, self) ← check_quantity_validity self;
      let '(_, self) := check_categorical_values self in
      '(_, self) ← check_price_outliers self "iqr" 1.5%float;
      '(_, self) ← check_data_distribution self;
      _ ← save_report self;
      mret (true, self)
  end.

End Validator.

(** [DataValidator(filepath)] before any check has run. *)
Definition new_validator : DataValidator :=
  mkValidator (mkDataFrame [] []) (mkReport [] 0 0).

(** ** data_loader.py: get_season_from_date, validate_data_quality *)

(** [date.month] is handed over as [month]. *)
Definition get_season_from_date (month : Z) : string :=
  if bool_decide (month ∈ [12; 1; 2]%Z) then "Winter"
  else if bool_decide (month ∈ [3; 4; 5]%Z) then "Spring"
  else if bool_decide (month ∈ [6; 7; 8]%Z) then "Summer"
  else "Autumn".

(** The entries of the list of issues.  They are formatted messages in the
    code; what is kept here is which message it is and the data it prints:
    the counts of the columns with missing entries, and the number of
    outliers. *)
Inductive issue :=
  | MissingValues (counts : list (string * nat))
  | NegativePrices
  | PriceOutliers (n : nat).

Definition validate_data_quality (d : DataFrame) : result (list issue) :=
  let issues := [] in
  let missing := null_counts d in
  let issues :=
    if existsb (fun p : string * nat => negb (Nat.eqb (snd p) 0)) missing then
      (issues ++ [MissingValues (filter (fun p => (0 < snd p)%nat) missing)])%list
    else issues in
  col ← get_column d "market_price";
  prices ← as_floats col;
  let issues :=
    if existsb (fun p => (p <? 0)%float) prices then
      (issues ++ [NegativePrices])%list
    else issues in
  let q1 := quantile prices 0.25 in
  let q3 := quantile prices 0.75 in
  let iqr := (q3 - q1)%float in
  let outliers :=
    boolean_index d
      (map (fun p => (p <? q1 - 1.5 * iqr)%float || (q3 + 1.5 * iqr <? p)%float)
           prices) in
  let issues :=
    if (0 <? length (rows outliers))%nat then
      (issues ++ [PriceOutliers (length (rows outliers))])%list
    else issues in
  mret issues.

(** ** generate_training_data.py: get_month_season, generate_records *)

Definition get_month_season (month : Z) : string :=
  if bool_decide (month ∈ [12; 1; 2]%Z) then "Winter"
  else if bool_decide (month ∈ [3; 4; 5]%Z) then "Spring"
  else if bool_decide (month ∈ [6; 7; 8]%Z) then "Monsoon"
  else if bool_decide (month ∈ [9; 10; 11]%Z) then "Autumn"
  else "Winter".

(** [list(self.base_prices.keys())], in the order of the dict literal. *)
Definition generator_crops : list string :=
  ["Wheat"; "Rice"; "Corn"; "Pulses"; "Sugarcane"; "Cotton"; "Soybean";
   "Vegetables"; "Fruits"; "Spices"].

Definition regions : list string :=
  ["North"; "South"; "East"; "West"; "Central"; "Northeast"].

Definition qualities : list string :=
  ["Premium"; "Grade_A"; "Grade_B"; "Grade_C"].

Definition weather_conditions : list string :=
  ["Sunny"; "Rainy"; "Cloudy"; "Hot"; "Cold"; "Moderate"; "Humid"].

Definition market_demands : list string :=
  ["Very High"; "High"; "Medium"; "Low"; "Very Low"].

Definition quantities : list Z :=
  [500; 800; 1000; 1500; 2000; 3000; 5000; 8000; 10000]%Z.

(** What one turn of the loop of [generate_records] draws at random: the
    date (its text and its month) and the six choices. *)
Record draws := mkDraws {
  draw_date : string;
  draw_month : Z;
  draw_crop_type : string;
  draw_quality : string;
  draw_region : string;
  draw_market_demand : string;
  draw_weather : string;
  draw_quantity : Z
}.

(** [np.random.choice] returns an element of the list it is given. *)
Definition drawn (w : draws) : Prop :=
  draw_crop_type w ∈ generator_crops /\
  draw_quality w ∈ qualities /\
  draw_region w ∈ regions /\
  draw_market_demand w ∈ market_demands /\
  draw_weather w ∈ weather_conditions /\
  draw_quantity w ∈ quantities.

Definition generated_columns : list string :=
  [ "date"; "crop_type"; "region"; "quality"; "quantity_kg"; "market_price";
    "season"; "weather"; "market_demand"; "source" ].

Section Generator.

(** [self.calculate_market_price]: the price carries random noise; it is a
    float whatever the draws. *)
Variable calculate_market_price :
  string -> string -> string -> string -> string -> Z -> string -> float.

(** The record of one turn, as a row of the DataFrame built from the
    records. *)
Definition generate_record (w : draws) : gmap string cell :=
  let crop_type := draw_crop_type w in
  let quality := draw_quality w in
  let region := draw_region w in
  let season := get_month_season (draw_month w) in
  let market_demand := draw_market_demand w in
  let weather := draw_weather w in
  let quantity := draw_quantity w in
  let market_price :=
    calculate_market_price crop_type quality region season market_demand
                           quantity weather in
  list_to_map
    [ ("date", Str (draw_date w)); ("crop_type", Str crop_type);
      ("region", Str region); ("quality", Str quality);
      ("quantity_kg", Num (Z2float quantity));
      ("market_price", Num market_price); ("season", Str season);
      ("weather", Str weather); ("market_demand", Str market_demand);
      ("source", Str "generated") ].

(** [pd.DataFrame(records)]: the columns are the keys of the records, and
    a DataFrame built from no record has no column. *)
Definition generate_records (ws : list draws) : DataFrame :=
  mkDataFrame (match ws with [] => [] | _ :: _ => generated_columns end)
              (map generate_record ws).

End Generator.

(** ** The fallback formula in the words of the specification

    Multipliers are looked up by name with a default; the bulk tier is
    selected by the two thresholds. *)

Definition hashable (v : pyval) : bool :=
  match v with
  | PyList _ | PyDict _ => false
  | _ => true
  end.

(** Values that can be ordered against an int. *)
Definition orderable (v : pyval) : bool :=
  match v with
  | PyBool _ | PyInt _ | PyFloat _ => true
  | _ => false
  end.

Definition holds (r : result bool) : bool :=
  match r with
  | Ok b => b
  | Raise _ => false
  end.

Definition spec_base_price (crop_type : pyval) : float :=
  match crop_type with
  | PyStr s => default 40.0%float (base_prices !! s)
  | _ => 40.0%float
  end.

Definition spec_multiplier (table : list (string * float)) (key : pyval) : float :=
  match key with
  | PyStr s =>
      match find (fun p => String.eqb (fst p) s) table with
      | Some p => snd p
      | None => 1.0%float
      end
  | _ => 1.0%float
  end.

Definition spec_quality_multiplier : pyval -> float :=
  spec_multiplier [ ("Premium", 1.2%float); ("Grade_A", 1.0%float);
                    ("Grade_B", 0.8%float); ("Grade_C", 0.6%float) ].

Definition spec_region_multiplier : pyval -> float :=
  spec_multiplier [ ("North", 1.0%float); ("South", 1.05%float);
                    ("East", 0.95%float); ("West", 1.02%float) ].

Definition spec_season_multiplier : pyval -> float :=
  spec_multiplier [ ("Winter", 1.0%float); ("Spring", 1.1%float);
                    ("Summer", 0.95%float); ("Autumn", 1.05%float) ].

Definition spec_bulk_factor (quantity_kg : pyval) : float :=
  if holds (py_gt_int quantity_kg 5000) then 0.90%float
  else if holds (py_gt_int quantity_kg 2000) && holds (py_le_int quantity_kg 5000)
       then 0.95%float
  else 1.0%float.

Definition fallback_formula (crop_type quality region season quantity_kg : pyval)
  : float :=
  py_round2 (spec_base_price crop_type * spec_quality_multiplier quality
             * spec_region_multiplier region * spec_season_multiplier season
             * spec_bulk_factor quantity_kg)%float.

(** ** The validation checks in the words of the specification *)

(** The number held by a cell (NaN for a string). *)
Definition num_at (r : gmap string cell) (col : string) : float :=
  match cell_at r col with
  | Num x => x
  | Str _ => nan
  end.

(** The column exists and holds numbers only (NaN included), as a numeric
    column read from CSV does. *)
Definition is_numeric_column (d : DataFrame) (col : string) : bool :=
  bool_decide (col ∈ columns d)
  && forallb (fun r => match cell_at r col with Num _ => true | Str _ => false end)
             (rows d).

(** "reject <= 0 or > 100000" *)
Definition quantity_rejected (q : float) : bool :=
  (q <=? 0)%float || (100000 <? q)%float.

(** "bounds = Q1 - 1.5 IQR, Q3 + 1.5 IQR" *)
Definition iqr_bounds (prices : list float) : float * float :=
  let Q1 := quantile prices 0.25 in
  let Q3 := quantile prices 0.75 in
  let IQR := (Q3 - Q1)%float in
  ((Q1 - 1.5 * IQR)%float, (Q3 + 1.5 * IQR)%float).

Definition price_rejected (bounds : float * float) (p : float) : bool :=
  (p <? fst bounds)%float || (snd bounds <? p)%float.

(** A row passes the membership check when every listed column that the
    DataFrame has holds a value of its vocabulary. *)
Definition in_vocabulary (cols : list string) (r : gmap string cell) : bool :=
  forallb (fun entry : string * list string =>
             negb (bool_decide (fst entry ∈ cols))
             || isin (cell_at r (fst entry)) (snd entry))
          valid_values.

(** The checks run in the order in which the specification lists them:
    missing values, duplicates, price outliers, quantity range, categorical
    membership. *)
Definition validate_spec_order (abs_zscore : list float -> list float)
    (self : DataValidator) (loaded : option DataFrame)
  : result (bool * DataValidator) :=
  match loaded with
  | None => mret (false, self)
  | Some d =>
      let self := mkValidator d (quality_report self) in
      '(_, self) ← check_missing_values self;
      let '(_, self) := check_duplicates self in
      '(_, self) ← check_price_outliers abs_zscore self "iqr" 1.5%float;
      '(_, self) ← check_quantity_validity self;
      let '(_, self) := check_categorical_values self in
      '(_, self) ← check_data_distribution self;
      _ ← save_report self;
      mret (true, self)
  end.

(** The dataset a run leaves behind. *)
Definition cleaned (r : result (bool * DataValidator)) : option DataFrame :=
  match r with
  | Ok (_, self) => Some (df self)
  | Raise _ => None
  end.

(** "a row whose only missing value is weather is kept with weather =
    Unknown": every such row of the loaded data is in the cleaned data, with
    [Unknown] written into its weather. *)
Definition weather_rows_kept (loaded cleaned : DataFrame) : Prop :=
  forall r, r ∈ rows loaded ->
    isnull (cell_at r "weather") = true ->
    (forall col, col ∈ columns loaded -> col <> "weather" ->
                 isnull (cell_at r col) = false) ->
    <["weather" := Str "Unknown"]> r ∈ rows cleaned.

(** ** Sample data *)

Definition rice_order (quantity_kg : pyval) : gmap string pyval :=
  list_to_map
    [ ("crop_type", PyStr "Rice"); ("quality", PyStr "Premium");
      ("region", PyStr "South"); ("season", PyStr "Spring");
      ("quantity_kg", quantity_kg); ("weather", PyStr "Rainy") ].

Definition request_body (quantity_kg : pyval) : pyval :=
  PyDict (list_to_map
            [ ("crop_type", PyStr "Wheat"); ("region", PyStr "North");
              ("quality", PyStr "Grade_A"); ("season", PyStr "Winter");
              ("quantity_kg", quantity_kg) ]).

Definition sample_columns : list string :=
  [ "date"; "crop_type"; "region"; "quality"; "quantity_kg"; "market_price";
    "season"; "weather"; "market_demand" ].

Definition sample_row (date : string) (quantity_kg market_price : float)
    (season weather market_demand : cell) : gmap string cell :=
  list_to_map
    [ ("date", Str date); ("crop_type", Str "Wheat"); ("region", Str "North");
      ("quality", Str "Grade_A"); ("quantity_kg", Num quantity_kg);
      ("market_price", Num market_price); ("season", season);
      ("weather", weather); ("market_demand", market_demand) ].

(** Five sound records and three with a zero quantity: the latter pull the
    upper quartile of the price up to 20 as long as they are in the data. *)
Definition sample_prices : DataFrame :=
  mkDataFrame sample_columns
    [ sample_row "2024-01-01" 1000 10 (Str "Winter") (Str "Sunny") (Str "High");
      sample_row "2024-01-02" 1000 10 (Str "Winter") (Str "Sunny") (Str "High");
      sample_row "2024-01-03" 1000 10 (Str "Winter") (Str "Sunny") (Str "High");
      sample_row "2024-01-04" 1000 10 (Str "Winter") (Str "Sunny") (Str "High");
      sample_row "2024-01-05" 1000 20 (Str "Winter") (Str "Sunny") (Str "High");
      sample_row "2024-01-06" 0 20 (Str "Winter") (Str "Sunny") (Str "High");
      sample_row "2024-01-07" 0 20 (Str "Winter") (Str "Sunny") (Str "High");
      sample_row "2024-01-08" 0 20 (Str "Winter") (Str "Sunny") (Str "High") ].

(** Records with gaps: no weather in the second, no season in the third, no
    demand level in the fourth, no price in the fifth. *)
Definition sample_gaps : DataFrame :=
  mkDataFrame sample_columns
    [ sample_row "2024-02-01" 1000 10 (Str "Winter") (Str "Sunny") (Str "High");
      sample_row "2024-02-02" 1500 11 (Str "Winter") (Num nan) (Str "High");
      sample_row "2024-02-03" 1000 12 (Num nan) (Str "Sunny") (Str "High");
      sample_row "2024-02-04" 1000 13 (Str "Spring") (Str "Rainy") (Num nan);
      sample_row "2024-02-05" 2000 nan (Str "Spring") (Str "Rainy") (Str "Low");
      sample_row "2024-02-06" 2000 14 (Str "Spring") (Str "Rainy") (Str "Low") ].

Definition no_zscore (prices : list float) : list float := [].

(** Four prices close to one another and one far above them. *)
Definition sample_outlier : DataFrame :=
  mkDataFrame sample_columns
    [ sample_row "2024-05-01" 1000 10 (Str "Spring") (Str "Sunny") (Str "High");
      sample_row "2024-05-02" 1000 11 (Str "Spring") (Str "Sunny") (Str "High");
      sample_row "2024-05-03" 1000 12 (Str "Spring") (Str "Sunny") (Str "High");
      sample_row "2024-05-04" 1000 13 (Str "Spring") (Str "Sunny") (Str "High");
      sample_row "2024-05-05" 1000 100 (Str "Spring") (Str "Sunny") (Str "High") ].

(** Prices whose upper quartile lies in the upper half between two
    neighbours; the highest price is exactly the upper bound. *)
Definition sample_borderline : DataFrame :=
  mkDataFrame sample_columns
    [ sample_row "2024-06-01" 1000 0.9 (Str "Summer") (Str "Sunny") (Str "High");
      sample_row "2024-06-02" 1000 0.9 (Str "Summer") (Str "Sunny") (Str "High");
      sample_row "2024-06-03" 1000 2.3 (Str "Summer") (Str "Sunny") (Str "High");
      sample_row "2024-06-04" 1000 3.4 (Str "Summer") (Str "Sunny") (Str "High");
      sample_row "2024-06-05" 1000 4.8 (Str "Summer") (Str "Sunny") (Str "High");
      sample_row "2024-06-06" 1000 9.25 (Str "Summer") (Str "Sunny") (Str "High") ].

(** Records of which the second lacks its weather, and nothing else, and
    has the quantity zero. *)
Definition sample_weather_gap : DataFrame :=
  mkDataFrame sample_columns
    [ sample_row "2024-04-01" 1000 10 (Str "Spring") (Str "Sunny") (Str "High");
      sample_row "2024-04-02" 0 11 (Str "Spring") (Num nan) (Str "High");
      sample_row "2024-04-03" 1000 12 (Str "Spring") (Str "Rainy") (Str "Low");
      sample_row "2024-04-04" 2000 13 (Str "Spring") (Str "Rainy") (Str "Low") ].

(** Records with categories from the vocabularies and from outside them: an
    unlisted crop, a region in lower case, the season [Unknown], an unlisted
    demand level; the last record is from the monsoon. *)
Definition sample_categories : DataFrame :=
  mkDataFrame sample_columns
    [ sample_row "2024-07-01" 1000 10 (Str "Winter") (Str "Sunny") (Str "High");
      <["crop_type" := Str "Barley"]>
        (sample_row "2024-07-02" 1000 10 (Str "Winter") (Str "Sunny") (Str "High"));
      <["region" := Str "north"]>
        (sample_row "2024-07-03" 1000 10 (Str "Winter") (Str "Sunny") (Str "High"));
      sample_row "2024-07-04" 1000 10 (Str "Unknown") (Str "Sunny") (Str "High");
      sample_row "2024-07-05" 1000 10 (Str "Winter") (Str "Sunny") (Str "Extreme");
      <["quality" := Str "Grade_D"]>
        (sample_row "2024-07-06" 1000 10 (Str "Winter") (Str "Sunny") (Str "High"));
      <["crop_type" := Str "Spices"]>
        (sample_row "2024-07-07" 1000 10 (Str "Monsoon") (Str "Stormy")
                    (Str "Very Low")) ].

(** One record whose crop_type was not filled in. *)
Definition sample_no_crop : DataFrame :=
  mkDataFrame ["crop_type"; "market_price"]
    [ list_to_map [ ("crop_type", Num nan); ("market_price", Num 10) ] ].

(** One record whose quantity was not filled in. *)
Definition sample_no_quantity : DataFrame :=
  mkDataFrame sample_columns
    [ sample_row "2024-03-01" nan 10 (Str "Winter") (Str "Sunny") (Str "High") ].

(** One turn of the generator: a lot of rice in July. *)
Definition sample_draws : draws :=
  mkDraws "2024-07-15" 7 "Rice" "Premium" "South" "High" "Humid" 5000.

(** ** Auxiliary notions used in the statements and proofs *)

(** The prices the base table can deliver, its default first. *)
Definition base_price_values : list float :=
  [40; 45; 65; 35; 85; 32; 55; 40; 60; 50]%float.

(** [is_numeric_column] as a proposition. *)
Definition numeric_column (d : DataFrame) (col : string) : Prop :=
  col ∈ columns d /\
  forall r, r ∈ rows d -> exists x : float, cell_at r col = Num x.

(** The DataFrame carried by the accumulator of the membership loop. *)
Definition acc_df (acc : DataFrame * bool * nat * nat) : DataFrame :=
  fst (fst (fst acc)).

(** One entry of [valid_values] on one row: the column is absent or its
    value is in the vocabulary. *)
Definition entry_ok (cols : list string) (entry : string * list string)
    (r : gmap string cell) : bool :=
  negb (bool_decide (fst entry ∈ cols)) || isin (cell_at r (fst entry)) (snd entry).

(** The value the [if / elif / else] of lines 49-54 writes into the gaps of
    a column. *)
Definition fill_value (d : DataFrame) (col : string) : result cell :=
  if String.eqb col "market_price" then
    prices ← as_floats (column_values d col);
    mret (Num (median prices))
  else if bool_decide (col ∈ ["weather"; "market_demand"; "season"]) then
    mret (Str "Unknown")
  else mode0 (column_values d col).

(** [fillna] on one entry. *)
Definition fill_cell (v c : cell) : cell := if isnull c then v else c.

(** The columns the loop visits: those with at least one gap. *)
Definition columns_with_gaps (d : DataFrame) : list string :=
  map fst (filter (fun p : string * nat => (0 < snd p)%nat) (null_counts d)).

(** The check record [chk], named [label], was appended to the report. *)
Definition appended (self self' : DataValidator) (chk : check) (label : string)
  : Prop :=
  checks (quality_report self') = (checks (quality_report self) ++ [chk])%list /\
  name chk = label.

(** The number a cell stands for in a comparison. *)
Definition num_of (c : cell) : float :=
  match c with
  | Num x => x
  | Str _ => nan
  end.

(** The date a record carries. *)
Definition date_of (r : gmap string cell) : string :=
  match cell_at r "date" with
  | Str s => s
  | Num _ => EmptyString
  end.

(** ** Bounds and tables used to state the properties of the fallback price *)

(** The factors the bulk block can apply. *)
Definition bulk_factors : list float := [0.90; 0.95; 1.0]%float.

(** [x = y] on floats, decided on their representation. *)
Definition float_eqb (x y : float) : bool := PrimFloat.Leibniz.eqb x y.

(** Every price the four tables and the three tiers can produce is already a
    two-decimal value, lies between 15.6 and 117.81, and gets smaller from
    tier to tier. *)
Definition table_price_ok (b q r s : float) : bool :=
  let p := (b * q * r * s)%float in
  forallb (fun k =>
             let x := py_round2 (p * k) in
             float_eqb (py_round2 x) x && (15.6 <=? x)%float
             && (x <=? 117.81)%float)
          bulk_factors
  && (py_round2 (p * 0.90) <? py_round2 (p * 0.95))%float
  && (py_round2 (p * 0.95) <? py_round2 (p * 1.0))%float.

(** The four quality grades price a lot in strictly decreasing order. *)
Definition quality_order_ok (b r s k : float) : bool :=
  let price q := py_round2 (b * q * r * s * k) in
  (price 1.0 <? price 1.2)%float && (price 0.8 <? price 1.0)%float
  && (price 0.6 <? price 0.8)%float.

(** The keys of the feature map that [prepare_features] builds. *)
Definition feature_keys : list string :=
  [ "crop_type"; "region"; "quality"; "quantity_kg"; "season"; "weather";
    "market_demand"; "year"; "month" ].

(** Rows of which none equals an earlier one, in the sense of
    [duplicated]. *)
Definition distinct_rows (cols : list string) (l : list (gmap string cell))
  : Prop :=
  ForallOrdPairs (fun earlier later => row_eqb cols later earlier = false) l.

(** What the counters of the quality report say about a step from [self] to
    [self']: they never go down, every issue found is counted as fixed at
    least once, and data that changed was reported as an issue. *)
Definition reported (self self' : DataValidator) : Prop :=
  (issues_found (quality_report self) <= issues_found (quality_report self'))%nat /\
  (issues_found (quality_report self') - issues_found (quality_report self)
   <= issues_fixed (quality_report self') - issues_fixed (quality_report self))%nat /\
  (issues_fixed (quality_report self) <= issues_fixed (quality_report self'))%nat /\
  (issues_found (quality_report self') = issues_found (quality_report self) ->
   df self' = df self).


(** * Properties *)

(** ** The model on concrete values *)

Example py_round2_ties :
  map py_round2 [2.675; 1.005; 0.125; 0.375; -0.125; 81.08100000000002]%float
  = [2.67; 1.0; 0.12; 0.38; -0.12; 81.08]%float.
Proof. vm_compute. reflexivity. Qed.

Example py_round2_special :
  map py_round2 [1e22; nan; infinity; -0.004]%float
  = [1e22; nan; infinity; -0.0]%float.
Proof. vm_compute. reflexivity. Qed.

Example int_to_float_range :
  int_to_float (2 ^ 1024 - 2 ^ 970 - 1) = Ok 1.7976931348623157e308%float /\
  int_to_float (2 ^ 1024 - 2 ^ 970) = Raise OverflowError.
Proof. split; vm_compute; reflexivity. Qed.

Example quantile_interpolates :
  quantile [4; 1; nan; 3; 2]%float 0.25 = 1.75%float /\
  median [1; nan; 3; 4; 2]%float = 2.5%float.
Proof. split; vm_compute; reflexivity. Qed.

Example quantile_upper_half :
  quantile [0.9; 0.9; 2.3; 3.4; 4.8; 9.25]%float 0.75 = 4.45%float /\
  iqr_bounds [0.9; 0.9; 2.3; 3.4; 4.8; 9.25]%float
  = (-3.5500000000000007, 9.25)%float /\
  map (price_rejected (iqr_bounds [0.9; 0.9; 1; 2.1; 4.7; 8.737500000000002]%float))
      [0.9; 0.9; 1; 2.1; 4.7; 8.737500000000002]%float
  = [false; false; false; false; false; true].
Proof. vm_compute. repeat split. Qed.

Example check_data_distribution_no_rows :
  check_data_distribution (mkValidator (mkDataFrame sample_columns []) (mkReport [] 0 0))
  = Raise ZeroDivisionError.
Proof. vm_compute. reflexivity. Qed.

Example validate_without_date :
  validate no_zscore new_validator
    (Some (mkDataFrame ["crop_type"; "region"; "quantity_kg"; "market_price"]
             [ list_to_map [ ("crop_type", Str "Wheat"); ("region", Str "North");
                             ("quantity_kg", Num 1000); ("market_price", Num 10) ] ]))
  = Raise KeyError.
Proof. vm_compute. reflexivity. Qed.

Example mode_ties_sorted :
  mode [Str "b"; Str "a"; Str "b"; Str "a"; Num nan; Str "c"]
  = [Str "a"; Str "b"].
Proof. vm_compute. reflexivity. Qed.

Example fallback_rice_order :
  get_fallback_prediction (rice_order (PyFloat 6000)) = Ok 81.08%float /\
  get_fallback_prediction ∅ = Ok 45.0%float /\
  get_fallback_prediction (rice_order PyNone) = Raise TypeError.
Proof. split; [|split]; vm_compute; reflexivity. Qed.

Example missing_field_message :
  predict_price_route (fun _ => None) (fun _ => Raise PredictorError) false
    2024 1 (PyDict (list_to_map [("crop_type", PyStr "Wheat"); ("quantity_kg", PyInt 5)]))
  = Response400 "Missing required fields: ['region', 'quality']".
Proof. vm_compute. reflexivity. Qed.

Example validate_sample_gaps :
  option_map (fun d => map (fun r => (cell_at r "date", cell_at r "market_price",
                                      cell_at r "weather"))
                           (rows d))
             (cleaned (validate no_zscore new_validator (Some sample_gaps)))
  = Some [ (Str "2024-02-01", Num 10, Str "Sunny");
           (Str "2024-02-02", Num 11, Str "Unknown");
           (Str "2024-02-05", Num 12, Str "Rainy");
           (Str "2024-02-06", Num 14, Str "Rainy") ].
Proof. vm_compute. reflexivity. Qed.

(** ** Order facts on binary64 numbers, from the specification of the
    primitive comparisons *)

Section FloatOrder.

Lemma SFcompare_swap (x y : spec_float) :
  SFcompare y x = option_map CompOpp (SFcompare x y).
Proof.
  destruct x as [sx|sx| |sx mx ex], y as [sy|sy| |sy my ey]; simpl;
    try reflexivity;
    try (destruct sx; reflexivity); try (destruct sy; reflexivity);
    try (destruct sx, sy; reflexivity).
  destruct sx, sy; simpl; try reflexivity; f_equal;
    rewrite (Z.compare_antisym ex ey);
    destruct (ex ?= ey)%Z; simpl; try reflexivity;
    change (PosDef.Pos.compare_cont Eq ?a ?b) with (Pos.compare a b);
    rewrite (Pos.compare_antisym mx my);
    destruct (mx ?= my)%positive; reflexivity.
Qed.

Ltac sf_cases :=
  change (PosDef.Pos.compare_cont Eq ?a ?b) with (Pos.compare a b) in *;
  repeat match goal with
  | |- context [(?a ?= ?b)%Z] => destruct (Z.compare_spec a b)
  | H : context [(?a ?= ?b)%Z] |- _ => destruct (Z.compare_spec a b)
  | |- context [(?a ?= ?b)%positive] => destruct (Pos.compare_spec a b)
  | H : context [(?a ?= ?b)%positive] |- _ => destruct (Pos.compare_spec a b)
  end;
  simpl in *; try discriminate; try reflexivity; try lia.

Lemma SFleb_SFltb_trans (x y z : spec_float) :
  SFleb x y = true -> SFltb y z = true -> SFltb z x = false.
Proof.
  unfold SFleb, SFltb.
  destruct x as [sx|sx| |sx mx ex], y as [sy|sy| |sy my ey],
           z as [sz|sz| |sz mz ez]; simpl;
    try discriminate; try reflexivity;
    repeat match goal with s : bool |- _ => destruct s end; simpl;
    try discriminate; try reflexivity; sf_cases.
Qed.

Lemma SFcompare_Eq_l (x y z : spec_float) :
  SFcompare x y = Some Eq -> SFcompare x z = SFcompare y z.
Proof.
  destruct x as [sx|sx| |sx mx ex], y as [sy|sy| |sy my ey],
           z as [sz|sz| |sz mz ez]; simpl;
    try discriminate; try reflexivity;
    repeat match goal with s : bool |- _ => destruct s end; simpl;
    try discriminate; try reflexivity; intros H;
    change (PosDef.Pos.compare_cont Eq ?a ?b) with (Pos.compare a b) in *;
    destruct (Z.compare_spec ex ey); try discriminate;
    destruct (Pos.compare_spec mx my); try discriminate; subst; reflexivity.
Qed.

Lemma leb_ltb_false (a b : float) :
  (a <=? b)%float = true -> (b <? a)%float = false.
Proof.
  rewrite FloatAxioms.leb_spec, FloatAxioms.ltb_spec. unfold SFleb, SFltb.
  rewrite (SFcompare_swap (Prim2SF a) (Prim2SF b)).
  destruct (SFcompare (Prim2SF a) (Prim2SF b)) as [[]|]; simpl; congruence.
Qed.

Lemma ltb_leb_false (a b : float) :
  (a <? b)%float = true -> (b <=? a)%float = false.
Proof.
  rewrite FloatAxioms.leb_spec, FloatAxioms.ltb_spec. unfold SFleb, SFltb.
  rewrite (SFcompare_swap (Prim2SF a) (Prim2SF b)).
  destruct (SFcompare (Prim2SF a) (Prim2SF b)) as [[]|]; simpl; congruence.
Qed.

Lemma leb_ltb_trans_false (a b c : float) :
  (a <=? b)%float = true -> (b <? c)%float = true -> (c <? a)%float = false.
Proof. rewrite FloatAxioms.leb_spec, !FloatAxioms.ltb_spec. apply SFleb_SFltb_trans. Qed.

(** Two numbers that are ordered at all are ordered one way or the other. *)
Lemma ltb_false_leb (a b c : float) :
  (a <? b)%float = true -> (c <? b)%float = false ->
  (c =? c)%float = true -> (b <=? c)%float = true.
Proof.
  rewrite FloatAxioms.leb_spec, !FloatAxioms.ltb_spec, FloatAxioms.eqb_spec. unfold SFleb, SFltb, SFeqb.
  rewrite (SFcompare_swap (Prim2SF b) (Prim2SF c)).
  destruct (Prim2SF a) as [sx|sx| |sx mx ex], (Prim2SF b) as [sy|sy| |sy my ey],
           (Prim2SF c) as [sz|sz| |sz mz ez]; simpl;
    try discriminate; try reflexivity;
    repeat match goal with s : bool |- _ => destruct s end; simpl;
    try discriminate; try reflexivity; sf_cases.
Qed.

Lemma eqb_leb_l (x y c : float) :
  (x =? y)%float = true -> (x <=? c)%float = (y <=? c)%float.
Proof.
  rewrite FloatAxioms.eqb_spec, !FloatAxioms.leb_spec. unfold SFeqb, SFleb. intros H.
  destruct (SFcompare (Prim2SF x) (Prim2SF y)) as [[]|] eqn:E; try discriminate.
  now rewrite (SFcompare_Eq_l _ _ _ E).
Qed.

Lemma eqb_ltb_r (x y c : float) :
  (x =? y)%float = true -> (c <? x)%float = (c <? y)%float.
Proof.
  rewrite FloatAxioms.eqb_spec, !FloatAxioms.ltb_spec. unfold SFeqb, SFltb. intros H.
  destruct (SFcompare (Prim2SF x) (Prim2SF y)) as [[]|] eqn:E; try discriminate.
  rewrite (SFcompare_swap (Prim2SF x) (Prim2SF c)),
          (SFcompare_swap (Prim2SF y) (Prim2SF c)).
  now rewrite (SFcompare_Eq_l _ _ _ E).
Qed.

Lemma eqb_ltb_l (x y c : float) :
  (x =? y)%float = true -> (x <? c)%float = (y <? c)%float.
Proof.
  rewrite FloatAxioms.eqb_spec, !FloatAxioms.ltb_spec. unfold SFeqb, SFltb. intros H.
  destruct (SFcompare (Prim2SF x) (Prim2SF y)) as [[]|] eqn:E; try discriminate.
  now rewrite (SFcompare_Eq_l _ _ _ E).
Qed.

Lemma is_nan_eq (x : float) : PrimFloat.is_nan x = true -> x = nan.
Proof.
  unfold PrimFloat.is_nan. rewrite FloatAxioms.eqb_spec. unfold SFeqb. intros H.
  apply Prim2SF_inj.
  destruct (Prim2SF x) as [s|s| |s m e] eqn:E; simpl in H.
  - discriminate.
  - destruct s; discriminate.
  - reflexivity.
  - exfalso. destruct s; simpl in H;
      rewrite Z.compare_refl in H;
      change (PosDef.Pos.compare_cont Eq m m) with (Pos.compare m m) in H;
      rewrite Pos.compare_refl in H; discriminate.
Qed.

End FloatOrder.


(** ** Dict literals *)

Lemma list_to_map_find (l : list (string * float)) (d : float) (s : string) :
  default d ((list_to_map l : gmap string float) !! s) =
  match find (fun p => String.eqb (fst p) s) l with
  | Some p => snd p
  | None => d
  end.
Proof.
  induction l as [|[k v] l IH]; simpl.
  - now rewrite lookup_empty.
  - destruct (String.eqb_spec k s) as [->|Hne].
    + now rewrite lookup_insert_eq.
    + now rewrite lookup_insert_ne.
Qed.

Lemma dict_get_hashable {A : Type} (d : gmap string A) (key : pyval) (dflt : A) :
  dict_get d key dflt =
  if hashable key
  then Ok match key with PyStr s => default dflt (d !! s) | _ => dflt end
  else Raise TypeError.
Proof. destruct key; reflexivity. Qed.

Lemma lookup_default_values (l : list (string * float)) (d : float) (s : string) :
  default d ((list_to_map l : gmap string float) !! s) ∈ d :: l.*2.
Proof.
  rewrite list_to_map_find.
  induction l as [|[k v] t IH]; simpl.
  - apply list_elem_of_here.
  - destruct (String.eqb k s); simpl.
    + apply list_elem_of_further, list_elem_of_here.
    + rewrite !elem_of_cons in *. tauto.
Qed.

Lemma spec_base_price_values (crop_type : pyval) :
  spec_base_price crop_type ∈ base_price_values.
Proof.
  destruct crop_type; simpl; try apply list_elem_of_here.
  unfold base_prices.
  match goal with
  | |- context [list_to_map ?l] => exact (lookup_default_values l 40.0%float s)
  end.
Qed.

Lemma spec_multiplier_values (table : list (string * float)) (key : pyval) :
  spec_multiplier table key ∈ 1.0%float :: table.*2.
Proof.
  destruct key; simpl; try apply list_elem_of_here.
  rewrite <- list_to_map_find. apply lookup_default_values.
Qed.

(** Multiplying any price the four tables can produce by [1.0] is exact. *)
Lemma table_price_mul_one (b q r s : float) :
  b ∈ base_price_values ->
  q ∈ [1.0; 1.2; 1.0; 0.8; 0.6]%float ->
  r ∈ [1.0; 1.0; 1.05; 0.95; 1.02]%float ->
  s ∈ [1.0; 1.0; 1.1; 0.95; 1.05]%float ->
  (b * q * r * s * 1.0)%float = (b * q * r * s)%float.
Proof.
  unfold base_price_values. rewrite !elem_of_cons, !elem_of_nil.
  intros Hb Hq Hr Hs.
  repeat match goal with H : _ \/ _ |- _ => destruct H as [H|H] end;
    try contradiction; subst; vm_compute; reflexivity.
Qed.

Lemma spec_price_mul_one (crop_type quality region season : pyval) :
  (spec_base_price crop_type * spec_quality_multiplier quality
   * spec_region_multiplier region * spec_season_multiplier season * 1.0)%float
  = (spec_base_price crop_type * spec_quality_multiplier quality
     * spec_region_multiplier region * spec_season_multiplier season)%float.
Proof.
  apply table_price_mul_one.
  - apply spec_base_price_values.
  - exact (spec_multiplier_values _ quality).
  - exact (spec_multiplier_values _ region).
  - exact (spec_multiplier_values _ season).
Qed.

Lemma price_before_discount_spec (features : gmap string pyval) :
  let crop_type := features_get features "crop_type" (PyStr "Wheat") in
  let quality := features_get features "quality" (PyStr "Grade_A") in
  let region := features_get features "region" (PyStr "North") in
  let season := features_get features "season" (PyStr "Winter") in
  price_before_discount features =
  if hashable crop_type && hashable quality && hashable region && hashable season
  then Ok (spec_base_price crop_type * spec_quality_multiplier quality
           * spec_region_multiplier region * spec_season_multiplier season)%float
  else Raise TypeError.
Proof.
  intros crop_type quality region season.
  unfold price_before_discount.
  fold crop_type quality region season.
  rewrite !dict_get_hashable.
  destruct (hashable crop_type); [|reflexivity].
  destruct (hashable quality); [|reflexivity].
  destruct (hashable region); [|reflexivity].
  destruct (hashable season); [|reflexivity].
  simpl. unfold mret, result_ret. f_equal.
  unfold spec_quality_multiplier, spec_region_multiplier, spec_season_multiplier,
    quality_multiplier, region_multiplier, season_multiplier, spec_base_price.
  clearbody crop_type quality region season.
  f_equal; [f_equal; [f_equal|]|].
  - destruct quality; try reflexivity. apply list_to_map_find.
  - destruct region; try reflexivity. apply list_to_map_find.
  - destruct season; try reflexivity. apply list_to_map_find.
Qed.

Lemma Z2float_5000 : Z2float 5000 = 5000%float.
Proof. vm_compute. reflexivity. Qed.

Lemma Z2float_2000 : Z2float 2000 = 2000%float.
Proof. vm_compute. reflexivity. Qed.

Lemma bulk_discount_spec (price : float) (quantity : pyval) :
  (price * 1.0)%float = price ->
  bulk_discount price quantity =
  if orderable quantity then Ok (price * spec_bulk_factor quantity)%float
  else Raise TypeError.
Proof.
  intros Hone. unfold bulk_discount, spec_bulk_factor.
  destruct quantity as [|b|z|f|s|l|d]; try reflexivity; simpl.
  - destruct b; simpl; unfold mret, result_ret; now rewrite Hone.
  - destruct (5000 <? z)%Z eqn:E5; simpl; [reflexivity|].
    destruct (2000 <? z)%Z eqn:E2; simpl; unfold mret, result_ret.
    + replace (z <=? 5000)%Z with true by lia. reflexivity.
    + now rewrite Hone.
  - rewrite Z2float_5000, Z2float_2000.
    destruct (5000 <? f)%float eqn:E5; simpl; [reflexivity|].
    destruct (2000 <? f)%float eqn:E2; simpl; unfold mret, result_ret.
    + rewrite (ltb_false_leb 2000 f 5000 E2 E5 eq_refl). reflexivity.
    + now rewrite Hone.
Qed.

(** C1. For every feature map the fallback price is
    [round(base * q * r * s * bulk, 2)]: [base] is the crop's base price
    (40.0 when the crop is not in the table), [q], [r] and [s] are the
    quality, region and season multipliers with default 1.0, and [bulk] is
    the quantity tier.  A list or dict where a name is expected, or a
    quantity that cannot be compared with a number, raises TypeError. *)
Theorem get_fallback_prediction_formula (features : gmap string pyval) :
  let crop_type := features_get features "crop_type" (PyStr "Wheat") in
  let quality := features_get features "quality" (PyStr "Grade_A") in
  let region := features_get features "region" (PyStr "North") in
  let season := features_get features "season" (PyStr "Winter") in
  let quantity_kg := features_get features "quantity_kg" (PyInt 1000) in
  get_fallback_prediction features =
  if hashable crop_type && hashable quality && hashable region && hashable season
     && orderable quantity_kg
  then Ok (fallback_formula crop_type quality region season quantity_kg)
  else Raise TypeError.
Proof.
  intros crop_type quality region season quantity_kg.
  unfold get_fallback_prediction.
  rewrite price_before_discount_spec.
  fold crop_type quality region season quantity_kg.
  destruct (hashable crop_type && hashable quality && hashable region
            && hashable season); [|reflexivity].
  simpl. rewrite bulk_discount_spec by apply spec_price_mul_one.
  destruct (orderable quantity_kg); reflexivity.
Qed.


Lemma price_before_discount_mul_one (features : gmap string pyval) (price : float) :
  price_before_discount features = Ok price -> (price * 1.0)%float = price.
Proof.
  rewrite price_before_discount_spec.
  destruct (_ && _); [|discriminate].
  intros [= <-]. apply spec_price_mul_one.
Qed.

Lemma spec_bulk_factor_above_5000 (q : pyval) :
  py_gt_int q 5000 = Ok true -> spec_bulk_factor q = 0.90%float.
Proof. unfold spec_bulk_factor. now intros ->. Qed.

Lemma py_le_gt_5000 (q : pyval) :
  py_le_int q 5000 = Ok true -> py_gt_int q 5000 = Ok false.
Proof.
  destruct q as [|b|z|f|s|l|d]; simpl; try discriminate; intros [= H]; f_equal.
  - now destruct b.
  - lia.
  - now apply leb_ltb_false.
Qed.

Lemma py_le_2000_gt (q : pyval) :
  py_le_int q 2000 = Ok true ->
  py_gt_int q 5000 = Ok false /\ py_gt_int q 2000 = Ok false.
Proof.
  destruct q as [|b|z|f|s|l|d]; simpl; try discriminate; intros [= H];
    split; f_equal.
  - now destruct b.
  - now destruct b.
  - lia.
  - lia.
  - rewrite Z2float_5000. rewrite Z2float_2000 in H.
    now apply (leb_ltb_trans_false f 2000 5000).
  - now apply leb_ltb_false.
Qed.

Lemma spec_bulk_factor_middle (q : pyval) :
  py_gt_int q 2000 = Ok true -> py_le_int q 5000 = Ok true ->
  spec_bulk_factor q = 0.95%float.
Proof.
  intros H2 H5. unfold spec_bulk_factor.
  now rewrite (py_le_gt_5000 q H5), H2, H5.
Qed.

Lemma spec_bulk_factor_below (q : pyval) :
  py_le_int q 2000 = Ok true -> spec_bulk_factor q = 1.0%float.
Proof.
  intros H. unfold spec_bulk_factor.
  destruct (py_le_2000_gt q H) as [-> ->]. reflexivity.
Qed.

Lemma py_gt_int_orderable (q : pyval) (n : Z) (b : bool) :
  py_gt_int q n = Ok b -> orderable q = true.
Proof. now destruct q. Qed.

Lemma py_le_int_orderable (q : pyval) (n : Z) (b : bool) :
  py_le_int q n = Ok b -> orderable q = true.
Proof. now destruct q. Qed.

Lemma get_fallback_prediction_factor (features : gmap string pyval) (price : float) :
  price_before_discount features = Ok price ->
  orderable (features_get features "quantity_kg" (PyInt 1000)) = true ->
  get_fallback_prediction features =
  Ok (py_round2
        (price * spec_bulk_factor (features_get features "quantity_kg" (PyInt 1000)))).
Proof.
  intros Hp Ho. unfold get_fallback_prediction. rewrite Hp. simpl.
  rewrite bulk_discount_spec by now apply (price_before_discount_mul_one features).
  now rewrite Ho.
Qed.

(** C2. The bulk discount of the fallback price: the factor is 0.90 above
    5000 kg, 0.95 above 2000 kg and up to 5000 kg, and 1.0 (the price is
    left as it is) up to 2000 kg; 5000 kg itself falls in the 0.95 tier and
    2000 kg itself gets no discount. *)
Theorem bulk_discount_tiers (features : gmap string pyval) (price : float) :
  price_before_discount features = Ok price ->
  let quantity_kg := features_get features "quantity_kg" (PyInt 1000) in
  (py_gt_int quantity_kg 5000 = Ok true ->
     get_fallback_prediction features = Ok (py_round2 (price * 0.90))) /\
  (py_gt_int quantity_kg 2000 = Ok true -> py_le_int quantity_kg 5000 = Ok true ->
     get_fallback_prediction features = Ok (py_round2 (price * 0.95))) /\
  (py_le_int quantity_kg 2000 = Ok true ->
     get_fallback_prediction features = Ok (py_round2 (price * 1.0)) /\
     (price * 1.0)%float = price) /\
  (quantity_kg = PyInt 5000 \/ quantity_kg = PyFloat 5000 ->
     get_fallback_prediction features = Ok (py_round2 (price * 0.95))) /\
  (quantity_kg = PyInt 2000 \/ quantity_kg = PyFloat 2000 ->
     get_fallback_prediction features = Ok (py_round2 (price * 1.0))).
Proof.
  intros Hp quantity_kg.
  pose proof (get_fallback_prediction_factor features price Hp) as Hf.
  fold quantity_kg in Hf. clearbody quantity_kg.
  repeat split.
  - intros H. rewrite Hf by exact (py_gt_int_orderable _ _ _ H).
    now rewrite (spec_bulk_factor_above_5000 _ H).
  - intros H2 H5. rewrite Hf by exact (py_gt_int_orderable _ _ _ H2).
    now rewrite (spec_bulk_factor_middle _ H2 H5).
  - rewrite Hf by exact (py_le_int_orderable _ _ _ H).
    now rewrite (spec_bulk_factor_below _ H).
  - now apply (price_before_discount_mul_one features).
  - intros [-> | ->]; rewrite Hf by reflexivity; reflexivity.
  - intros [-> | ->]; rewrite Hf by reflexivity; reflexivity.
Qed.

Lemma bulk_discount_tiers_witness :
  get_fallback_prediction (rice_order (PyFloat 6000)) = Ok 81.08%float /\
  get_fallback_prediction (rice_order (PyFloat 5000)) = Ok 85.59%float /\
  get_fallback_prediction (rice_order (PyInt 2000)) = Ok 90.09%float.
Proof.
  split; [|split].
  - destruct (bulk_discount_tiers (rice_order (PyFloat 6000))
                (65 * 1.2 * 1.05 * 1.1)%float eq_refl) as (H & _).
    apply H. reflexivity.
  - destruct (bulk_discount_tiers (rice_order (PyFloat 5000))
                (65 * 1.2 * 1.05 * 1.1)%float eq_refl) as (_ & H & _).
    apply H; reflexivity.
  - destruct (bulk_discount_tiers (rice_order (PyInt 2000))
                (65 * 1.2 * 1.05 * 1.1)%float eq_refl) as (_ & _ & H & _).
    apply H. reflexivity.
Defined.

(** C8. The fallback price is a function of five entries of the feature map:
    two maps that agree on crop_type, quality, region, season and
    quantity_kg give the same result (the same price or the same error),
    whatever else they hold.  The function only reads its argument. *)
Theorem get_fallback_prediction_depends_only (f1 f2 : gmap string pyval) :
  (forall k : string,
      k ∈ ["crop_type"; "quality"; "region"; "season"; "quantity_kg"] ->
      f1 !! k = f2 !! k) ->
  get_fallback_prediction f1 = get_fallback_prediction f2.
Proof.
  intros H.
  unfold get_fallback_prediction, price_before_discount, features_get.
  rewrite !H by (rewrite !elem_of_cons; tauto).
  reflexivity.
Qed.

Lemma get_fallback_prediction_depends_only_witness :
  get_fallback_prediction (rice_order (PyFloat 6000)) =
  get_fallback_prediction (<["weather" := PyStr "Sunny"]> (rice_order (PyFloat 6000))).
Proof.
  apply get_fallback_prediction_depends_only.
  intros k Hk. rewrite lookup_insert_ne; [reflexivity|].
  intros <-. revert Hk. rewrite !elem_of_cons, elem_of_nil.
  intros [H|[H|[H|[H|[H|[]]]]]]; discriminate H.
Defined.


(** ** The /api/predict handler *)

Section Handler.

Variable float_of_str : string -> option float.
Variable predict : gmap string pyval -> result float.
Variable model_loaded : bool.
Variable now_year now_month : Z.

Local Abbreviation route :=
  (predict_price_route float_of_str predict model_loaded now_year now_month).

(** X7. A body that is not an object: 400 when it is falsy, a list or a
    str; 500 when it is a number or a boolean that counts as true, since
    [field in data] raises TypeError outside the [try] of validate_input. *)
Lemma predict_price_route_non_dict (data : pyval) :
  (forall d, data <> PyDict d) ->
  status_code (route data) =
  if negb (py_truthy data) then 400%Z
  else match data with
       | PyList _ | PyStr _ => 400%Z
       | _ => 500%Z
       end.
Proof.
  intros Hnd. unfold predict_price_route, predict_price_route_body.
  destruct data as [|b|z|f|s|l|d]; [| | | | | |now contradiction (Hnd d)];
    (destruct (py_truthy _) eqn:Et; simpl; [|reflexivity]);
    try reflexivity.
  - unfold validate_input.
    destruct (missing_fields_of required_fields (PyStr s)) as [[|m ms]|e] eqn:E;
      simpl; try reflexivity.
    simpl in E. repeat destruct (is_substring _ s); discriminate E.
  - unfold validate_input.
    destruct (missing_fields_of required_fields (PyList l)) as [[|m ms]|e] eqn:E;
      simpl; try reflexivity.
    simpl in E. repeat destruct (existsb _ l); discriminate E.
Qed.

Lemma missing_fields_of_dict (fields : list string) (d : gmap string pyval) :
  missing_fields_of fields (PyDict d) =
  Ok (filter (fun field => d !! field = None) fields).
Proof.
  induction fields as [|f fs IH]; [reflexivity|].
  simpl. rewrite IH. simpl. unfold mret, result_ret. f_equal.
  destruct (d !! f) eqn:E.
  - rewrite bool_decide_eq_true_2 by (now exists p).
    rewrite filter_cons_False; [reflexivity|]. now rewrite E.
  - rewrite bool_decide_eq_false_2 by (intros [? ?]; discriminate).
    rewrite filter_cons_True; [reflexivity|exact E].
Qed.

(** Once the input is valid, the handler answers 200 or 500. *)
Lemma after_validation_not_400 (data : pyval) (r : response) :
  (features ← prepare_features float_of_str now_year now_month data;
   '(predicted_price, confidence, method) ←
      make_prediction predict model_loaded features;
   quantity_kg ← py_float float_of_str
                   (features_get features "quantity_kg" PyNone);
   let total_value := (predicted_price * quantity_kg)%float in
   mret (Response200 (py_round2 predicted_price) confidence method
           (py_round2 total_value) features)) = Ok r ->
  status_code r = 200%Z.
Proof.
  destruct (prepare_features _ _ _ data) as [features|e]; simpl;
    [|discriminate].
  destruct (make_prediction _ _ features) as [[[p c] m]|e]; simpl;
    [|discriminate].
  destruct (py_float _ _) as [q|e]; simpl; [|discriminate].
  now intros [= <-].
Qed.

(** Only the answer 200 carries [success: True]. *)
Lemma success_iff_200 (r : response) :
  success r = true <-> status_code r = 200%Z.
Proof. destruct r; simpl; split; intros H; try reflexivity; discriminate H. Qed.

(** X6. A body that is an object is rejected with 400 exactly when it is
    empty, a required field is absent, or the quantity raises ValueError or
    TypeError on conversion or converts to a number [<= 0]. *)
Lemma predict_price_route_400_dict (d : gmap string pyval) :
  status_code (route (PyDict d)) = 400%Z <->
  size d = 0%nat \/
  (exists field, field ∈ required_fields /\ d !! field = None) \/
  (exists v, d !! "quantity_kg" = Some v /\
     (py_float float_of_str v = Raise ValueError \/
      py_float float_of_str v = Raise TypeError \/
      exists x, py_float float_of_str v = Ok x /\ (x <=? 0)%float = true)).
Proof.
  unfold predict_price_route, predict_price_route_body. simpl.
  destruct (size d) as [|n] eqn:Esize; simpl.
  { split; [now left|reflexivity]. }
  unfold validate_input. rewrite missing_fields_of_dict. simpl.
  destruct (filter _ required_fields) as [|m ms] eqn:Emiss; simpl.
  - assert (Hall : forall field, field ∈ required_fields ->
                                 d !! field <> None).
    { intros field Hf Hnone.
      assert (field ∈ filter (fun field => d !! field = None) required_fields)
        as Hin by (apply list_elem_of_filter; now split).
      rewrite Emiss in Hin. now apply elem_of_nil in Hin. }
    destruct (d !! "quantity_kg") as [v|] eqn:Ev.
    2:{ exfalso. apply (Hall "quantity_kg"); [|exact Ev].
        unfold required_fields. rewrite !elem_of_cons. tauto. }
    simpl.
    destruct (py_float float_of_str v) as [x|e] eqn:Ef.
    + destruct (x <=? 0)%float eqn:Ex; simpl.
      * split; [|reflexivity]. intros _. right. right.
        exists v. split; [reflexivity|]. right. right. now exists x.
      * match goal with
        | |- context [match ?m with Ok _ => _ | Raise _ => _ end] =>
            destruct m as [r|e] eqn:Er
        end.
        -- rewrite (after_validation_not_400 _ _ Er).
           split; [discriminate|].
           intros [H|[(f & Hf & Hn)|(v' & [= <-] & [H|[H|(x' & H & Hx)]])]];
             try discriminate; try congruence.
           now apply (Hall f) in Hn.
        -- split; [discriminate|].
           intros [H|[(f & Hf & Hn)|(v' & [= <-] & [H|[H|(x' & H & Hx)]])]];
             try discriminate; try congruence.
           now apply (Hall f) in Hn.
    + destruct e; simpl;
        try (split; [discriminate|];
             intros [H|[(f & Hf & Hn)|(v' & [= <-] & [H|[H|(x' & H & Hx)]])]];
             try discriminate; try congruence;
             now apply (Hall f) in Hn).
      * split; [|reflexivity]. intros _. right. right.
        exists v. split; [reflexivity|]. now right; left.
      * split; [|reflexivity]. intros _. right. right.
        exists v. split; [reflexivity|]. now left.
  - split; [|reflexivity]. intros _. right. left. exists m.
    assert (m ∈ filter (fun field => d !! field = None) required_fields)
      as Hin by (rewrite Emiss; apply list_elem_of_here).
    apply list_elem_of_filter in Hin. tauto.
Qed.

(** A valid request whose features the fallback formula can price is
    answered 200, whatever the model does. *)
Lemma predict_price_route_accepts (data : pyval) (message : string)
    (features : gmap string pyval) (q p : float) :
  py_truthy data = true ->
  validate_input float_of_str data = Ok (true, message) ->
  prepare_features float_of_str now_year now_month data = Ok features ->
  py_float float_of_str (features_get features "quantity_kg" PyNone) = Ok q ->
  get_fallback_prediction features = Ok p ->
  status_code (route data) = 200%Z.
Proof.
  intros Ht Hv Hf Hq Hp.
  unfold predict_price_route, predict_price_route_body.
  rewrite Ht, Hv. simpl. rewrite Hf. simpl.
  unfold make_prediction. rewrite Hp. simpl.
  destruct model_loaded; [destruct (predict features)|]; simpl;
    rewrite Hq; reflexivity.
Qed.

(** C9. An integer quantity too large for a binary64 float cannot be
    converted, yet the request is not answered with 400: the OverflowError
    of [float] is not among the exceptions [validate_input] catches, and
    the catch-all of the handler answers 500.  A body that is a bare number
    is answered 500 as well.  A quantity above 100000 is accepted. *)
Theorem predict_price_route_overflow :
  py_float float_of_str (PyInt (10 ^ 400)) = Raise OverflowError /\
  route (request_body (PyInt (10 ^ 400))) = Response500 OverflowError /\
  route (PyInt 5) = Response500 TypeError /\
  status_code (route (request_body (PyInt 200000))) = 200%Z.
Proof.
  split; [|split; [|split]].
  - vm_compute. reflexivity.
  - vm_compute. reflexivity.
  - vm_compute. reflexivity.
  - apply (predict_price_route_accepts (request_body (PyInt 200000)) "Valid"
             (list_to_map
                [ ("crop_type", PyStr "Wheat"); ("region", PyStr "North");
                  ("quality", PyStr "Grade_A");
                  ("quantity_kg", PyFloat 200000);
                  ("season", PyStr "Winter"); ("weather", PyStr "Normal");
                  ("market_demand", PyStr "Medium");
                  ("year", PyInt now_year); ("month", PyInt now_month) ])
             200000%float 40.5%float);
      vm_compute; reflexivity.
Qed.

End Handler.


(** ** Boolean masks and row selection *)

Section Masks.
Context {A : Type}.

Lemma select_map (f : A -> bool) (l : list A) :
  select (map f l) l = filter (fun x => f x = true) l.
Proof.
  induction l as [|x l IH]; [reflexivity|].
  simpl. destruct (f x) eqn:E.
  - rewrite filter_cons_True by exact E. now rewrite IH.
  - rewrite filter_cons_False by congruence. exact IH.
Qed.

Lemma select_map_negb (f : A -> bool) (l : list A) :
  select (map negb (map f l)) l = filter (fun x => f x = false) l.
Proof.
  rewrite map_map, select_map.
  apply list_filter_iff. intros x. now destruct (f x).
Qed.

Lemma count_true_map_zero (f : A -> bool) (l : list A) :
  (0 <? count_true (map f l))%nat = false ->
  filter (fun x => f x = false) l = l.
Proof.
  unfold count_true. intros H. apply Nat.ltb_ge in H.
  induction l as [|x l IH]; [reflexivity|].
  simpl in H. destruct (f x) eqn:E.
  - rewrite filter_cons_True in H by reflexivity. simpl in H. lia.
  - rewrite filter_cons_False in H by discriminate.
    rewrite filter_cons_True by exact E. now rewrite IH.
Qed.

End Masks.

(** What every removing check does with its mask: the rows flagged are
    dropped, in both branches of the [if]. *)
Lemma mask_removal (d : DataFrame) (f : gmap string cell -> bool) :
  let mask := map f (rows d) in
  rows (if (0 <? count_true mask)%nat
        then boolean_index d (map negb mask) else d)
  = filter (fun r => f r = false) (rows d).
Proof.
  intros mask. subst mask.
  destruct (0 <? count_true (map f (rows d)))%nat eqn:E.
  - simpl. apply select_map_negb.
  - symmetry. now apply count_true_map_zero.
Qed.

Lemma mask_removal_columns (d : DataFrame) (mask : list bool) :
  columns (if (0 <? count_true mask)%nat
           then boolean_index d (map negb mask) else d)
  = columns d.
Proof. now destruct (0 <? count_true mask)%nat. Qed.

(** ** Numeric columns *)

Lemma is_numeric_column_true (d : DataFrame) (col : string) :
  is_numeric_column d col = true <-> numeric_column d col.
Proof.
  unfold is_numeric_column, numeric_column.
  rewrite andb_true_iff, bool_decide_eq_true, forallb_forall.
  split; intros [Hc Hn]; (split; [exact Hc|]); intros r Hr.
  - apply list_elem_of_In in Hr. specialize (Hn r Hr).
    destruct (cell_at r col) as [x|]; [now exists x|discriminate].
  - apply list_elem_of_In in Hr. destruct (Hn r Hr) as [x ->]. reflexivity.
Qed.

Lemma as_floats_numeric (l : list (gmap string cell)) (col : string) :
  (forall r, r ∈ l -> exists x : float, cell_at r col = Num x) ->
  as_floats (map (fun r => cell_at r col) l) = Ok (map (fun r => num_at r col) l).
Proof.
  induction l as [|r l IH]; intros H; [reflexivity|].
  simpl. destruct (H r (list_elem_of_here _ _)) as [x Hx].
  unfold num_at at 1. rewrite Hx.
  rewrite IH by (intros r' Hr'; apply H; now apply list_elem_of_further).
  reflexivity.
Qed.

Lemma as_floats_inv (l : list cell) (fs : list float) :
  as_floats l = Ok fs -> l = map Num fs.
Proof.
  revert fs. induction l as [|[x|s] l IH]; intros fs; simpl.
  - now intros [= <-].
  - destruct (as_floats l) as [fs'|e]; simpl; [|discriminate].
    intros [= <-]. simpl. f_equal. now apply IH.
  - discriminate.
Qed.

Lemma numeric_column_floats (d : DataFrame) (col : string) :
  numeric_column d col ->
  (col' ← get_column d col; as_floats col')
  = Ok (map (fun r => num_at r col) (rows d)).
Proof.
  intros [Hc Hn]. unfold get_column.
  rewrite bool_decide_eq_true_2 by exact Hc. simpl.
  now apply as_floats_numeric.
Qed.

Lemma get_floats_inv (d : DataFrame) (col : string) (fs : list float) :
  (col' ← get_column d col; as_floats col') = Ok fs ->
  numeric_column d col /\ fs = map (fun r => num_at r col) (rows d).
Proof.
  unfold get_column. case_bool_decide as Hc; simpl; [|discriminate].
  intros H. apply as_floats_inv in H.
  assert (Hn : forall r, r ∈ rows d -> exists x : float, cell_at r col = Num x).
  { intros r Hr. unfold column_values in H.
    apply list_elem_of_lookup in Hr as [i Hi].
    apply (f_equal (fun l => l !! i)) in H.
    rewrite !list_lookup_fmap, Hi in H. simpl in H.
    destruct (fs !! i) as [x|]; simpl in H; [|discriminate]. exists x. congruence. }
  split; [now split|].
  pose proof (as_floats_numeric (rows d) col Hn) as H'.
  unfold column_values in H. rewrite H in H'.
  clear -H'. revert H'. generalize (map (fun r => num_at r col) (rows d)).
  induction fs as [|x fs IH]; intros [|y l]; simpl.
  - reflexivity.
  - discriminate.
  - destruct (as_floats (map Num fs)); discriminate.
  - destruct (as_floats (map Num fs)) eqn:E; simpl; [|discriminate].
    intros [= -> ->]. f_equal. now apply IH.
Qed.


(** ** The removing checks *)

(** C7. The quantity check removes exactly the rows whose quantity_kg is
    [<= 0] or [> 100000]; the rows that stay are the rows as they were, in
    their order; in particular every row with [0 < quantity_kg <= 100000]
    stays. *)
Theorem check_quantity_validity_range (self : DataValidator) :
  is_numeric_column (df self) "quantity_kg" = true ->
  exists chk self',
    check_quantity_validity self = Ok (chk, self') /\
    columns (df self') = columns (df self) /\
    rows (df self') =
      filter (fun r => quantity_rejected (num_at r "quantity_kg") = false)
             (rows (df self)) /\
    (forall r, r ∈ rows (df self) ->
       (r ∉ rows (df self') <->
        (num_at r "quantity_kg" <=? 0)%float = true \/
        (100000 <? num_at r "quantity_kg")%float = true)) /\
    (forall r, r ∈ rows (df self) ->
       (0 <? num_at r "quantity_kg")%float = true ->
       (num_at r "quantity_kg" <=? 100000)%float = true ->
       r ∈ rows (df self')).
Proof.
  intros Hnum. apply is_numeric_column_true in Hnum.
  pose proof (numeric_column_floats _ _ Hnum) as Hfs.
  unfold check_quantity_validity.
  destruct (get_column (df self) "quantity_kg") as [col|e]; simpl in Hfs;
    [|discriminate].
  simpl. rewrite Hfs. simpl. rewrite map_map.
  set (rejected := fun r : gmap string cell =>
         ((num_at r "quantity_kg" <=? 0)%float
          || (100000 <? num_at r "quantity_kg")%float)).
  change (map _ (rows (df self))) with (map rejected (rows (df self))).
  pose proof (mask_removal (df self) rejected) as Hrows.
  pose proof (mask_removal_columns (df self) (map rejected (rows (df self))))
    as Hcols.
  simpl in Hrows.
  assert (Hfilter :
    forall rs : list (gmap string cell),
      rs = filter (fun r => rejected r = false) (rows (df self)) ->
      (forall r, r ∈ rows (df self) ->
         (r ∉ rs <->
          (num_at r "quantity_kg" <=? 0)%float = true \/
          (100000 <? num_at r "quantity_kg")%float = true)) /\
      (forall r, r ∈ rows (df self) ->
         (0 <? num_at r "quantity_kg")%float = true ->
         (num_at r "quantity_kg" <=? 100000)%float = true ->
         r ∈ rs)).
  { intros rs ->. split.
    - intros r Hr. rewrite list_elem_of_filter. unfold rejected.
      rewrite <- orb_true_iff.
      destruct (_ || _); split; intros H; try reflexivity; try discriminate.
      + intros [H' _]. discriminate H'.
      + exfalso. apply H. now split.
    - intros r Hr Hlo Hhi. apply list_elem_of_filter. split; [|exact Hr].
      unfold rejected.
      now rewrite (ltb_leb_false _ _ Hlo), (leb_ltb_false _ _ Hhi). }
  destruct (0 <? count_true (map rejected (rows (df self))))%nat;
    eexists; eexists; (split; [reflexivity|]); simpl;
    (split; [reflexivity|]); (split; [exact Hrows|]);
    apply Hfilter; exact Hrows.
Qed.

Lemma check_quantity_validity_range_witness :
  exists chk self',
    check_quantity_validity (mkValidator sample_prices (mkReport [] 0 0))
      = Ok (chk, self') /\
    length (rows (df self')) = 5%nat.
Proof.
  destruct (check_quantity_validity_range
              (mkValidator sample_prices (mkReport [] 0 0)) eq_refl)
    as (chk & self' & Hrun & _ & Hrows & _).
  exists chk, self'. split; [exact Hrun|].
  rewrite Hrows. vm_compute. reflexivity.
Defined.

(** C4. The price-outlier check with its default method removes exactly the
    rows whose market_price is strictly below [Q1 - 1.5 IQR] or strictly
    above [Q3 + 1.5 IQR], with [Q1] and [Q3] the quantiles 0.25 and 0.75 of
    the market_price column as the check finds it; every row with its price
    inside the closed interval stays. *)
Theorem check_price_outliers_iqr (abs_zscore : list float -> list float)
    (self : DataValidator) :
  is_numeric_column (df self) "market_price" = true ->
  let prices := map (fun r => num_at r "market_price") (rows (df self)) in
  let Q1 := quantile prices 0.25 in
  let Q3 := quantile prices 0.75 in
  let IQR := (Q3 - Q1)%float in
  let lower_bound := (Q1 - 1.5 * IQR)%float in
  let upper_bound := (Q3 + 1.5 * IQR)%float in
  exists chk self',
    check_price_outliers abs_zscore self "iqr" 1.5 = Ok (chk, self') /\
    columns (df self') = columns (df self) /\
    rows (df self') =
      filter (fun r => (num_at r "market_price" <? lower_bound)%float
                       || (upper_bound <? num_at r "market_price")%float = false)
             (rows (df self)) /\
    (forall r, r ∈ rows (df self) ->
       (r ∉ rows (df self') <->
        (num_at r "market_price" <? lower_bound)%float = true \/
        (upper_bound <? num_at r "market_price")%float = true)) /\
    (forall r, r ∈ rows (df self) ->
       (lower_bound <=? num_at r "market_price")%float = true ->
       (num_at r "market_price" <=? upper_bound)%float = true ->
       r ∈ rows (df self')).
Proof.
  intros Hnum prices Q1 Q3 IQR lower_bound upper_bound.
  apply is_numeric_column_true in Hnum.
  pose proof (numeric_column_floats _ _ Hnum) as Hfs.
  unfold check_price_outliers.
  destruct (get_column (df self) "market_price") as [col|e]; simpl in Hfs;
    [|discriminate].
  simpl. rewrite Hfs. simpl. fold prices Q1 Q3 IQR lower_bound upper_bound.
  set (rejected := fun r : gmap string cell =>
         ((num_at r "market_price" <? lower_bound)%float
          || (upper_bound <? num_at r "market_price")%float)).
  assert (Hmask :
    map (fun p => (p <? lower_bound)%float || (upper_bound <? p)%float) prices
    = map rejected (rows (df self))).
  { unfold prices. now rewrite map_map. }
  rewrite Hmask.
  pose proof (mask_removal (df self) rejected) as Hrows.
  simpl in Hrows.
  assert (Hfilter :
    forall rs : list (gmap string cell),
      rs = filter (fun r => rejected r = false) (rows (df self)) ->
      (forall r, r ∈ rows (df self) ->
         (r ∉ rs <->
          (num_at r "market_price" <? lower_bound)%float = true \/
          (upper_bound <? num_at r "market_price")%float = true)) /\
      (forall r, r ∈ rows (df self) ->
         (lower_bound <=? num_at r "market_price")%float = true ->
         (num_at r "market_price" <=? upper_bound)%float = true ->
         r ∈ rs)).
  { intros rs ->. split.
    - intros r Hr. rewrite list_elem_of_filter. unfold rejected.
      rewrite <- orb_true_iff.
      destruct (_ || _); split; intros H; try reflexivity; try discriminate.
      + intros [H' _]. discriminate H'.
      + exfalso. apply H. now split.
    - intros r Hr Hlo Hhi. apply list_elem_of_filter. split; [|exact Hr].
      unfold rejected.
      now rewrite (leb_ltb_false _ _ Hlo), (leb_ltb_false _ _ Hhi). }
  destruct (0 <? count_true (map rejected (rows (df self))))%nat;
    eexists; eexists; (split; [reflexivity|]); simpl;
    (split; [reflexivity|]); (split; [exact Hrows|]);
    apply Hfilter; exact Hrows.
Qed.

Lemma check_price_outliers_iqr_witness :
  (exists chk self',
     check_price_outliers no_zscore
       (mkValidator sample_outlier (mkReport [] 0 0)) "iqr" 1.5
     = Ok (chk, self') /\
     map (fun r => num_at r "market_price") (rows (df self'))
     = [10; 11; 12; 13]%float) /\
  (exists chk self',
     check_price_outliers no_zscore
       (mkValidator sample_borderline (mkReport [] 0 0)) "iqr" 1.5
     = Ok (chk, self') /\
     map (fun r => num_at r "market_price") (rows (df self'))
     = [0.9; 0.9; 2.3; 3.4; 4.8; 9.25]%float).
Proof.
  split.
  - destruct (check_price_outliers_iqr no_zscore
                (mkValidator sample_outlier (mkReport [] 0 0)) eq_refl)
      as (chk & self' & Hrun & _ & Hrows & _).
    exists chk, self'. split; [exact Hrun|].
    rewrite Hrows. vm_compute. reflexivity.
  - destruct (check_price_outliers_iqr no_zscore
                (mkValidator sample_borderline (mkReport [] 0 0)) eq_refl)
      as (chk & self' & Hrun & _ & Hrows & _).
    exists chk, self'. split; [exact Hrun|].
    rewrite Hrows. vm_compute. reflexivity.
Defined.


(** ** The membership check *)

Lemma categorical_step_rows (acc : DataFrame * bool * nat * nat)
    (entry : string * list string) :
  columns (acc_df (categorical_step acc entry)) = columns (acc_df acc) /\
  rows (acc_df (categorical_step acc entry)) =
  filter (fun r => entry_ok (columns (acc_df acc)) entry r = true)
         (rows (acc_df acc)).
Proof.
  destruct acc as [[[d ok] found] fixed], entry as [column valid_list].
  unfold categorical_step, entry_ok, acc_df. simpl.
  case_bool_decide as Hc; simpl.
  - unfold column_values. rewrite map_map.
    set (f := fun r : gmap string cell => negb (isin (cell_at r column) valid_list)).
    change (map _ (rows d)) with (map f (rows d)).
    pose proof (mask_removal d f) as Hrows. simpl in Hrows.
    pose proof (mask_removal_columns d (map f (rows d))) as Hcols.
    destruct (0 <? count_true (map f (rows d)))%nat; simpl;
      (split; [reflexivity|]); (etransitivity; [exact Hrows|]);
      apply list_filter_iff; intros r; unfold f;
      now destruct (isin (cell_at r column) valid_list).
  - split; [reflexivity|].
    induction (rows d) as [|r l IH]; [reflexivity|].
    rewrite filter_cons_True by reflexivity. now f_equal.
Qed.

Lemma categorical_loop_rows (entries : list (string * list string))
    (acc : DataFrame * bool * nat * nat) :
  columns (acc_df (foldl categorical_step acc entries)) = columns (acc_df acc) /\
  rows (acc_df (foldl categorical_step acc entries)) =
  filter (fun r => forallb (fun e => entry_ok (columns (acc_df acc)) e r) entries
                   = true)
         (rows (acc_df acc)).
Proof.
  revert acc. induction entries as [|e entries IH]; intros acc; simpl.
  - split; [reflexivity|].
    induction (rows (acc_df acc)) as [|r l IHl]; [reflexivity|].
    rewrite filter_cons_True by reflexivity. now f_equal.
  - destruct (IH (categorical_step acc e)) as [Hc Hr].
    destruct (categorical_step_rows acc e) as [Hc1 Hr1].
    split; [congruence|].
    rewrite Hr, Hr1, Hc1, list_filter_filter.
    apply list_filter_iff. intros r. rewrite andb_true_iff. tauto.
Qed.

Lemma check_categorical_values_rows (self : DataValidator) :
  columns (df (snd (check_categorical_values self))) = columns (df self) /\
  rows (df (snd (check_categorical_values self))) =
  filter (fun r => in_vocabulary (columns (df self)) r = true) (rows (df self)).
Proof.
  unfold check_categorical_values.
  pose proof (categorical_loop_rows valid_values
    (df self, true, issues_found (quality_report self),
     issues_fixed (quality_report self))) as H.
  destruct (foldl categorical_step _ valid_values) as [[[d ok] found] fixed].
  exact H.
Qed.

Lemma in_vocabulary_true (cols : list string) (r : gmap string cell) :
  in_vocabulary cols r = true <->
  forall col valid_list, (col, valid_list) ∈ valid_values -> col ∈ cols ->
    exists s, cell_at r col = Str s /\ s ∈ valid_list.
Proof.
  unfold in_vocabulary. rewrite forallb_forall. split.
  - intros H col valid_list Hin Hcol.
    apply list_elem_of_In in Hin. specialize (H _ Hin). simpl in H.
    rewrite bool_decide_eq_true_2 in H by exact Hcol. simpl in H.
    destruct (cell_at r col) as [x|s]; simpl in H; [discriminate|].
    exists s. split; [reflexivity|]. now apply bool_decide_eq_true in H.
  - intros H [col valid_list] Hin. simpl.
    case_bool_decide as Hcol; [|reflexivity]. simpl.
    apply list_elem_of_In in Hin.
    destruct (H col valid_list Hin Hcol) as (s & -> & Hs). simpl.
    now apply bool_decide_eq_true.
Qed.

(** The table of the check, entry by entry. *)
Lemma valid_values_entries (P : string -> list string -> Prop) :
  (forall col valid_list, (col, valid_list) ∈ valid_values -> P col valid_list)
  <->
  P "crop_type" ["Wheat"; "Rice"; "Corn"; "Pulses"; "Sugarcane"; "Cotton";
                 "Soybean"; "Vegetables"; "Fruits"; "Spices"] /\
  P "region" ["North"; "South"; "East"; "West"; "Central"; "Northeast"] /\
  P "quality" ["Premium"; "Grade_A"; "Grade_B"; "Grade_C"] /\
  P "season" ["Winter"; "Spring"; "Summer"; "Autumn"; "Monsoon"] /\
  P "market_demand" ["Very High"; "High"; "Medium"; "Low"; "Very Low"].
Proof.
  split.
  - intros H. unfold valid_values in H.
    split; [apply H; apply list_elem_of_here|].
    split; [apply H; do 1 apply list_elem_of_further; apply list_elem_of_here|].
    split; [apply H; do 2 apply list_elem_of_further; apply list_elem_of_here|].
    split; [apply H; do 3 apply list_elem_of_further; apply list_elem_of_here|].
    apply H; do 4 apply list_elem_of_further; apply list_elem_of_here.
  - intros (H1 & H2 & H3 & H4 & H5) col valid_list Hin.
    unfold valid_values in Hin. rewrite !elem_of_cons, elem_of_nil in Hin.
    destruct Hin as [[= -> ->]|[[= -> ->]|[[= -> ->]|[[= -> ->]|[[= -> ->]|[]]]]]];
      assumption.
Qed.

(** C6. The membership check keeps exactly the rows that hold, in each of
    the columns crop_type, region, quality, season and market_demand that the
    DataFrame has, one of the values listed for that column; a row with any
    other value (a missing entry included) in one of them is dropped; the
    rows kept are unchanged and in their order. *)
Theorem check_categorical_values_membership (self : DataValidator) :
  let self' := snd (check_categorical_values self) in
  let listed (r : gmap string cell) (col : string) (vocabulary : list string) :=
    col ∈ columns (df self) ->
    exists s, cell_at r col = Str s /\ s ∈ vocabulary in
  columns (df self') = columns (df self) /\
  sublist (rows (df self')) (rows (df self)) /\
  rows (df self') =
    filter (fun r => in_vocabulary (columns (df self)) r = true) (rows (df self)) /\
  (forall r, r ∈ rows (df self) ->
     (r ∈ rows (df self') <->
      listed r "crop_type"
        ["Wheat"; "Rice"; "Corn"; "Pulses"; "Sugarcane"; "Cotton"; "Soybean";
         "Vegetables"; "Fruits"; "Spices"] /\
      listed r "region"
        ["North"; "South"; "East"; "West"; "Central"; "Northeast"] /\
      listed r "quality" ["Premium"; "Grade_A"; "Grade_B"; "Grade_C"] /\
      listed r "season" ["Winter"; "Spring"; "Summer"; "Autumn"; "Monsoon"] /\
      listed r "market_demand"
        ["Very High"; "High"; "Medium"; "Low"; "Very Low"])).
Proof.
  intros self' listed. subst self'.
  destruct (check_categorical_values_rows self) as [Hc Hr].
  split; [exact Hc|]. split; [rewrite Hr; apply sublist_filter|].
  split; [exact Hr|].
  intros r Hin. rewrite Hr, list_elem_of_filter, in_vocabulary_true.
  rewrite (valid_values_entries
             (fun col valid_list =>
                col ∈ columns (df self) ->
                exists s, cell_at r col = Str s /\ s ∈ valid_list)).
  subst listed. simpl. tauto.
Qed.

Lemma check_categorical_values_membership_witness :
  map date_of
      (rows (df (snd (check_categorical_values
                        (mkValidator sample_categories (mkReport [] 0 0))))))
  = ["2024-07-01"; "2024-07-07"].
Proof.
  destruct (check_categorical_values_membership
              (mkValidator sample_categories (mkReport [] 0 0)))
    as (_ & _ & Hrows & _).
  rewrite Hrows. vm_compute. reflexivity.
Defined.


(** ** The missing-value step *)

Lemma fill_missing_column_value (d : DataFrame) (col : string) :
  fill_missing_column d col = (v ← fill_value d col; mret (fillna d col v)).
Proof.
  unfold fill_missing_column, fill_value.
  destruct (String.eqb col "market_price").
  - now destruct (as_floats (column_values d col)).
  - case_bool_decide; [reflexivity|].
    now destruct (mode0 (column_values d col)).
Qed.

Lemma cell_at_insert (r : gmap string cell) (col col' : string) (v : cell) :
  cell_at (<[col := v]> r) col' = if decide (col = col') then v else cell_at r col'.
Proof.
  unfold cell_at. rewrite lookup_insert. now case_decide.
Qed.

Lemma column_values_fillna (d : DataFrame) (col col' : string) (v : cell) :
  column_values (fillna d col v) col' =
  if decide (col = col') then map (fill_cell v) (column_values d col)
  else column_values d col'.
Proof.
  unfold column_values, fillna. simpl. rewrite !map_map.
  case_decide as Hc.
  - subst col'. apply map_ext. intros r. unfold fill_cell.
    destruct (isnull (cell_at r col)) eqn:E; [|reflexivity].
    rewrite cell_at_insert. now rewrite decide_True.
  - apply map_ext. intros r.
    destruct (isnull (cell_at r col)); [|reflexivity].
    rewrite cell_at_insert. now rewrite decide_False.
Qed.

Lemma fill_value_ext (d d' : DataFrame) (col : string) :
  column_values d' col = column_values d col ->
  fill_value d' col = fill_value d col.
Proof. unfold fill_value. now intros ->. Qed.

Lemma fill_missing_columns_cells (cols : list string) (d d' : DataFrame) :
  NoDup cols ->
  fill_missing_columns cols d = Ok d' ->
  columns d' = columns d /\
  forall col,
    (col ∉ cols -> column_values d' col = column_values d col) /\
    (col ∈ cols -> exists v, fill_value d col = Ok v /\
       column_values d' col = map (fill_cell v) (column_values d col)).
Proof.
  revert d. induction cols as [|c rest IH]; intros d Hnd; simpl.
  - intros [= <-]. split; [reflexivity|]. intros col. split; [reflexivity|].
    intros H. now apply elem_of_nil in H.
  - rewrite fill_missing_column_value.
    destruct (fill_value d c) as [v|e] eqn:Ev; simpl; [|discriminate].
    intros Hrest. apply NoDup_cons in Hnd as [Hc Hnd].
    destruct (IH _ Hnd Hrest) as [Hcols Hcells].
    split; [exact Hcols|].
    intros col. destruct (Hcells col) as [Hout Hin].
    pose proof (column_values_fillna d c col v) as Hfill.
    split.
    + intros Hnot. apply not_elem_of_cons in Hnot as [Hne Hnot].
      rewrite (Hout Hnot), Hfill. now rewrite decide_False by congruence.
    + intros Hel. apply elem_of_cons in Hel as [->|Hel].
      * exists v. split; [exact Ev|].
        rewrite (Hout Hc), Hfill. now rewrite decide_True.
      * assert (col <> c) as Hne by (intros ->; contradiction).
        rewrite decide_False in Hfill by congruence.
        destruct (Hin Hel) as (v' & Hv' & Hcol).
        exists v'. split; [|now rewrite Hcol, Hfill].
        now rewrite <- (fill_value_ext d _ col Hfill).
Qed.

Lemma fill_missing_columns_length (cols : list string) (d d' : DataFrame) :
  fill_missing_columns cols d = Ok d' -> length (rows d') = length (rows d).
Proof.
  revert d. induction cols as [|c rest IH]; intros d; simpl.
  - now intros [= <-].
  - rewrite fill_missing_column_value.
    destruct (fill_value d c) as [v|e]; simpl; [|discriminate].
    intros H. rewrite (IH _ H). unfold fillna. simpl. apply length_map.
Qed.

Lemma count_true_zero_all (l : list cell) :
  count_true (map isnull l) = 0%nat -> forall c, c ∈ l -> isnull c = false.
Proof.
  unfold count_true. induction l as [|x l IH]; intros H c Hc.
  - now apply elem_of_nil in Hc.
  - simpl in H. destruct (isnull x) eqn:E.
    + rewrite filter_cons_True in H by reflexivity. discriminate.
    + rewrite filter_cons_False in H by discriminate.
      apply elem_of_cons in Hc as [->|Hc]; [exact E|now apply IH].
Qed.

Lemma columns_with_gaps_filter (d : DataFrame) :
  columns_with_gaps d =
  filter (fun col => (0 < count_true (map isnull (column_values d col)))%nat)
         (columns d).
Proof.
  unfold columns_with_gaps, null_counts.
  induction (columns d) as [|c l IH]; [reflexivity|].
  simpl. rewrite !filter_cons. simpl.
  destruct (decide (0 < count_true (map isnull (column_values d c)))%nat);
    simpl; now rewrite IH.
Qed.

Lemma check_missing_values_run (self : DataValidator) (chk : check)
    (self' : DataValidator) :
  check_missing_values self = Ok (chk, self') ->
  fill_missing_columns (columns_with_gaps (df self)) (df self) = Ok (df self').
Proof.
  unfold check_missing_values. fold (columns_with_gaps (df self)).
  destruct (0 <? _)%nat eqn:E.
  - destruct (fill_missing_columns _ _) as [d|e]; simpl; [|discriminate].
    now intros [= _ <-].
  - intros [= _ <-]. simpl.
    assert (columns_with_gaps (df self) = []) as ->; [|reflexivity].
    apply Nat.ltb_ge in E.
    unfold columns_with_gaps.
    induction (null_counts (df self)) as [|[c n] l IH]; [reflexivity|].
    simpl in E. rewrite filter_cons_False by (simpl; lia).
    apply IH. lia.
Qed.


Lemma column_values_lookup (d : DataFrame) (col : string) (i : nat)
    (r : gmap string cell) :
  rows d !! i = Some r -> column_values d col !! i = Some (cell_at r col).
Proof.
  intros H. unfold column_values.
  change (map ?f ?l) with (f <$> l). now rewrite list_lookup_fmap, H.
Qed.

(** The cells of a row after the missing-value step. *)
Lemma check_missing_values_cell (self : DataValidator) (chk : check)
    (self' : DataValidator) (i : nat) (r r' : gmap string cell) (col : string) :
  NoDup (columns (df self)) ->
  check_missing_values self = Ok (chk, self') ->
  rows (df self) !! i = Some r ->
  rows (df self') !! i = Some r' ->
  col ∈ columns (df self) ->
  if isnull (cell_at r col) then fill_value (df self) col = Ok (cell_at r' col)
  else cell_at r' col = cell_at r col.
Proof.
  intros Hnd Hrun Hr Hr' Hcol.
  apply check_missing_values_run in Hrun.
  assert (Hnd' : NoDup (columns_with_gaps (df self))).
  { rewrite columns_with_gaps_filter. now apply NoDup_filter. }
  destruct (fill_missing_columns_cells _ _ _ Hnd' Hrun) as [_ Hcells].
  destruct (Hcells col) as [Hout Hin].
  pose proof (column_values_lookup _ col _ _ Hr) as Hc.
  pose proof (column_values_lookup _ col _ _ Hr') as Hc'.
  destruct (decide (col ∈ columns_with_gaps (df self))) as [Hg|Hg].
  - destruct (Hin Hg) as (v & Hv & Hvals).
    rewrite Hvals in Hc'. change (map ?f ?l) with (f <$> l) in Hc'.
    rewrite list_lookup_fmap, Hc in Hc'. simpl in Hc'.
    injection Hc' as Hc'. unfold fill_cell in Hc'.
    destruct (isnull (cell_at r col)); congruence.
  - rewrite (Hout Hg), Hc in Hc'. injection Hc' as Hc'.
    destruct (isnull (cell_at r col)) eqn:Enull; [|congruence].
    exfalso. apply Hg. rewrite columns_with_gaps_filter.
    apply list_elem_of_filter. split; [|exact Hcol].
    destruct (count_true (map isnull (column_values (df self) col))) eqn:E;
      [|lia].
    pose proof (count_true_zero_all _ E (cell_at r col)) as Hz.
    rewrite Hz in Enull; [discriminate|].
    apply list_elem_of_lookup. now exists i.
Qed.

(** C3. The missing-value step fills the gaps of market_price with the
    median of that column, the gaps of weather, market_demand and season with
    the string [Unknown], and the gaps of every other column (crop_type,
    region and quality among them) with the mode of that column; entries that
    are not missing stay as they are, and no rows or columns are added or
    removed. *)
Theorem check_missing_values_imputation (self : DataValidator) (chk : check)
    (self' : DataValidator) :
  NoDup (columns (df self)) ->
  check_missing_values self = Ok (chk, self') ->
  columns (df self') = columns (df self) /\
  length (rows (df self')) = length (rows (df self)) /\
  forall (i : nat) (r r' : gmap string cell) (col : string),
    rows (df self) !! i = Some r ->
    rows (df self') !! i = Some r' ->
    col ∈ columns (df self) ->
    (isnull (cell_at r col) = false -> cell_at r' col = cell_at r col) /\
    (isnull (cell_at r col) = true ->
       (col = "market_price" ->
          exists prices,
            as_floats (column_values (df self) col) = Ok prices /\
            cell_at r' col = Num (median prices)) /\
       (col ∈ ["weather"; "market_demand"; "season"] ->
          cell_at r' col = Str "Unknown") /\
       (col <> "market_price" ->
        col ∉ ["weather"; "market_demand"; "season"] ->
          mode0 (column_values (df self) col) = Ok (cell_at r' col)) /\
       (col ∈ ["crop_type"; "region"; "quality"] ->
          mode0 (column_values (df self) col) = Ok (cell_at r' col))).
Proof.
  intros Hnd Hrun. split; [|split].
  - pose proof (check_missing_values_run _ _ _ Hrun) as H.
    assert (Hnd' : NoDup (columns_with_gaps (df self))).
    { rewrite columns_with_gaps_filter. now apply NoDup_filter. }
    now destruct (fill_missing_columns_cells _ _ _ Hnd' H).
  - now apply (fill_missing_columns_length (columns_with_gaps (df self))),
      (check_missing_values_run _ chk).
  - intros i r r' col Hr Hr' Hcol.
    pose proof (check_missing_values_cell _ _ _ i r r' col Hnd Hrun Hr Hr' Hcol)
      as Hcell.
    split; intros Enull; rewrite Enull in Hcell; [exact Hcell|].
    unfold fill_value in Hcell.
    assert (Hmode : col <> "market_price" ->
                    col ∉ ["weather"; "market_demand"; "season"] ->
                    mode0 (column_values (df self) col) = Ok (cell_at r' col)).
    { intros Hne Hnot.
      apply String.eqb_neq in Hne. rewrite Hne in Hcell.
      now rewrite bool_decide_eq_false_2 in Hcell by exact Hnot. }
    repeat split.
    + intros ->. simpl in Hcell.
      destruct (as_floats (column_values (df self) "market_price"))
        as [prices|e]; simpl in Hcell; [|discriminate].
      exists prices. split; [reflexivity|]. now injection Hcell.
    + intros H3.
      destruct (String.eqb_spec col "market_price") as [->|_].
      { exfalso. revert H3. rewrite !elem_of_cons, elem_of_nil.
        intros [H|[H|[H|[]]]]; discriminate H. }
      rewrite bool_decide_eq_true_2 in Hcell by exact H3.
      now injection Hcell.
    + exact Hmode.
    + intros H3. apply Hmode.
      * intros ->. revert H3. rewrite !elem_of_cons, elem_of_nil.
        intros [H|[H|[H|[]]]]; discriminate H.
      * intros H. revert H3 H. rewrite !elem_of_cons, !elem_of_nil.
        intros [->|[->|[->|[]]]] [H|[H|[H|[]]]]; discriminate H.
Qed.

Lemma check_missing_values_imputation_witness :
  exists chk self' r',
    check_missing_values (mkValidator sample_gaps (mkReport [] 0 0))
      = Ok (chk, self') /\
    rows (df self') !! 1%nat = Some r' /\
    cell_at r' "weather" = Str "Unknown".
Proof.
  destruct (check_missing_values (mkValidator sample_gaps (mkReport [] 0 0)))
    as [[chk self']|e] eqn:E.
  - assert (Hnd : NoDup (columns (df (mkValidator sample_gaps (mkReport [] 0 0)))))
      by (apply (bool_decide_unpack _); vm_compute; exact I).
    destruct (check_missing_values_imputation _ chk self' Hnd E)
      as (_ & Hlen & Hcells).
    destruct (lookup_lt_is_Some_2 (rows (df self')) 1) as [r' Hr'].
    { rewrite Hlen. simpl. lia. }
    exists chk, self', r'. split; [reflexivity|]. split; [exact Hr'|].
    destruct (Hcells 1%nat _ r' "weather" eq_refl Hr') as [_ Hfill].
    { apply (bool_decide_unpack _). vm_compute. exact I. }
    destruct (Hfill eq_refl) as (_ & Hunknown & _).
    apply Hunknown. apply list_elem_of_here.
  - exfalso. vm_compute in E. discriminate E.
Defined.


(** ** What a run of each check leaves behind *)

Lemma check_missing_values_inv (self : DataValidator) (chk : check)
    (self' : DataValidator) :
  NoDup (columns (df self)) ->
  check_missing_values self = Ok (chk, self') ->
  columns (df self') = columns (df self) /\
  length (rows (df self')) = length (rows (df self)) /\
  appended self self' chk "Missing Values".
Proof.
  intros Hnd Hrun.
  pose proof (check_missing_values_run _ _ _ Hrun) as H.
  assert (Hnd' : NoDup (columns_with_gaps (df self))).
  { rewrite columns_with_gaps_filter. now apply NoDup_filter. }
  split; [now destruct (fill_missing_columns_cells _ _ _ Hnd' H)|].
  split; [now apply (fill_missing_columns_length _ _ _ H)|].
  revert Hrun. unfold check_missing_values, appended.
  destruct (0 <? _)%nat.
  - destruct (fill_missing_columns _ _) as [d|e]; simpl; [|discriminate].
    now intros [= <- <-].
  - now intros [= <- <-].
Qed.

Lemma length_duplicated_from (cols : list string)
    (seen l : list (gmap string cell)) :
  length (duplicated_from cols seen l) = length l.
Proof.
  revert seen. induction l as [|r l IH]; intros seen; simpl; [reflexivity|].
  now rewrite IH.
Qed.

Lemma check_duplicates_inv (self : DataValidator) :
  let chk := fst (check_duplicates self) in
  let self' := snd (check_duplicates self) in
  columns (df self') = columns (df self) /\
  rows (df self') = select (map negb (duplicated (df self))) (rows (df self)) /\
  appended self self' chk "Duplicate Records".
Proof.
  unfold check_duplicates, appended.
  destruct (0 <? count_true (duplicated (df self)))%nat eqn:E; simpl.
  - repeat split; reflexivity.
  - repeat split; try reflexivity.
    apply Nat.ltb_ge in E. unfold duplicated in *.
    assert (forall (m : list bool) (l : list (gmap string cell)),
              length m = length l -> count_true m = 0%nat ->
              l = select (map negb m) l) as Hsel.
    { clear. unfold count_true.
      induction m as [|b m IH]; intros [|x l]; simpl; try discriminate;
        [reflexivity|].
      intros [= Hlen] H. destruct b.
      - rewrite filter_cons_True in H by reflexivity. discriminate.
      - rewrite filter_cons_False in H by discriminate. simpl.
        f_equal. now apply IH. }
    apply Hsel; [apply length_duplicated_from|lia].
Qed.

Lemma check_quantity_validity_inv (self : DataValidator) (chk : check)
    (self' : DataValidator) :
  check_quantity_validity self = Ok (chk, self') ->
  numeric_column (df self) "quantity_kg" /\
  columns (df self') = columns (df self) /\
  rows (df self') =
    filter (fun r => quantity_rejected (num_at r "quantity_kg") = false)
           (rows (df self)) /\
  appended self self' chk "Quantity Validity".
Proof.
  unfold check_quantity_validity, appended.
  destruct (col ← get_column (df self) "quantity_kg"; as_floats col)
    as [fs|e] eqn:Efs.
  - destruct (get_floats_inv _ _ _ Efs) as [Hnum ->].
    destruct (get_column (df self) "quantity_kg") as [col|e]; simpl in Efs;
      [|discriminate].
    simpl. rewrite Efs. simpl. rewrite map_map.
    set (f := fun r : gmap string cell =>
                quantity_rejected (num_at r "quantity_kg")).
    match goal with
    | |- context [count_true (map ?g (rows (df self)))] => change g with f
    end.
    pose proof (mask_removal (df self) f) as Hrows. cbv zeta in Hrows.
    destruct (0 <? count_true _)%nat; intros [= <- <-]; simpl;
      (split; [exact Hnum|]); (split; [reflexivity|]);
      (split; [exact Hrows|]); split; reflexivity.
  - destruct (get_column (df self) "quantity_kg") as [col|e']; simpl in *.
    + rewrite Efs. discriminate.
    + discriminate.
Qed.

Lemma check_price_outliers_inv (abs_zscore : list float -> list float)
    (self : DataValidator) (chk : check) (self' : DataValidator) :
  check_price_outliers abs_zscore self "iqr" 1.5 = Ok (chk, self') ->
  numeric_column (df self) "market_price" /\
  columns (df self') = columns (df self) /\
  rows (df self') =
    filter (fun r =>
              price_rejected
                (iqr_bounds (map (fun r => num_at r "market_price") (rows (df self))))
                (num_at r "market_price") = false)
           (rows (df self)) /\
  appended self self' chk "Price Outliers".
Proof.
  unfold check_price_outliers, appended.
  destruct (col ← get_column (df self) "market_price"; as_floats col)
    as [fs|e] eqn:Efs.
  - destruct (get_floats_inv _ _ _ Efs) as [Hnum ->].
    destruct (get_column (df self) "market_price") as [col|e]; simpl in Efs;
      [|discriminate].
    simpl. rewrite Efs. simpl. rewrite map_map.
    set (f := fun r : gmap string cell =>
                price_rejected
                  (iqr_bounds (map (fun r => num_at r "market_price")
                                   (rows (df self))))
                  (num_at r "market_price")).
    match goal with
    | |- context [count_true (map ?g (rows (df self)))] => change g with f
    end.
    pose proof (mask_removal (df self) f) as Hrows. cbv zeta in Hrows.
    destruct (0 <? count_true _)%nat; intros [= <- <-]; simpl;
      (split; [exact Hnum|]); (split; [reflexivity|]);
      (split; [exact Hrows|]); split; reflexivity.
  - destruct (get_column (df self) "market_price") as [col|e']; simpl in *.
    + rewrite Efs. discriminate.
    + discriminate.
Qed.

Lemma check_categorical_values_inv (self : DataValidator) :
  let chk := fst (check_categorical_values self) in
  let self' := snd (check_categorical_values self) in
  appended self self' chk "Categorical Values".
Proof.
  unfold check_categorical_values, appended.
  destruct (foldl categorical_step _ valid_values) as [[[d ok] found] fixed].
  simpl. split; reflexivity.
Qed.

Lemma check_data_distribution_inv (self : DataValidator) (chk : check)
    (self' : DataValidator) :
  check_data_distribution self = Ok (chk, self') ->
  df self' = df self /\ appended self self' chk "Data Distribution".
Proof.
  unfold check_data_distribution, appended.
  destruct (get_column (df self) "crop_type"); simpl; [|discriminate].
  destruct (get_column (df self) "region"); simpl; [|discriminate].
  destruct (Nat.eqb (length (rows (df self))) 0); simpl; [discriminate|].
  intros [= <- <-]. simpl. repeat split; reflexivity.
Qed.


(** ** The pipeline *)

Lemma check_missing_values_report (self : DataValidator) (chk : check)
    (self' : DataValidator) :
  check_missing_values self = Ok (chk, self') ->
  appended self self' chk "Missing Values".
Proof.
  unfold check_missing_values, appended.
  destruct (0 <? _)%nat.
  - destruct (fill_missing_columns _ _) as [d|e]; simpl; [|discriminate].
    now intros [= <- <-].
  - now intros [= <- <-].
Qed.

Lemma validate_inv (abs_zscore : list float -> list float)
    (self : DataValidator) (d : DataFrame) (ok : bool) (self' : DataValidator) :
  validate abs_zscore self (Some d) = Ok (ok, self') ->
  exists c1 s1 c3 s3 c5 s5 c6,
    check_missing_values (mkValidator d (quality_report self)) = Ok (c1, s1) /\
    check_quantity_validity (snd (check_duplicates s1)) = Ok (c3, s3) /\
    check_price_outliers abs_zscore (snd (check_categorical_values s3)) "iqr" 1.5
      = Ok (c5, s5) /\
    check_data_distribution s5 = Ok (c6, self').
Proof.
  unfold validate.
  destruct (check_missing_values _) as [[c1 s1]|e]; simpl; [|discriminate].
  destruct (check_duplicates s1) as [c2 s2] eqn:E2.
  destruct (check_quantity_validity s2) as [[c3 s3]|e] eqn:E3; simpl;
    [|discriminate].
  destruct (check_categorical_values s3) as [c4 s4] eqn:E4.
  destruct (check_price_outliers abs_zscore s4 "iqr" 1.5) as [[c5 s5]|e] eqn:E5;
    simpl; [|discriminate].
  destruct (check_data_distribution s5) as [[c6 s6]|e] eqn:E6; simpl;
    [|discriminate].
  destruct (save_report s6) as [[]|e]; simpl; [|discriminate].
  intros [= <- <-].
  exists c1, s1, c3, s3, c5, s5, c6. rewrite E2, E4. simpl.
  repeat split; assumption.
Qed.

(** C5, as the code has it.  The checks run in the order: missing values,
    duplicates, quantity range, categorical membership, price outliers (and
    then the distribution report, which leaves the data alone); the quality
    report lists them in that order. *)
Theorem validate_check_order (abs_zscore : list float -> list float)
    (self : DataValidator) (d : DataFrame) (ok : bool) (self' : DataValidator) :
  validate abs_zscore self (Some d) = Ok (ok, self') ->
  exists c1 s1 c3 s3 c5 s5 c6,
    check_missing_values (mkValidator d (quality_report self)) = Ok (c1, s1) /\
    check_quantity_validity (snd (check_duplicates s1)) = Ok (c3, s3) /\
    check_price_outliers abs_zscore (snd (check_categorical_values s3)) "iqr" 1.5
      = Ok (c5, s5) /\
    check_data_distribution s5 = Ok (c6, self') /\
    df self' = df s5 /\
    map name (checks (quality_report self')) =
      (map name (checks (quality_report self))
       ++ [ "Missing Values"; "Duplicate Records"; "Quantity Validity";
            "Categorical Values"; "Price Outliers"; "Data Distribution" ])%list.
Proof.
  intros Hrun.
  destruct (validate_inv _ _ _ _ _ Hrun)
    as (c1 & s1 & c3 & s3 & c5 & s5 & c6 & H1 & H3 & H5 & H6).
  exists c1, s1, c3, s3, c5, s5, c6.
  repeat (split; [assumption|]).
  destruct (check_missing_values_report _ _ _ H1) as [R1 N1].
  destruct (check_duplicates_inv s1) as (_ & _ & R2 & N2).
  destruct (check_quantity_validity_inv _ _ _ H3) as (_ & _ & _ & R3 & N3).
  pose proof (check_categorical_values_inv s3) as [R4 N4].
  destruct (check_price_outliers_inv _ _ _ _ H5) as (_ & _ & _ & R5 & N5).
  destruct (check_data_distribution_inv _ _ _ H6) as (Hdf & R6 & N6).
  split; [exact Hdf|].
  rewrite R6, R5, R4, R3, R2, R1. simpl.
  rewrite !map_app. simpl. rewrite N1, N2, N3, N4, N5, N6.
  rewrite <- !app_assoc. reflexivity.
Qed.

Lemma validate_check_order_witness :
  exists ok self',
    validate no_zscore new_validator (Some sample_prices) = Ok (ok, self') /\
    map name (checks (quality_report self')) =
      [ "Missing Values"; "Duplicate Records"; "Quantity Validity";
        "Categorical Values"; "Price Outliers"; "Data Distribution" ].
Proof.
  destruct (validate no_zscore new_validator (Some sample_prices))
    as [[ok self']|e] eqn:E.
  - exists ok, self'. split; [reflexivity|].
    destruct (validate_check_order _ _ _ _ _ E)
      as (c1 & s1 & c3 & s3 & c5 & s5 & c6 & _ & _ & _ & _ & _ & H).
    exact H.
  - exfalso. vm_compute in E. discriminate E.
Defined.

(** C5, as the specification lists the checks: on the sample data the two
    orders leave different datasets behind, since the records with a zero
    quantity still weigh on the quartiles when the outlier check runs
    before the quantity check. *)
Lemma validate_spec_order_counterexample :
  cleaned (validate no_zscore new_validator (Some sample_prices)) <>
  cleaned (validate_spec_order no_zscore new_validator (Some sample_prices)).
Proof.
  intros H.
  apply (f_equal (option_map (fun d => length (rows d)))) in H.
  vm_compute in H. discriminate H.
Qed.


(** ** Rows that [duplicated] takes for equal *)

Lemma eqb_nan_r (x : float) : (x =? nan)%float = false.
Proof.
  rewrite FloatAxioms.eqb_spec. unfold SFeqb.
  change (Prim2SF nan) with S754_nan.
  now destruct (Prim2SF x) as [s|s| |s m e].
Qed.

Lemma eqb_nan_l (x : float) : (nan =? x)%float = false.
Proof.
  rewrite FloatAxioms.eqb_spec. unfold SFeqb.
  change (Prim2SF nan) with S754_nan. reflexivity.
Qed.

Lemma eqb_trans (x y z : float) :
  (x =? y)%float = true -> (y =? z)%float = true -> (x =? z)%float = true.
Proof.
  rewrite !FloatAxioms.eqb_spec. unfold SFeqb. intros H.
  destruct (SFcompare (Prim2SF x) (Prim2SF y)) as [[]|] eqn:E; try discriminate.
  now rewrite (SFcompare_Eq_l _ _ (Prim2SF z) E).
Qed.

Lemma cell_eqb_refl (c : cell) : cell_eqb c c = true.
Proof.
  destruct c as [x|s]; simpl.
  - unfold PrimFloat.is_nan. now destruct (x =? x)%float.
  - apply String.eqb_refl.
Qed.

Lemma cell_eqb_trans (a b c : cell) :
  cell_eqb a b = true -> cell_eqb b c = true -> cell_eqb a c = true.
Proof.
  destruct a as [x|s], b as [y|t], c as [z|u]; simpl; try discriminate.
  - rewrite !orb_true_iff, !andb_true_iff.
    intros [Hxy|[Hx Hy]] [Hyz|[Hy' Hz]].
    + left. now apply (eqb_trans x y z).
    + apply is_nan_eq in Hy'. subst y. now rewrite eqb_nan_r in Hxy.
    + apply is_nan_eq in Hy. subst y. now rewrite eqb_nan_l in Hyz.
    + right. now split.
  - intros H1 H2. apply String.eqb_eq in H1, H2. subst. apply String.eqb_refl.
Qed.

Lemma cell_eqb_Str (s : string) (c : cell) :
  cell_eqb (Str s) c = true -> c = Str s.
Proof.
  destruct c as [x|t]; simpl; [discriminate|].
  intros H. apply String.eqb_eq in H. now subst.
Qed.

(** Entries that count as equal compare alike with any number. *)
Lemma cell_eqb_compare (a b : cell) (c : float) :
  cell_eqb a b = true ->
  (num_of a <=? c)%float = (num_of b <=? c)%float /\
  (c <? num_of a)%float = (c <? num_of b)%float /\
  (num_of a <? c)%float = (num_of b <? c)%float.
Proof.
  destruct a as [x|s], b as [y|t]; simpl; try discriminate.
  - rewrite orb_true_iff, andb_true_iff. intros [H|[Hx Hy]].
    + repeat split.
      * now apply eqb_leb_l.
      * now apply eqb_ltb_r.
      * now apply eqb_ltb_l.
    + apply is_nan_eq in Hx, Hy. subst. repeat split.
  - intros _. repeat split.
Qed.

Lemma row_eqb_cells (cols : list string) (r1 r2 : gmap string cell) :
  row_eqb cols r1 r2 = true <->
  forall col, col ∈ cols -> cell_eqb (cell_at r1 col) (cell_at r2 col) = true.
Proof.
  unfold row_eqb. rewrite forallb_forall.
  split; intros H col Hc; apply H; now apply list_elem_of_In.
Qed.

Lemma row_eqb_refl (cols : list string) (r : gmap string cell) :
  row_eqb cols r r = true.
Proof. apply row_eqb_cells. intros col _. apply cell_eqb_refl. Qed.

Lemma row_eqb_trans (cols : list string) (r1 r2 r3 : gmap string cell) :
  row_eqb cols r1 r2 = true -> row_eqb cols r2 r3 = true ->
  row_eqb cols r1 r3 = true.
Proof.
  rewrite !row_eqb_cells. intros H12 H23 col Hc.
  now apply (cell_eqb_trans _ (cell_at r2 col)); [apply H12|apply H23].
Qed.

(** Dropping duplicates keeps, for every row, a row that equals it. *)
Lemma duplicated_from_representative (cols : list string)
    (l seen : list (gmap string cell)) (r : gmap string cell) :
  r ∈ l ->
  exists r2,
    (r2 ∈ select (map negb (duplicated_from cols seen l)) l \/ r2 ∈ seen) /\
    row_eqb cols r r2 = true.
Proof.
  revert seen. induction l as [|x t IH]; intros seen Hr.
  - now apply elem_of_nil in Hr.
  - simpl. destruct (existsb (row_eqb cols x) seen) eqn:Edup; simpl.
    + apply existsb_exists in Edup as (s & Hs & Hxs).
      apply list_elem_of_In in Hs.
      apply elem_of_cons in Hr as [->|Hr].
      * exists s. split; [now right|exact Hxs].
      * destruct (IH (x :: seen) Hr) as (r2 & [Hk|Hseen] & Heq).
        -- exists r2. split; [now left|exact Heq].
        -- apply elem_of_cons in Hseen as [->|Hseen].
           ++ exists s. split; [now right|].
              now apply (row_eqb_trans cols r x s).
           ++ exists r2. split; [now right|exact Heq].
    + apply elem_of_cons in Hr as [->|Hr].
      * exists x. split; [left; apply list_elem_of_here|apply row_eqb_refl].
      * destruct (IH (x :: seen) Hr) as (r2 & [Hk|Hseen] & Heq).
        -- exists r2. split; [left; now apply list_elem_of_further|exact Heq].
        -- apply elem_of_cons in Hseen as [->|Hseen].
           ++ exists x. split; [left; apply list_elem_of_here|exact Heq].
           ++ exists r2. split; [now right|exact Heq].
Qed.

Lemma check_duplicates_representative (self : DataValidator)
    (r : gmap string cell) :
  r ∈ rows (df self) ->
  exists r2, r2 ∈ rows (df (snd (check_duplicates self))) /\
             row_eqb (columns (df self)) r r2 = true.
Proof.
  intros Hr. destruct (check_duplicates_inv self) as (_ & -> & _).
  destruct (duplicated_from_representative (columns (df self))
              (rows (df self)) [] r Hr) as (r2 & [H|H] & Heq).
  - now exists r2.
  - now apply elem_of_nil in H.
Qed.

Lemma num_at_num_of (r : gmap string cell) (col : string) :
  num_at r col = num_of (cell_at r col).
Proof. reflexivity. Qed.

Lemma in_vocabulary_eqb (cols : list string) (r1 r2 : gmap string cell) :
  row_eqb cols r1 r2 = true ->
  in_vocabulary cols r1 = true -> in_vocabulary cols r2 = true.
Proof.
  rewrite row_eqb_cells, !in_vocabulary_true.
  intros Heq H col valid_list Hin Hcol.
  destruct (H col valid_list Hin Hcol) as (s & Hs & Hv).
  exists s. split; [|exact Hv].
  specialize (Heq col Hcol). rewrite Hs in Heq. now apply cell_eqb_Str.
Qed.


(** The states a successful run goes through, and what each holds. *)
Lemma validate_stages (abs_zscore : list float -> list float)
    (self : DataValidator) (d : DataFrame) (ok : bool) (self' : DataValidator) :
  NoDup (columns d) ->
  validate abs_zscore self (Some d) = Ok (ok, self') ->
  exists c1 s1 s2 c3 s3 s4 c5 s5,
    check_missing_values (mkValidator d (quality_report self)) = Ok (c1, s1) /\
    check_price_outliers abs_zscore s4 "iqr" 1.5 = Ok (c5, s5) /\
    df self' = df s5 /\
    length (rows (df s1)) = length (rows d) /\
    columns (df s1) = columns d /\
    columns (df s4) = columns d /\
    "quantity_kg" ∈ columns d /\ "market_price" ∈ columns d /\
    (forall r, r ∈ rows (df s1) ->
       exists r2, r2 ∈ rows (df s2) /\ row_eqb (columns d) r r2 = true) /\
    (forall r, r ∈ rows (df s2) ->
       quantity_rejected (num_at r "quantity_kg") = false -> r ∈ rows (df s3)) /\
    (forall r, r ∈ rows (df s4) <->
       in_vocabulary (columns d) r = true /\ r ∈ rows (df s3)) /\
    (forall r, r ∈ rows (df self') <->
       price_rejected
         (iqr_bounds (map (fun r => num_at r "market_price") (rows (df s4))))
         (num_at r "market_price") = false /\ r ∈ rows (df s4)) /\
    s2 = snd (check_duplicates s1) /\
    check_quantity_validity s2 = Ok (c3, s3) /\
    s4 = snd (check_categorical_values s3).
Proof.
  intros Hnd Hrun.
  destruct (validate_inv _ _ _ _ _ Hrun)
    as (c1 & s1 & c3 & s3 & c5 & s5 & c6 & H1 & H3 & H5 & H6).
  destruct (check_missing_values_inv
              (mkValidator d (quality_report self)) _ _ Hnd H1) as (C1 & L1 & _).
  simpl in C1, L1.
  destruct (check_duplicates_inv s1) as (C2 & R2 & _).
  destruct (check_quantity_validity_inv _ _ _ H3) as ([Q3 _] & C3 & R3 & _).
  destruct (check_categorical_values_rows s3) as [C4 R4].
  destruct (check_price_outliers_inv _ _ _ _ H5) as ([P5 _] & C5 & R5 & _).
  destruct (check_data_distribution_inv _ _ _ H6) as (D6 & _).
  exists c1, s1, (snd (check_duplicates s1)), c3, s3,
    (snd (check_categorical_values s3)), c5, s5.
  assert (E2 : columns (df (snd (check_duplicates s1))) = columns d)
    by congruence.
  assert (E3 : columns (df s3) = columns d) by congruence.
  assert (E4 : columns (df (snd (check_categorical_values s3))) = columns d)
    by congruence.
  repeat (split; [first [assumption | congruence]|]).
  split; [|split; [|split; [|split; [|split; [|split]]]]].
  - intros r Hr. rewrite <- C1. now apply check_duplicates_representative.
  - intros r Hr Hq. rewrite R3. apply list_elem_of_filter. now split.
  - intros r. rewrite R4, list_elem_of_filter, E3. reflexivity.
  - intros r. rewrite D6, R5, list_elem_of_filter. reflexivity.
  - reflexivity.
  - exact H3.
  - reflexivity.
Qed.

Lemma fill_value_unknown (d : DataFrame) (col : string) :
  col ∈ ["weather"; "market_demand"; "season"] ->
  fill_value d col = Ok (Str "Unknown").
Proof.
  rewrite !elem_of_cons, elem_of_nil.
  intros [->|[->|[->|[]]]]; reflexivity.
Qed.

Lemma in_vocabulary_not_unknown (cols : list string) (r : gmap string cell)
    (col : string) :
  in_vocabulary cols r = true ->
  col ∈ ["season"; "market_demand"] -> col ∈ cols ->
  cell_at r col <> Str "Unknown" /\ isnull (cell_at r col) = false.
Proof.
  rewrite in_vocabulary_true. intros H Hcol Hin.
  assert (exists valid_list, (col, valid_list) ∈ valid_values /\
                             "Unknown" ∉ valid_list) as (vl & Hvl & Hun).
  { revert Hcol. rewrite !elem_of_cons, elem_of_nil.
    intros [->|[->|[]]]; eexists; (split;
      [unfold valid_values;
       repeat first [apply list_elem_of_here | apply list_elem_of_further]|]);
      rewrite !elem_of_cons, elem_of_nil;
      intros Hx; repeat (destruct Hx as [Hx|Hx]; [discriminate Hx|]);
      exact Hx. }
  destruct (H col vl Hvl Hin) as (s & -> & Hs).
  split; [|reflexivity]. intros [= ->]. contradiction.
Qed.

(** C10, as the code has it.  In a run of the whole pipeline, a row that
    lacks its season or its market_demand gets [Unknown] from the
    missing-value step and is gone from the cleaned data, where every row
    holds a vocabulary value in these two columns.  A row that lacks only its
    weather gets [Unknown] as its weather and keeps its other entries; the
    membership check does not look at weather, but the other checks look at
    the row as at any other: when its quantity is in range and its other
    categories are vocabulary values, the row (or the equal row that the
    duplicate check kept for it) reaches the outlier check with weather
    [Unknown], and it stays in the cleaned data when that check does not
    reject its price.  [s1], [s3] and [s4] are the states after the
    missing-value step, the quantity check and the membership check. *)
Theorem validate_unknown_season_dropped_unknown_weather_kept
    (abs_zscore : list float -> list float) (self : DataValidator)
    (d : DataFrame) (ok : bool) (self' : DataValidator) :
  NoDup (columns d) ->
  validate abs_zscore self (Some d) = Ok (ok, self') ->
  exists c1 s1 c3 s3 s4 c5 s5,
    check_missing_values (mkValidator d (quality_report self)) = Ok (c1, s1) /\
    check_quantity_validity (snd (check_duplicates s1)) = Ok (c3, s3) /\
    s4 = snd (check_categorical_values s3) /\
    check_price_outliers abs_zscore s4 "iqr" 1.5 = Ok (c5, s5) /\
    df self' = df s5 /\
    (forall r' col, r' ∈ rows (df self') ->
       col ∈ ["season"; "market_demand"] -> col ∈ columns d ->
       cell_at r' col <> Str "Unknown" /\ isnull (cell_at r' col) = false) /\
    (forall i r col, rows d !! i = Some r ->
       col ∈ ["season"; "market_demand"] -> col ∈ columns d ->
       isnull (cell_at r col) = true ->
       exists r1, rows (df s1) !! i = Some r1 /\
                  cell_at r1 col = Str "Unknown" /\
                  r1 ∉ rows (df self')) /\
    (forall i r, rows d !! i = Some r ->
       "weather" ∈ columns d ->
       isnull (cell_at r "weather") = true ->
       (forall col, col ∈ columns d -> col <> "weather" ->
                    isnull (cell_at r col) = false) ->
       exists r1, rows (df s1) !! i = Some r1 /\
         cell_at r1 "weather" = Str "Unknown" /\
         (forall col, col ∈ columns d -> col <> "weather" ->
                      cell_at r1 col = cell_at r col) /\
         (quantity_rejected (num_at r "quantity_kg") = false ->
          in_vocabulary (columns d) r = true ->
          exists r4, r4 ∈ rows (df s4) /\
            row_eqb (columns d) r1 r4 = true /\
            cell_at r4 "weather" = Str "Unknown" /\
            (price_rejected
               (iqr_bounds (map (fun r => num_at r "market_price") (rows (df s4))))
               (num_at r "market_price") = false ->
             r4 ∈ rows (df self')))).
Proof.
  intros Hnd Hrun.
  destruct (validate_stages _ _ _ _ _ Hnd Hrun)
    as (c1 & s1 & s2 & c3 & s3 & s4 & c5 & s5 & H1 & H5 & Hdf & L1 & C1 & C4
        & Hq & Hp & Hdup & Hqty & Hvoc & Hout & E2 & H3 & E4).
  exists c1, s1, c3, s3, s4, c5, s5.
  split; [exact H1|]. split; [now rewrite <- E2|]. split; [exact E4|].
  split; [exact H5|]. split; [exact Hdf|].
  assert (Hclean : forall r' col, r' ∈ rows (df self') ->
            col ∈ ["season"; "market_demand"] -> col ∈ columns d ->
            cell_at r' col <> Str "Unknown" /\ isnull (cell_at r' col) = false).
  { intros r' col Hr' Hcol Hin.
    apply Hout in Hr' as [_ Hr']. apply Hvoc in Hr' as [Hv _].
    now apply (in_vocabulary_not_unknown (columns d)). }
  assert (Himage : forall i r, rows d !! i = Some r ->
            exists r1, rows (df s1) !! i = Some r1 /\
              forall col, col ∈ columns d ->
                if isnull (cell_at r col)
                then fill_value d col = Ok (cell_at r1 col)
                else cell_at r1 col = cell_at r col).
  { intros i r Hr.
    destruct (lookup_lt_is_Some_2 (rows (df s1)) i) as [r1 Hr1].
    { rewrite L1. now apply lookup_lt_Some in Hr. }
    exists r1. split; [exact Hr1|]. intros col Hcol.
    exact (check_missing_values_cell (mkValidator d (quality_report self))
             c1 s1 i r r1 col Hnd H1 Hr Hr1 Hcol). }
  split; [exact Hclean|]. split.
  - intros i r col Hr Hcol Hin Hnull.
    destruct (Himage i r Hr) as (r1 & Hr1 & Hcells).
    specialize (Hcells col Hin). rewrite Hnull in Hcells.
    rewrite fill_value_unknown in Hcells.
    2:{ revert Hcol. rewrite !elem_of_cons, !elem_of_nil. tauto. }
    injection Hcells as Hcell.
    exists r1. split; [exact Hr1|]. split; [now symmetry|].
    intros Hr1'. destruct (Hclean r1 col Hr1' Hcol Hin) as [Hne _].
    now apply Hne.
  - intros i r Hr Hw Hnull Hothers.
    destruct (Himage i r Hr) as (r1 & Hr1 & Hcells).
    assert (Hweather : cell_at r1 "weather" = Str "Unknown").
    { specialize (Hcells "weather" Hw). rewrite Hnull in Hcells.
      now injection Hcells. }
    assert (Hsame : forall col, col ∈ columns d -> col <> "weather" ->
                      cell_at r1 col = cell_at r col).
    { intros col Hcol Hne. specialize (Hcells col Hcol).
      now rewrite (Hothers col Hcol Hne) in Hcells. }
    exists r1. split; [exact Hr1|]. split; [exact Hweather|].
    split; [exact Hsame|].
    intros Hquantity Hvocab.
    assert (Hr1in : r1 ∈ rows (df s1)).
    { apply list_elem_of_lookup. now exists i. }
    destruct (Hdup r1 Hr1in) as (r2 & Hr2 & Heq).
    pose proof (proj1 (row_eqb_cells _ _ _) Heq) as Hcellseq.
    assert (Hr3 : r2 ∈ rows (df s3)).
    { apply Hqty; [exact Hr2|].
      destruct (cell_eqb_compare _ _ 0%float (Hcellseq _ Hq)) as (Hle & _).
      destruct (cell_eqb_compare _ _ 100000%float (Hcellseq _ Hq))
        as (_ & Hgt & _).
      unfold quantity_rejected in *. rewrite !num_at_num_of in *.
      rewrite <- Hle, <- Hgt.
      rewrite (Hsame "quantity_kg" Hq) by discriminate. exact Hquantity. }
    assert (Hv1 : in_vocabulary (columns d) r1 = true).
    { apply in_vocabulary_true. intros col vl Hin Hcol.
      pose proof (proj1 (in_vocabulary_true _ _) Hvocab) as Hvocab'.
      rewrite Hsame; [now apply Hvocab'|exact Hcol|].
      intros ->. revert Hin. unfold valid_values.
      rewrite !elem_of_cons, elem_of_nil.
      intros Hx; repeat (destruct Hx as [Hx|Hx]; [discriminate Hx|]);
        exact Hx. }
    assert (Hr4 : r2 ∈ rows (df s4)).
    { apply Hvoc. split; [|exact Hr3].
      now apply (in_vocabulary_eqb (columns d) r1 r2). }
    exists r2. split; [exact Hr4|]. split; [exact Heq|]. split.
    + specialize (Hcellseq "weather" Hw). rewrite Hweather in Hcellseq.
      now apply cell_eqb_Str.
    + intros Hprice. apply Hout. split; [|exact Hr4].
      unfold price_rejected in *.
      destruct (cell_eqb_compare _ _
                  (fst (iqr_bounds (map (fun r => num_at r "market_price")
                                        (rows (df s4)))))
                  (Hcellseq _ Hp)) as (_ & _ & Hlt).
      destruct (cell_eqb_compare _ _
                  (snd (iqr_bounds (map (fun r => num_at r "market_price")
                                        (rows (df s4)))))
                  (Hcellseq _ Hp)) as (_ & Hgt & _).
      rewrite !num_at_num_of in *. rewrite <- Hlt, <- Hgt.
      rewrite (Hsame "market_price" Hp) by discriminate. exact Hprice.
Qed.

Lemma validate_unknown_season_dropped_unknown_weather_kept_witness :
  exists ok self',
    validate no_zscore new_validator (Some sample_gaps) = Ok (ok, self') /\
    (forall r', r' ∈ rows (df self') -> cell_at r' "season" <> Str "Unknown") /\
    exists r4, r4 ∈ rows (df self') /\
               cell_at r4 "weather" = Str "Unknown" /\
               cell_at r4 "date" = Str "2024-02-02".
Proof.
  destruct (validate no_zscore new_validator (Some sample_gaps))
    as [[ok self']|e] eqn:E.
  2:{ exfalso. vm_compute in E. discriminate E. }
  exists ok, self'. split; [reflexivity|].
  assert (Hnd : NoDup (columns sample_gaps))
    by (apply (bool_decide_unpack _); vm_compute; exact I).
  destruct (validate_unknown_season_dropped_unknown_weather_kept
              _ _ _ _ _ Hnd E)
    as (c1 & s1 & c3 & s3 & s4 & c5 & s5 & H1 & H3 & E4 & _ & _ & Hclean & _
        & Hweather).
  split.
  { intros r' Hr'. apply (Hclean r' "season" Hr').
    - apply list_elem_of_here.
    - apply (bool_decide_unpack _). vm_compute. exact I. }
  set (r := sample_row "2024-02-02" 1500 11 (Str "Winter") (Num nan)
                       (Str "High")).
  destruct (Hweather 1%nat r eq_refl) as (r1 & Hr1 & Hw1 & Hsame & Hkept).
  { apply (bool_decide_unpack _). vm_compute. exact I. }
  { vm_compute. reflexivity. }
  { intros col Hcol Hne. change (col ∈ sample_columns) in Hcol.
    unfold sample_columns in Hcol. rewrite !elem_of_cons, elem_of_nil in Hcol.
    destruct Hcol as [->|[->|[->|[->|[->|[->|[->|[->|[->|[]]]]]]]]]];
      first [ exfalso; apply Hne; reflexivity | vm_compute; reflexivity ]. }
  destruct Hkept as (r4 & Hr4 & Heq & Hw4 & Hstay).
  { vm_compute. reflexivity. }
  { vm_compute. reflexivity. }
  exists r4. split; [|split; [exact Hw4|]].
  - apply Hstay. subst s4.
    vm_compute in H1. injection H1 as _ <-.
    vm_compute in H3. injection H3 as _ <-.
    vm_compute. reflexivity.
  - pose proof (proj1 (row_eqb_cells _ _ _) Heq "date") as Hdate.
    rewrite (Hsame "date") in Hdate.
    + apply (cell_eqb_Str "2024-02-02"). apply Hdate.
      apply (bool_decide_unpack _). vm_compute. exact I.
    + apply (bool_decide_unpack _). vm_compute. exact I.
    + discriminate.
Defined.

(** The claim as the specification words it fails on [sample_weather_gap]:
    the second record lacks its weather and nothing else, and the quantity
    check removes it, its quantity being zero. *)
Lemma validate_weather_rows_kept_counterexample :
  exists ok self',
    validate no_zscore new_validator (Some sample_weather_gap) = Ok (ok, self') /\
    ~ weather_rows_kept sample_weather_gap (df self').
Proof.
  destruct (validate no_zscore new_validator (Some sample_weather_gap))
    as [[ok self']|e] eqn:E.
  2:{ exfalso. vm_compute in E. discriminate E. }
  exists ok, self'. split; [reflexivity|]. intros Hkept.
  specialize (Hkept (sample_row "2024-04-02" 0 11 (Str "Spring") (Num nan)
                                (Str "High"))).
  assert (Hin : <["weather" := Str "Unknown"]>
                  (sample_row "2024-04-02" 0 11 (Str "Spring") (Num nan)
                              (Str "High")) ∈ rows (df self')).
  { apply Hkept.
    - apply list_elem_of_further, list_elem_of_here.
    - vm_compute. reflexivity.
    - intros col Hcol Hne. change (col ∈ sample_columns) in Hcol.
      unfold sample_columns in Hcol. rewrite !elem_of_cons, elem_of_nil in Hcol.
      destruct Hcol as [->|[->|[->|[->|[->|[->|[->|[->|[->|[]]]]]]]]]];
        first [ exfalso; apply Hne; reflexivity | vm_compute; reflexivity ]. }
  apply (list_elem_of_fmap_2 date_of) in Hin.
  vm_compute in E. injection E as _ <-.
  apply (bool_decide_eq_true_2 _) in Hin.
  vm_compute in Hin. discriminate Hin.
Qed.


(** * Further properties of the service and of the validator *)

(** ** predict.py *)

Lemma leibniz_eqb_true (x y : float) : float_eqb x y = true -> x = y.
Proof. apply FloatAxioms.Leibniz.eqb_spec. Qed.

Lemma spec_bulk_factor_values (q : pyval) : spec_bulk_factor q ∈ bulk_factors.
Proof.
  unfold spec_bulk_factor, bulk_factors.
  destruct (holds (py_gt_int q 5000)); [apply list_elem_of_here|].
  destruct (holds (py_gt_int q 2000) && holds (py_le_int q 5000)).
  - apply list_elem_of_further, list_elem_of_here.
  - do 2 apply list_elem_of_further. apply list_elem_of_here.
Qed.

Lemma table_prices_checked :
  forallb (fun b =>
    forallb (fun q =>
      forallb (fun r =>
        forallb (fun s => table_price_ok b q r s)
                [1.0; 1.0; 1.1; 0.95; 1.05]%float)
              [1.0; 1.0; 1.05; 0.95; 1.02]%float)
            [1.0; 1.2; 1.0; 0.8; 0.6]%float)
          base_price_values = true.
Proof. vm_compute. reflexivity. Qed.

Lemma table_price_ok_spec (crop_type quality region season : pyval) :
  table_price_ok (spec_base_price crop_type) (spec_quality_multiplier quality)
    (spec_region_multiplier region) (spec_season_multiplier season) = true.
Proof.
  assert (Hq : spec_quality_multiplier quality
               ∈ [1.0; 1.2; 1.0; 0.8; 0.6]%float)
    by exact (spec_multiplier_values _ quality).
  assert (Hr : spec_region_multiplier region
               ∈ [1.0; 1.0; 1.05; 0.95; 1.02]%float)
    by exact (spec_multiplier_values _ region).
  assert (Hs : spec_season_multiplier season
               ∈ [1.0; 1.0; 1.1; 0.95; 1.05]%float)
    by exact (spec_multiplier_values _ season).
  pose proof (spec_base_price_values crop_type) as Hb.
  apply list_elem_of_In in Hb, Hq, Hr, Hs.
  pose proof table_prices_checked as H.
  rewrite forallb_forall in H. specialize (H _ Hb).
  rewrite forallb_forall in H. specialize (H _ Hq).
  rewrite forallb_forall in H. specialize (H _ Hr).
  rewrite forallb_forall in H. exact (H _ Hs).
Qed.

(** The result of the fallback, when there is one, is the formula on the
    entries of the feature map. *)
Lemma get_fallback_prediction_Ok (features : gmap string pyval) (p : float) :
  get_fallback_prediction features = Ok p ->
  let price :=
    (spec_base_price (features_get features "crop_type" (PyStr "Wheat"))
     * spec_quality_multiplier (features_get features "quality" (PyStr "Grade_A"))
     * spec_region_multiplier (features_get features "region" (PyStr "North"))
     * spec_season_multiplier (features_get features "season" (PyStr "Winter")))%float in
  price_before_discount features = Ok price /\
  p = py_round2
        (price * spec_bulk_factor (features_get features "quantity_kg" (PyInt 1000))).
Proof.
  intros H price. unfold get_fallback_prediction in H.
  rewrite price_before_discount_spec in *.
  destruct (_ && _); [|discriminate H]. split; [reflexivity|].
  simpl in H. rewrite bulk_discount_spec in H by apply spec_price_mul_one.
  destruct (orderable _); [|discriminate H].
  now injection H as <-.
Qed.

Lemma fallback_price_checked (features : gmap string pyval) (p : float) :
  get_fallback_prediction features = Ok p ->
  py_round2 p = p /\ (15.6 <=? p)%float = true /\ (p <=? 117.81)%float = true.
Proof.
  intros H. destruct (get_fallback_prediction_Ok _ _ H) as [_ ->].
  pose proof (table_price_ok_spec
                (features_get features "crop_type" (PyStr "Wheat"))
                (features_get features "quality" (PyStr "Grade_A"))
                (features_get features "region" (PyStr "North"))
                (features_get features "season" (PyStr "Winter"))) as Hok.
  unfold table_price_ok in Hok.
  apply andb_true_iff in Hok as [Hok _]. apply andb_true_iff in Hok as [Hok _].
  rewrite forallb_forall in Hok.
  specialize (Hok _ (proj1 (list_elem_of_In _ _)
                       (spec_bulk_factor_values
                          (features_get features "quantity_kg" (PyInt 1000))))).
  cbv zeta in Hok.
  apply andb_true_iff in Hok as [Hok Hhi]. apply andb_true_iff in Hok as [Hfix Hlo].
  split; [now apply leibniz_eqb_true|]. now split.
Qed.

(** X1. The price of the fallback formula is a two-decimal amount (rounding
    it again, as the handler does, changes nothing) and lies between 15.60
    and 117.81: it is never zero, negative, infinite or NaN. *)
Theorem get_fallback_prediction_range (features : gmap string pyval) (p : float) :
  get_fallback_prediction features = Ok p ->
  py_round2 p = p /\ (15.6 <=? p)%float = true /\ (p <=? 117.81)%float = true.
Proof. apply fallback_price_checked. Qed.

Lemma get_fallback_prediction_range_witness :
  py_round2 81.08 = 81.08%float /\ (15.6 <=? 81.08)%float = true
  /\ (81.08 <=? 117.81)%float = true.
Proof.
  apply (get_fallback_prediction_range (rice_order (PyFloat 6000))).
  vm_compute. reflexivity.
Defined.

Section FloatOrderMore.

Ltac sf_order :=
  change (PosDef.Pos.compare_cont Eq ?a ?b) with (Pos.compare a b) in *;
  repeat match goal with
  | |- context [(?a ?= ?b)%Z] => destruct (Z.compare_spec a b)
  | H : context [(?a ?= ?b)%Z] |- _ => destruct (Z.compare_spec a b)
  | |- context [(?a ?= ?b)%positive] => destruct (Pos.compare_spec a b)
  | H : context [(?a ?= ?b)%positive] |- _ => destruct (Pos.compare_spec a b)
  end;
  simpl in *; try discriminate; try reflexivity; try lia.

Ltac sf_three x y z :=
  destruct x as [?|?| |? ? ?], y as [?|?| |? ? ?], z as [?|?| |? ? ?]; simpl;
  try discriminate; try reflexivity;
  repeat match goal with x : bool |- _ => destruct x end; simpl;
  try discriminate; try reflexivity; sf_order.

Lemma SFltb_SFleb_trans (x y z : spec_float) :
  SFltb x y = true -> SFleb y z = true -> SFltb x z = true.
Proof. unfold SFleb, SFltb. sf_three x y z. Qed.

Lemma SFltb_trans (x y z : spec_float) :
  SFltb x y = true -> SFltb y z = true -> SFltb x z = true.
Proof. unfold SFltb. sf_three x y z. Qed.

Lemma SFleb_trans (x y z : spec_float) :
  SFleb x y = true -> SFleb y z = true -> SFleb x z = true.
Proof. unfold SFleb. sf_three x y z. Qed.

Lemma ltb_leb_trans (a b c : float) :
  (a <? b)%float = true -> (b <=? c)%float = true -> (a <? c)%float = true.
Proof. rewrite !FloatAxioms.ltb_spec, FloatAxioms.leb_spec. apply SFltb_SFleb_trans. Qed.

Lemma ltb_trans (a b c : float) :
  (a <? b)%float = true -> (b <? c)%float = true -> (a <? c)%float = true.
Proof. rewrite !FloatAxioms.ltb_spec. apply SFltb_trans. Qed.

Lemma leb_trans (a b c : float) :
  (a <=? b)%float = true -> (b <=? c)%float = true -> (a <=? c)%float = true.
Proof. rewrite !FloatAxioms.leb_spec. apply SFleb_trans. Qed.

Lemma ltb_leb (a b : float) : (a <? b)%float = true -> (a <=? b)%float = true.
Proof.
  rewrite FloatAxioms.ltb_spec, FloatAxioms.leb_spec. unfold SFltb, SFleb.
  now destruct (SFcompare (Prim2SF a) (Prim2SF b)) as [[]|].
Qed.

(** A number that something is below or equal to is not NaN. *)
Lemma leb_refl_r (a b : float) : (a <=? b)%float = true -> (b <=? b)%float = true.
Proof.
  rewrite !FloatAxioms.leb_spec. unfold SFleb.
  destruct (Prim2SF a) as [sa|sa| |sa ma ea], (Prim2SF b) as [sb|sb| |sb m e];
    simpl;
    try discriminate; try reflexivity;
    repeat match goal with x : bool |- _ => destruct x end; simpl;
    try discriminate; try reflexivity; intros _;
    rewrite Z.compare_refl;
    change (PosDef.Pos.compare_cont Eq m m) with (Pos.compare m m);
    now rewrite Pos.compare_refl.
Qed.

Lemma ltb_nan_l (x : float) : (nan <? x)%float = false.
Proof. rewrite FloatAxioms.ltb_spec. reflexivity. Qed.

Lemma ltb_nan_r (x : float) : (x <? nan)%float = false.
Proof.
  rewrite FloatAxioms.ltb_spec. unfold SFltb.
  change (Prim2SF nan) with S754_nan.
  now destruct (Prim2SF x) as [s|s| |s m e].
Qed.

Lemma leb_nan_l (x : float) : (nan <=? x)%float = false.
Proof. rewrite FloatAxioms.leb_spec. reflexivity. Qed.

(** Of two numbers, neither of them NaN, one is below or equal to the
    other, or above it. *)
Lemma leb_false_ltb (a b : float) :
  PrimFloat.is_nan a = false -> PrimFloat.is_nan b = false ->
  (a <=? b)%float = false -> (b <? a)%float = true.
Proof.
  unfold PrimFloat.is_nan.
  rewrite !FloatAxioms.eqb_spec, FloatAxioms.leb_spec, FloatAxioms.ltb_spec.
  unfold SFeqb, SFleb, SFltb.
  rewrite (SFcompare_swap (Prim2SF a) (Prim2SF b)).
  destruct (Prim2SF a) as [sa|sa| |sa ma ea], (Prim2SF b) as [sb|sb| |sb mb eb];
    simpl;
    try discriminate; try reflexivity;
    repeat match goal with x : bool |- _ => destruct x end; simpl;
    try discriminate; try reflexivity; intros _ _; sf_order.
Qed.

End FloatOrderMore.

Lemma features_get_insert (features : gmap string pyval) (k k' : string)
    (v dflt : pyval) :
  features_get (<[k := v]> features) k' dflt =
  if decide (k = k') then v else features_get features k' dflt.
Proof. unfold features_get. rewrite lookup_insert. now case_decide. Qed.

Lemma spec_bulk_factor_float (q : float) :
  spec_bulk_factor (PyFloat q) =
  if (5000 <? q)%float then 0.90%float
  else if (2000 <? q)%float then 0.95%float else 1.0%float.
Proof.
  unfold spec_bulk_factor. simpl. rewrite Z2float_5000, Z2float_2000.
  destruct (5000 <? q)%float eqn:E5; [reflexivity|].
  destruct (2000 <? q)%float eqn:E2; [|reflexivity].
  now rewrite (ltb_false_leb 2000 q 5000 E2 E5 eq_refl).
Qed.

(** X2. A larger quantity never raises the fallback price per kilogram, and
    a quantity above 5000 kg is priced strictly below one of at most 2000 kg,
    all other entries being the same. *)
Theorem get_fallback_prediction_quantity_monotone (features : gmap string pyval)
    (q1 q2 p1 p2 : float) :
  (q1 <=? q2)%float = true ->
  get_fallback_prediction (<["quantity_kg" := PyFloat q1]> features) = Ok p1 ->
  get_fallback_prediction (<["quantity_kg" := PyFloat q2]> features) = Ok p2 ->
  (p2 <=? p1)%float = true /\
  ((q1 <=? 2000)%float = true -> (5000 <? q2)%float = true ->
   (p2 <? p1)%float = true).
Proof.
  intros Hq H1 H2.
  destruct (get_fallback_prediction_Ok _ _ H1) as [_ ->].
  destruct (get_fallback_prediction_Ok _ _ H2) as [_ ->].
  rewrite !features_get_insert. simpl.
  set (crop := features_get features "crop_type" (PyStr "Wheat")).
  set (quality := features_get features "quality" (PyStr "Grade_A")).
  set (region := features_get features "region" (PyStr "North")).
  set (season := features_get features "season" (PyStr "Winter")).
  pose proof (table_price_ok_spec crop quality region season) as Hok.
  unfold table_price_ok in Hok.
  set (price := (spec_base_price crop * spec_quality_multiplier quality
                 * spec_region_multiplier region
                 * spec_season_multiplier season)%float) in *.
  apply andb_true_iff in Hok as [Hok H95]. apply andb_true_iff in Hok as [Hok H90].
  assert (Hone : py_round2 (price * 1.0) = py_round2 price)
    by (unfold price; now rewrite spec_price_mul_one).
  rewrite !spec_bulk_factor_float.
  assert (Hrefl : forall k, k ∈ bulk_factors ->
            (py_round2 (price * k) <=? py_round2 (price * k))%float = true).
  { intros k Hk. rewrite forallb_forall in Hok.
    specialize (Hok k (proj1 (list_elem_of_In _ _) Hk)). cbv zeta in Hok.
    apply andb_true_iff in Hok as [Hok _]. apply andb_true_iff in Hok as [_ Hlo].
    exact (leb_refl_r _ _ Hlo). }
  pose proof (ltb_trans _ _ _ H90 H95) as H90_100.
  split.
  - destruct (5000 <? q1)%float eqn:E1.
    { rewrite (ltb_leb_trans _ _ _ E1 Hq). apply Hrefl, list_elem_of_here. }
    destruct (5000 <? q2)%float eqn:E2.
    { destruct (2000 <? q1)%float; now apply ltb_leb. }
    destruct (2000 <? q1)%float eqn:E3.
    { rewrite (ltb_leb_trans _ _ _ E3 Hq).
      apply Hrefl, list_elem_of_further, list_elem_of_here. }
    destruct (2000 <? q2)%float; [now apply ltb_leb|].
    apply Hrefl. do 2 apply list_elem_of_further. apply list_elem_of_here.
  - intros Hlow Hhigh. rewrite Hhigh.
    rewrite (leb_ltb_trans_false q1 2000 5000 Hlow eq_refl).
    now rewrite (leb_ltb_false _ _ Hlow).
Qed.

Lemma get_fallback_prediction_quantity_monotone_witness :
  (81.08 <=? 90.09)%float = true.
Proof.
  apply (get_fallback_prediction_quantity_monotone
           (rice_order PyNone) 1000 6000 90.09 81.08);
    vm_compute; reflexivity.
Defined.

Lemma quality_orders_checked :
  forallb (fun b =>
    forallb (fun r =>
      forallb (fun s =>
        forallb (fun k => quality_order_ok b r s k) bulk_factors)
              [1.0; 1.0; 1.1; 0.95; 1.05]%float)
            [1.0; 1.0; 1.05; 0.95; 1.02]%float)
          base_price_values = true.
Proof. vm_compute. reflexivity. Qed.

(** X3. With the other entries fixed, the fallback prices the four quality
    grades in strictly decreasing order: Premium above Grade_A above Grade_B
    above Grade_C. *)
Theorem get_fallback_prediction_quality_order (features : gmap string pyval)
    (premium grade_a grade_b grade_c : float) :
  get_fallback_prediction (<["quality" := PyStr "Premium"]> features) = Ok premium ->
  get_fallback_prediction (<["quality" := PyStr "Grade_A"]> features) = Ok grade_a ->
  get_fallback_prediction (<["quality" := PyStr "Grade_B"]> features) = Ok grade_b ->
  get_fallback_prediction (<["quality" := PyStr "Grade_C"]> features) = Ok grade_c ->
  (grade_a <? premium)%float = true /\ (grade_b <? grade_a)%float = true /\
  (grade_c <? grade_b)%float = true.
Proof.
  intros HP HA HB HC.
  destruct (get_fallback_prediction_Ok _ _ HP) as [_ ->].
  destruct (get_fallback_prediction_Ok _ _ HA) as [_ ->].
  destruct (get_fallback_prediction_Ok _ _ HB) as [_ ->].
  destruct (get_fallback_prediction_Ok _ _ HC) as [_ ->].
  rewrite !features_get_insert. simpl.
  set (crop := features_get features "crop_type" (PyStr "Wheat")).
  set (region := features_get features "region" (PyStr "North")).
  set (season := features_get features "season" (PyStr "Winter")).
  set (quantity := features_get features "quantity_kg" (PyInt 1000)).
  assert (Hr : spec_region_multiplier region
               ∈ [1.0; 1.0; 1.05; 0.95; 1.02]%float)
    by exact (spec_multiplier_values _ region).
  assert (Hs : spec_season_multiplier season
               ∈ [1.0; 1.0; 1.1; 0.95; 1.05]%float)
    by exact (spec_multiplier_values _ season).
  pose proof (spec_base_price_values crop) as Hb.
  pose proof (spec_bulk_factor_values quantity) as Hk.
  apply list_elem_of_In in Hb, Hr, Hs, Hk.
  pose proof quality_orders_checked as H.
  rewrite forallb_forall in H. specialize (H _ Hb).
  rewrite forallb_forall in H. specialize (H _ Hr).
  rewrite forallb_forall in H. specialize (H _ Hs).
  rewrite forallb_forall in H. specialize (H _ Hk).
  unfold quality_order_ok in H.
  apply andb_true_iff in H as [H HC']. apply andb_true_iff in H as [HA' HB'].
  change (spec_quality_multiplier (PyStr "Premium")) with 1.2%float.
  change (spec_quality_multiplier (PyStr "Grade_A")) with 1.0%float.
  change (spec_quality_multiplier (PyStr "Grade_B")) with 0.8%float.
  change (spec_quality_multiplier (PyStr "Grade_C")) with 0.6%float.
  now repeat split.
Qed.

Lemma get_fallback_prediction_quality_order_witness :
  (45 <? 54)%float = true /\ (36 <? 45)%float = true /\ (27 <? 36)%float = true.
Proof.
  apply (get_fallback_prediction_quality_order ∅ 54 45 36 27);
    vm_compute; reflexivity.
Defined.

Section HandlerMore.

Variable float_of_str : string -> option float.
Variable predict : gmap string pyval -> result float.
Variable now_year now_month : Z.

Lemma validate_input_true_inv (data : pyval) (message : string) :
  validate_input float_of_str data = Ok (true, message) ->
  exists d v x,
    data = PyDict d /\
    (forall field, field ∈ required_fields -> is_Some (d !! field)) /\
    d !! "quantity_kg" = Some v /\
    py_float float_of_str v = Ok x /\ (x <=? 0)%float = false.
Proof.
  unfold validate_input.
  destruct data as [|b|z|f|s|l|d]; try discriminate.
  - destruct (missing_fields_of required_fields (PyStr s)) as [[|m ms]|e];
      simpl; discriminate.
  - destruct (missing_fields_of required_fields (PyList l)) as [[|m ms]|e];
      simpl; discriminate.
  - rewrite missing_fields_of_dict. simpl.
    destruct (filter _ required_fields) as [|m ms] eqn:Emiss; simpl;
      [|discriminate].
    assert (Hall : forall field, field ∈ required_fields -> is_Some (d !! field)).
    { intros field Hf. destruct (d !! field) eqn:E; [now eexists|].
      assert (field ∈ filter (fun field => d !! field = None) required_fields)
        as Hin by (apply list_elem_of_filter; now split).
      rewrite Emiss in Hin. now apply elem_of_nil in Hin. }
    destruct (Hall "quantity_kg") as [v Hv].
    { unfold required_fields. rewrite !elem_of_cons. tauto. }
    rewrite Hv. simpl.
    destruct (py_float float_of_str v) as [x|e] eqn:Ef.
    + destruct (x <=? 0)%float eqn:Ex; [discriminate|]. intros _.
      now exists d, v, x.
    + destruct e; discriminate.
Qed.

Lemma prepare_features_dict (d : gmap string pyval) (v : pyval) (x : float) :
  d !! "quantity_kg" = Some v ->
  py_float float_of_str v = Ok x ->
  prepare_features float_of_str now_year now_month (PyDict d) =
  Ok (list_to_map
        [ ("crop_type", default PyNone (d !! "crop_type"));
          ("region", default PyNone (d !! "region"));
          ("quality", default PyNone (d !! "quality"));
          ("quantity_kg", PyFloat x);
          ("season", default (PyStr (get_season_from_month now_month))
                             (d !! "season"));
          ("weather", default (PyStr "Normal") (d !! "weather"));
          ("market_demand", default (PyStr "Medium") (d !! "market_demand"));
          ("year", default (PyInt now_year) (d !! "year"));
          ("month", default (PyInt now_month) (d !! "month")) ]).
Proof.
  intros Hv Hx. unfold prepare_features. simpl. rewrite Hv. simpl.
  now rewrite Hx.
Qed.

(** X4. A request that passed validation is a JSON object, and
    [prepare_features] cannot fail on it: the feature map has exactly the
    nine keys, its quantity is a float that is not [<= 0], the three
    required names are those of the request, and season, weather and demand
    are the request's or the defaults. *)
Theorem prepare_features_after_validation (data : pyval) (message : string) :
  validate_input float_of_str data = Ok (true, message) ->
  exists d q features,
    data = PyDict d /\
    prepare_features float_of_str now_year now_month data = Ok features /\
    features !! "quantity_kg" = Some (PyFloat q) /\
    (q <=? 0)%float = false /\
    (forall k, is_Some (features !! k) <-> k ∈ feature_keys) /\
    (forall k, k ∈ ["crop_type"; "region"; "quality"] -> features !! k = d !! k) /\
    features !! "season" =
      Some (default (PyStr (get_season_from_month now_month)) (d !! "season")) /\
    features !! "weather" = Some (default (PyStr "Normal") (d !! "weather")) /\
    features !! "market_demand" =
      Some (default (PyStr "Medium") (d !! "market_demand")).
Proof.
  intros Hvalid.
  destruct (validate_input_true_inv _ _ Hvalid) as (d & v & x & -> & Hall & Hv & Hx & Hpos).
  exists d, x. eexists. split; [reflexivity|].
  split; [exact (prepare_features_dict d v x Hv Hx)|].
  split; [reflexivity|]. split; [exact Hpos|]. split; [|split].
  - intros k. rewrite <- elem_of_dom, dom_list_to_map_L. simpl.
    unfold feature_keys. rewrite !elem_of_union, !elem_of_singleton,
      !elem_of_cons, elem_of_nil, elem_of_empty. tauto.
  - intros k Hk. rewrite !elem_of_cons, elem_of_nil in Hk.
    assert (k ∈ required_fields) as Hreq
      by (unfold required_fields; rewrite !elem_of_cons; tauto).
    destruct (Hall k Hreq) as [w Hw]. rewrite Hw.
    destruct Hk as [->|[->|[->|[]]]]; simpl in *;
      [ | rewrite lookup_insert_ne by discriminate
        | do 2 (rewrite lookup_insert_ne by discriminate) ];
      rewrite lookup_insert_eq; now rewrite Hw.
  - repeat split.
Qed.

(** X5. What a request that passed validation is answered.  The model's
    price, rounded, with confidence 0.85 when the model is loaded and
    answers; otherwise the fallback price as it is (it needs no second
    rounding) with confidence 0.65, or 500 when the fallback raises.  A model
    that fails is answered exactly like a model that is not loaded, and the
    total is the rounded product of price and quantity. *)
Theorem predict_price_route_valid (model_loaded : bool) (data : pyval)
    (message : string) :
  validate_input float_of_str data = Ok (true, message) ->
  exists features q,
    prepare_features float_of_str now_year now_month data = Ok features /\
    features !! "quantity_kg" = Some (PyFloat q) /\
    let fallback :=
      match get_fallback_prediction features with
      | Ok p => Response200 p 0.65 "fallback" (py_round2 (p * q)) features
      | Raise e => Response500 e
      end in
    predict_price_route float_of_str predict model_loaded now_year now_month data
    = if model_loaded then
        match predict features with
        | Ok p => Response200 (py_round2 p) 0.85 "ml_model"
                    (py_round2 (p * q)) features
        | Raise _ => fallback
        end
      else fallback.
Proof.
  intros Hvalid.
  destruct (validate_input_true_inv _ _ Hvalid)
    as (d & v & x & -> & Hall & Hv & Hx & Hpos).
  pose proof (prepare_features_dict d v x Hv Hx) as Hprep.
  eexists. exists x. split; [exact Hprep|]. split; [reflexivity|].
  unfold predict_price_route, predict_price_route_body.
  assert (Htruthy : py_truthy (PyDict d) = true).
  { simpl. destruct (size d) eqn:Es; [|reflexivity].
    apply map_size_empty_iff in Es. subst d. now rewrite lookup_empty in Hv. }
  rewrite Htruthy, Hvalid. simpl. rewrite Hprep. simpl.
  match goal with |- context [make_prediction _ _ ?f] => set (features := f) end.
  assert (Hq : py_float float_of_str (features_get features "quantity_kg" PyNone)
               = Ok x) by reflexivity.
  unfold make_prediction.
  destruct (get_fallback_prediction features) as [p|e] eqn:Ef; simpl.
  - destruct (fallback_price_checked _ _ Ef) as [Hfix _].
    destruct model_loaded; [destruct (predict features)|]; simpl;
      rewrite Hq; simpl; rewrite ?Hfix; reflexivity.
  - destruct model_loaded; [destruct (predict features)|]; simpl;
      rewrite ?Hq; reflexivity.
Qed.

End HandlerMore.

Lemma prepare_features_after_validation_witness :
  exists d q features,
    request_body (PyInt 1500) = PyDict d /\
    prepare_features (fun _ => None) 2024%Z 1%Z (request_body (PyInt 1500))
      = Ok features /\
    features !! "quantity_kg" = Some (PyFloat q) /\ (q <=? 0)%float = false.
Proof.
  destruct (prepare_features_after_validation (fun _ => None)
              (fun _ => Raise PredictorError) 2024%Z 1%Z
              (request_body (PyInt 1500)) "Valid")
    as (d & q & features & H1 & H2 & H3 & H4 & _).
  { vm_compute. reflexivity. }
  now exists d, q, features.
Defined.

Lemma predict_price_route_valid_witness :
  exists features q,
    prepare_features (fun _ => None) 2024%Z 1%Z (request_body (PyInt 1500))
      = Ok features /\
    features !! "quantity_kg" = Some (PyFloat q).
Proof.
  destruct (predict_price_route_valid (fun _ => None)
              (fun _ => Raise PredictorError) 2024%Z 1%Z false
              (request_body (PyInt 1500)) "Valid")
    as (features & q & H1 & H2 & _).
  { vm_compute. reflexivity. }
  now exists features, q.
Defined.

Lemma predict_price_route_non_dict_witness :
  status_code
    (predict_price_route (fun _ => None) (fun _ => Raise PredictorError) false
                         2024%Z 1%Z (PyInt 5)) = 500%Z.
Proof.
  exact (predict_price_route_non_dict (fun _ => None)
           (fun _ => Raise PredictorError) false 2024%Z 1%Z (PyInt 5)
           (fun d H => eq_ind (PyInt 5)
                         (fun v => match v with PyInt _ => True | _ => False end)
                         I (PyDict d) H)).
Defined.


(** ** validate_data.py *)

(** ** Duplicates: what is kept *)

Lemma count_true_cons (b : bool) (m : list bool) :
  count_true (b :: m) = ((if b then 1 else 0) + count_true m)%nat.
Proof.
  unfold count_true. destruct b.
  - now rewrite filter_cons_True.
  - now rewrite filter_cons_False.
Qed.

Lemma existsb_row_eqb_dup (cols : list string) (x r : gmap string cell)
    (seen : list (gmap string cell)) :
  existsb (row_eqb cols x) seen = true ->
  existsb (row_eqb cols r) (x :: seen) = existsb (row_eqb cols r) seen.
Proof.
  intros H. simpl. destruct (row_eqb cols r x) eqn:E; [|reflexivity].
  simpl. symmetry. apply existsb_exists in H as (s & Hs & Hxs).
  apply existsb_exists. exists s. split; [exact Hs|].
  now apply (row_eqb_trans cols r x s).
Qed.

(** No row that [duplicated] keeps is flagged when the kept rows are
    looked at again. *)
Lemma duplicated_from_kept (cols : list string)
    (l seen seen' : list (gmap string cell)) :
  (forall r, existsb (row_eqb cols r) seen' = existsb (row_eqb cols r) seen) ->
  count_true (duplicated_from cols seen'
                (select (map negb (duplicated_from cols seen l)) l)) = 0%nat.
Proof.
  revert seen seen'. induction l as [|x t IH]; intros seen seen' Hseen.
  - reflexivity.
  - simpl. destruct (existsb (row_eqb cols x) seen) eqn:Edup; simpl.
    + apply IH. intros r. rewrite Hseen. symmetry.
      now apply existsb_row_eqb_dup.
    + rewrite count_true_cons, Hseen, Edup. simpl.
      apply IH. intros r. simpl. now rewrite Hseen.
Qed.

Lemma duplicated_from_distinct (cols : list string)
    (l seen : list (gmap string cell)) :
  count_true (duplicated_from cols seen l) = 0%nat <->
  Forall (fun r => existsb (row_eqb cols r) seen = false) l /\
  distinct_rows cols l.
Proof.
  unfold distinct_rows. revert seen.
  induction l as [|x t IH]; intros seen; simpl.
  - split; [intros _; split; constructor|reflexivity].
  - rewrite count_true_cons. split.
    + intros H. destruct (existsb (row_eqb cols x) seen) eqn:Ex;
        [discriminate|].
      simpl in H. apply IH in H as [Hall Hd].
      assert (Forall (fun r => row_eqb cols r x = false
                               /\ existsb (row_eqb cols r) seen = false) t)
        as Hboth.
      { eapply Forall_impl; [exact Hall|]. simpl. intros r Hr.
        now apply orb_false_iff in Hr. }
      apply Forall_and in Hboth as [Hx Hs].
      split; [now constructor|]. constructor; [|exact Hd].
      now apply Forall_forall, Forall_forall.
    + intros [Hall Hd]. apply Forall_cons in Hall as [Hx Hs].
      rewrite Hx. simpl. apply IH.
      inversion Hd as [|a l' Ha Hd' Heq]; subst. split; [|exact Hd'].
      apply Forall_forall. intros r Hr. simpl.
      rewrite Forall_forall in Hs. rewrite (Hs r Hr), orb_false_r.
      rewrite List.Forall_forall in Ha. apply Ha. now apply list_elem_of_In.
Qed.

Lemma distinct_rows_filter (cols : list string)
    (P : gmap string cell -> Prop) `{forall r, Decision (P r)}
    (l : list (gmap string cell)) :
  distinct_rows cols l -> distinct_rows cols (filter P l).
Proof.
  unfold distinct_rows. induction 1 as [|x l Hx Hd IH]; [constructor|].
  rewrite filter_cons. destruct (decide (P x)); [|exact IH].
  constructor; [|exact IH].
  rewrite List.Forall_forall in *. intros r Hr. apply Hx.
  apply list_elem_of_In in Hr. apply list_elem_of_filter in Hr as [_ Hr].
  now apply list_elem_of_In.
Qed.

Lemma select_sublist {A : Type} (mask : list bool) (l : list A) :
  sublist (select mask l) l.
Proof.
  revert mask. induction l as [|x l IH]; intros [|b mask]; simpl;
    try apply sublist_nil_l.
  destruct b; [apply sublist_skip|apply sublist_cons]; apply IH.
Qed.

Lemma check_duplicates_kept (self : DataValidator) :
  count_true (duplicated (df (snd (check_duplicates self)))) = 0%nat.
Proof.
  destruct (check_duplicates_inv self) as (Hc & Hr & _).
  unfold duplicated at 1. rewrite Hc, Hr. unfold duplicated.
  now apply duplicated_from_kept.
Qed.

(** X9. Removing duplicates keeps rows of the data in their order, keeps a
    row equal to every row there was, and keeps no row that equals an
    earlier one; run again on its result, the check passes and changes
    nothing. *)
Theorem check_duplicates_distinct (self : DataValidator) :
  let self' := snd (check_duplicates self) in
  sublist (rows (df self')) (rows (df self)) /\
  (forall r, r ∈ rows (df self) ->
     exists r2, r2 ∈ rows (df self') /\
                row_eqb (columns (df self)) r r2 = true) /\
  distinct_rows (columns (df self)) (rows (df self')) /\
  passed (fst (check_duplicates self')) = true /\
  df (snd (check_duplicates self')) = df self'.
Proof.
  intros self'. subst self'.
  pose proof (check_duplicates_kept self) as Hkept.
  destruct (check_duplicates_inv self) as (Hc & Hr & _).
  split; [|split; [|split]].
  - rewrite Hr. apply select_sublist.
  - intros r. apply check_duplicates_representative.
  - unfold duplicated in Hkept. rewrite Hc in Hkept.
    now apply duplicated_from_distinct in Hkept.
  - unfold check_duplicates at 1 3. rewrite Hkept. simpl. now split.
Qed.

(** ** Missing values: what is left *)

Lemma insert_cell_elem (x c : cell) (l : list cell) :
  c ∈ insert_cell x l <-> c = x \/ c ∈ l.
Proof.
  induction l as [|y t IH]; simpl.
  - rewrite list_elem_of_singleton, elem_of_nil. tauto.
  - destruct (cell_leb x y).
    + now rewrite elem_of_cons.
    + rewrite !elem_of_cons, IH. tauto.
Qed.

Lemma sorted_cells_elem (c : cell) (l : list cell) :
  c ∈ foldr insert_cell [] l <-> c ∈ l.
Proof.
  induction l as [|x t IH]; simpl; [reflexivity|].
  now rewrite insert_cell_elem, elem_of_cons, IH.
Qed.

Lemma unique_cells_elem (c : cell) (l : list cell) :
  c ∈ unique_cells l -> c ∈ l.
Proof.
  induction l as [|x t IH]; simpl; [trivial|].
  rewrite !elem_of_cons, list_elem_of_filter. tauto.
Qed.

(** A mode is an entry of the column, and it is not a missing one. *)
Lemma mode0_present (l : list cell) (m : cell) :
  mode0 l = Ok m -> m ∈ l /\ isnull m = false.
Proof.
  unfold mode0. destruct (mode l) as [|m' ms] eqn:E; [discriminate|].
  intros [= ->].
  assert (m ∈ mode l) as Hm by (rewrite E; apply list_elem_of_here).
  unfold mode in Hm. apply sorted_cells_elem, unique_cells_elem in Hm.
  apply list_elem_of_filter in Hm as [_ Hm].
  apply list_elem_of_filter in Hm as [Hnull Hm]. now split.
Qed.

(** A column without a present entry has no mode. *)
Lemma mode0_all_missing (l : list cell) :
  (forall c, c ∈ l -> isnull c = true) -> mode0 l = Raise KeyError.
Proof.
  intros H. destruct (mode0 l) as [m|e] eqn:E.
  - apply mode0_present in E as [Hm Hnull]. rewrite (H m Hm) in Hnull.
    discriminate.
  - unfold mode0 in E. destruct (mode l); [congruence|discriminate].
Qed.

Lemma fill_value_present (d : DataFrame) (col : string) (v : cell) :
  col <> "market_price" -> fill_value d col = Ok v -> isnull v = false.
Proof.
  intros Hne. unfold fill_value.
  apply String.eqb_neq in Hne. rewrite Hne.
  case_bool_decide as Hu.
  - now intros [= <-].
  - intros Hm. now apply mode0_present in Hm.
Qed.

Lemma check_missing_values_filled (self : DataValidator) (chk : check)
    (self' : DataValidator) (r' : gmap string cell) (col : string) :
  NoDup (columns (df self)) ->
  check_missing_values self = Ok (chk, self') ->
  r' ∈ rows (df self') ->
  col ∈ columns (df self) -> col <> "market_price" ->
  isnull (cell_at r' col) = false.
Proof.
  intros Hnd Hrun Hr' Hcol Hne.
  apply list_elem_of_lookup in Hr' as [i Hi].
  destruct (check_missing_values_inv _ _ _ Hnd Hrun) as (_ & Hlen & _).
  destruct (lookup_lt_is_Some_2 (rows (df self)) i) as [r Hr].
  { rewrite <- Hlen. now apply lookup_lt_Some in Hi. }
  pose proof (check_missing_values_cell _ _ _ i r r' col Hnd Hrun Hr Hi Hcol)
    as Hcell.
  destruct (isnull (cell_at r col)) eqn:Enull.
  - now apply (fill_value_present (df self) col).
  - now rewrite Hcell.
Qed.

(** X10. After the missing-value step no entry is missing in any column
    other than market_price (whose median is itself missing when the column
    holds no price at all). *)
Theorem check_missing_values_no_gaps (self : DataValidator) (chk : check)
    (self' : DataValidator) (r' : gmap string cell) (col : string) :
  NoDup (columns (df self)) ->
  check_missing_values self = Ok (chk, self') ->
  r' ∈ rows (df self') ->
  col ∈ columns (df self) -> col <> "market_price" ->
  isnull (cell_at r' col) = false.
Proof. apply check_missing_values_filled. Qed.

Lemma check_missing_values_no_gaps_witness :
  exists chk self',
    check_missing_values (mkValidator sample_gaps (mkReport [] 0 0))
      = Ok (chk, self') /\
    forall r', r' ∈ rows (df self') -> isnull (cell_at r' "season") = false.
Proof.
  destruct (check_missing_values (mkValidator sample_gaps (mkReport [] 0 0)))
    as [[chk self']|e] eqn:E.
  - exists chk, self'. split; [reflexivity|]. intros r' Hr'.
    apply (check_missing_values_no_gaps
             (mkValidator sample_gaps (mkReport [] 0 0)) chk self' r' "season");
      [ apply (bool_decide_unpack _); vm_compute; exact I
      | exact E | exact Hr'
      | apply (bool_decide_unpack _); vm_compute; exact I
      | discriminate ].
  - exfalso. vm_compute in E. discriminate E.
Defined.

Lemma count_true_pos (l : list cell) (c : cell) :
  c ∈ l -> isnull c = true -> (0 < count_true (map isnull l))%nat.
Proof.
  intros Hc Hnull.
  destruct (count_true (map isnull l)) eqn:E; [|lia].
  rewrite (count_true_zero_all _ E c Hc) in Hnull. discriminate.
Qed.

Lemma null_counts_sum_pos (d : DataFrame) :
  columns_with_gaps d <> [] ->
  (0 <? foldr Nat.add 0 (map snd (null_counts d)))%nat = true.
Proof.
  unfold columns_with_gaps. intros H. apply Nat.ltb_lt.
  induction (null_counts d) as [|[c n] l IH]; [now contradiction H|].
  simpl in *. destruct n as [|n]; [|lia].
  rewrite filter_cons_False in H by (simpl; lia). now apply IH.
Qed.

(** X11. A column that is filled with its mode and holds no entry at all
    makes the missing-value step raise: [mode()] of it is empty and
    [mode()[0]] has nothing to return.  No check record is written. *)
Theorem check_missing_values_empty_column (self : DataValidator)
    (col : string) :
  NoDup (columns (df self)) ->
  col ∈ columns (df self) ->
  col ∉ ["market_price"; "weather"; "market_demand"; "season"] ->
  rows (df self) <> [] ->
  (forall r, r ∈ rows (df self) -> isnull (cell_at r col) = true) ->
  exists e, check_missing_values self = Raise e.
Proof.
  intros Hnd Hcol Hnot Hrows Hall.
  assert (Hmode : fill_value (df self) col = Raise KeyError).
  { unfold fill_value.
    apply not_elem_of_cons in Hnot as [Hne Hnot].
    apply String.eqb_neq in Hne. rewrite Hne.
    rewrite bool_decide_eq_false_2 by exact Hnot.
    apply mode0_all_missing. intros c Hc. unfold column_values in Hc.
    apply list_elem_of_fmap in Hc as (r & -> & Hr). now apply Hall. }
  assert (Hgap : col ∈ columns_with_gaps (df self)).
  { rewrite columns_with_gaps_filter. apply list_elem_of_filter.
    split; [|exact Hcol].
    destruct (rows (df self)) as [|r0 rest] eqn:Er; [now contradiction Hrows|].
    apply (count_true_pos _ (cell_at r0 col)).
    - unfold column_values. rewrite Er. apply list_elem_of_here.
    - apply Hall. apply list_elem_of_here. }
  destruct (check_missing_values self) as [[chk self']|e] eqn:Erun;
    [|now exists e].
  exfalso.
  pose proof (check_missing_values_run _ _ _ Erun) as Hfill.
  assert (Hnd' : NoDup (columns_with_gaps (df self))).
  { rewrite columns_with_gaps_filter. now apply NoDup_filter. }
  destruct (fill_missing_columns_cells _ _ _ Hnd' Hfill) as [_ Hcells].
  destruct (Hcells col) as [_ Hin].
  destruct (Hin Hgap) as (v & Hv & _). congruence.
Qed.

Lemma check_missing_values_empty_column_witness :
  exists e,
    check_missing_values (mkValidator sample_no_crop (mkReport [] 0 0))
    = Raise e.
Proof.
  apply (check_missing_values_empty_column
           (mkValidator sample_no_crop (mkReport [] 0 0)) "crop_type").
  - apply (bool_decide_unpack _). vm_compute. exact I.
  - apply (bool_decide_unpack _). vm_compute. exact I.
  - apply (bool_decide_unpack _). vm_compute. exact I.
  - discriminate.
  - intros r Hr. apply list_elem_of_singleton in Hr. subst r.
    vm_compute. reflexivity.
Defined.

(** ** The counters of the quality report *)

Lemma reported_refl (self self' : DataValidator) :
  df self' = df self ->
  issues_found (quality_report self') = issues_found (quality_report self) ->
  issues_fixed (quality_report self') = issues_fixed (quality_report self) ->
  reported self self'.
Proof. unfold reported. intros -> -> ->. repeat split; lia. Qed.

Lemma reported_trans (a b c : DataValidator) :
  reported a b -> reported b c -> reported a c.
Proof.
  unfold reported. intros (F1 & D1 & X1 & E1) (F2 & D2 & X2 & E2).
  split; [lia|]. split; [lia|]. split; [lia|].
  intros H. rewrite E2 by lia. apply E1. lia.
Qed.

Lemma reported_issue (self : DataValidator) (d : DataFrame) (chk : check)
    (n : nat) :
  (0 < n)%nat ->
  reported self
    (mkValidator d
       (append_check
          (mkReport (checks (quality_report self))
                    (S (issues_found (quality_report self)))
                    (issues_fixed (quality_report self) + n)) chk)).
Proof. unfold reported. simpl. intros Hn. repeat split; lia. Qed.

Lemma columns_with_gaps_pos (d : DataFrame) :
  (0 <? foldr Nat.add 0 (map snd (null_counts d)))%nat = true ->
  (0 < length (columns_with_gaps d))%nat.
Proof.
  unfold columns_with_gaps. intros H. apply Nat.ltb_lt in H.
  rewrite length_map.
  induction (null_counts d) as [|[c n] l IH]; simpl in *; [lia|].
  destruct n as [|n].
  - rewrite filter_cons_False by (simpl; lia). apply IH. lia.
  - rewrite filter_cons_True by (simpl; lia). simpl. lia.
Qed.

Lemma check_missing_values_reported (self : DataValidator) (chk : check)
    (self' : DataValidator) :
  check_missing_values self = Ok (chk, self') -> reported self self'.
Proof.
  unfold check_missing_values. fold (columns_with_gaps (df self)).
  destruct (0 <? _)%nat eqn:E.
  - destruct (fill_missing_columns _ _) as [d|e]; simpl; [|discriminate].
    intros [= <- <-]. apply reported_issue. now apply columns_with_gaps_pos.
  - intros [= <- <-]. now apply reported_refl.
Qed.

Lemma reported_removal (self : DataValidator) (mask : list bool)
    (label : string) :
  reported self
    (if (0 <? count_true mask)%nat then
       mkValidator (boolean_index (df self) (map negb mask))
         (append_check
            (mkReport (checks (quality_report self))
                      (S (issues_found (quality_report self)))
                      (S (issues_fixed (quality_report self))))
            (mkCheck label false))
     else mkValidator (df self)
            (append_check (quality_report self) (mkCheck label true))).
Proof.
  destruct (0 <? count_true mask)%nat.
  - pose proof (reported_issue self (boolean_index (df self) (map negb mask))
                  (mkCheck label false) 1) as H.
    rewrite Nat.add_1_r in H. apply H. lia.
  - now apply reported_refl.
Qed.

Lemma check_duplicates_reported (self : DataValidator) :
  reported self (snd (check_duplicates self)).
Proof.
  pose proof (reported_removal self (duplicated (df self)) "Duplicate Records")
    as H.
  unfold check_duplicates. now destruct (0 <? _)%nat.
Qed.

Lemma check_quantity_validity_reported (self : DataValidator) (chk : check)
    (self' : DataValidator) :
  check_quantity_validity self = Ok (chk, self') -> reported self self'.
Proof.
  unfold check_quantity_validity.
  destruct (get_column _ _) as [col|e]; simpl; [|discriminate].
  destruct (as_floats col) as [fs|e]; simpl; [|discriminate].
  match goal with
  | |- context [count_true ?m] =>
      pose proof (reported_removal self m "Quantity Validity") as H
  end.
  destruct (0 <? _)%nat; now intros [= <- <-].
Qed.

Lemma check_price_outliers_reported (abs_zscore : list float -> list float)
    (self : DataValidator) (method : string) (threshold : float)
    (chk : check) (self' : DataValidator) :
  check_price_outliers abs_zscore self method threshold = Ok (chk, self') ->
  reported self self'.
Proof.
  unfold check_price_outliers.
  destruct (get_column _ _) as [col|e]; simpl; [|discriminate].
  destruct (as_floats col) as [fs|e]; simpl; [|discriminate].
  match goal with
  | |- context [count_true ?m] =>
      pose proof (reported_removal self m "Price Outliers") as H
  end.
  destruct (0 <? _)%nat; now intros [= <- <-].
Qed.

Lemma categorical_loop_reported (entries : list (string * list string))
    (d0 : DataFrame) (found0 fixed0 : nat)
    (d : DataFrame) (ok : bool) (found fixed : nat) :
  ((found0 <= found)%nat /\ (found - found0 <= fixed - fixed0)%nat /\
   (fixed0 <= fixed)%nat /\ (found = found0 -> d = d0)) ->
  let '(d', _, found', fixed') :=
    foldl categorical_step (d, ok, found, fixed) entries in
  (found0 <= found')%nat /\ (found' - found0 <= fixed' - fixed0)%nat /\
  (fixed0 <= fixed')%nat /\ (found' = found0 -> d' = d0).
Proof.
  revert d ok found fixed.
  induction entries as [|[column valid_list] rest IH];
    intros d ok found fixed; simpl.
  - trivial.
  - intros Hacc.
    case_bool_decide; [|now apply IH].
    destruct (0 <? _)%nat; [|now apply IH].
    apply IH. destruct Hacc as (F & D & X & E).
    repeat split; try lia.
Qed.

Lemma check_categorical_values_reported (self : DataValidator) :
  reported self (snd (check_categorical_values self)).
Proof.
  unfold check_categorical_values, reported.
  pose proof (categorical_loop_reported valid_values (df self)
                (issues_found (quality_report self))
                (issues_fixed (quality_report self))
                (df self) true (issues_found (quality_report self))
                (issues_fixed (quality_report self))) as H.
  destruct (foldl categorical_step _ valid_values) as [[[d ok] found] fixed].
  simpl. apply H. repeat split; lia.
Qed.

Lemma check_data_distribution_reported (self : DataValidator) (chk : check)
    (self' : DataValidator) :
  check_data_distribution self = Ok (chk, self') -> reported self self'.
Proof.
  unfold check_data_distribution.
  destruct (get_column (df self) "crop_type"); simpl; [|discriminate].
  destruct (get_column (df self) "region"); simpl; [|discriminate].
  destruct (Nat.eqb (length (rows (df self))) 0); simpl; [discriminate|].
  intros [= <- <-]. now apply reported_refl.
Qed.

Lemma get_column_Ok (d : DataFrame) (col : string) (l : list cell) :
  get_column d col = Ok l -> col ∈ columns d.
Proof. unfold get_column. case_bool_decide; [trivial|discriminate]. Qed.

(** Statistics that can be computed have their seven columns. *)
Lemma generate_statistics_columns (d : DataFrame) :
  generate_statistics d = Ok tt ->
  forall col,
    col ∈ ["date"; "market_price"; "quantity_kg"; "crop_type"; "region";
           "quality"; "season"] ->
    col ∈ columns d.
Proof.
  unfold generate_statistics.
  destruct (get_column d "date") as [l1|e] eqn:E1; simpl; [|discriminate].
  destruct (min_max l1); simpl; [|discriminate].
  destruct (get_column d "market_price") as [l2|e] eqn:E2; simpl;
    [|discriminate].
  destruct (as_floats l2); simpl; [|discriminate].
  destruct (get_column d "quantity_kg") as [l3|e] eqn:E3; simpl;
    [|discriminate].
  destruct (as_floats l3); simpl; [|discriminate].
  destruct (get_column d "crop_type") as [l4|e] eqn:E4; simpl; [|discriminate].
  destruct (get_column d "region") as [l5|e] eqn:E5; simpl; [|discriminate].
  destruct (get_column d "quality") as [l6|e] eqn:E6; simpl; [|discriminate].
  destruct (get_column d "season") as [l7|e] eqn:E7; simpl; [|discriminate].
  intros _ col. rewrite !elem_of_cons, elem_of_nil.
  intros [->|[->|[->|[->|[->|[->|[->|[]]]]]]]];
    eapply get_column_Ok; eassumption.
Qed.

Lemma check_data_distribution_rows (self : DataValidator) (chk : check)
    (self' : DataValidator) :
  check_data_distribution self = Ok (chk, self') -> rows (df self) <> [].
Proof.
  unfold check_data_distribution.
  destruct (get_column (df self) "crop_type"); simpl; [|discriminate].
  destruct (get_column (df self) "region"); simpl; [|discriminate].
  destruct (rows (df self)); simpl; [discriminate|]. intros _. discriminate.
Qed.

(** A run that returns has written its report. *)
Lemma validate_saved (abs_zscore : list float -> list float)
    (self : DataValidator) (d : DataFrame) (ok : bool) (self' : DataValidator) :
  validate abs_zscore self (Some d) = Ok (ok, self') ->
  save_report self' = Ok tt.
Proof.
  unfold validate.
  destruct (check_missing_values _) as [[c1 s1]|e]; simpl; [|discriminate].
  destruct (check_duplicates s1) as [c2 s2].
  destruct (check_quantity_validity s2) as [[c3 s3]|e]; simpl; [|discriminate].
  destruct (check_categorical_values s3) as [c4 s4].
  destruct (check_price_outliers abs_zscore s4 "iqr" 1.5) as [[c5 s5]|e];
    simpl; [|discriminate].
  destruct (check_data_distribution s5) as [[c6 s6]|e]; simpl; [|discriminate].
  destruct (save_report s6) as [[]|e] eqn:E; simpl; [|discriminate].
  now intros [= _ <-].
Qed.

(** X12. A run of the whole pipeline that returns.  The counters of the
    report never go down; every issue found is counted as fixed at least
    once; when no issue was found the data written back is the data that
    was loaded.  The data written back is not empty and has the columns the
    statistics of the report are computed from: with no row left the
    distribution check divides by zero, and a missing column makes the
    statistics raise. *)
Theorem validate_reports_every_change (abs_zscore : list float -> list float)
    (self : DataValidator) (d : DataFrame) (ok : bool) (self' : DataValidator) :
  validate abs_zscore self (Some d) = Ok (ok, self') ->
  let report := quality_report self in
  let report' := quality_report self' in
  (issues_found report <= issues_found report')%nat /\
  (issues_fixed report <= issues_fixed report')%nat /\
  (issues_found report' - issues_found report
   <= issues_fixed report' - issues_fixed report)%nat /\
  (issues_found report' = issues_found report -> df self' = d) /\
  rows (df self') <> [] /\
  (forall col,
     col ∈ ["date"; "market_price"; "quantity_kg"; "crop_type"; "region";
            "quality"; "season"] ->
     col ∈ columns (df self')).
Proof.
  intros Hrun.
  pose proof (validate_saved _ _ _ _ _ Hrun) as Hsaved.
  destruct (validate_inv _ _ _ _ _ Hrun)
    as (c1 & s1 & c3 & s3 & c5 & s5 & c6 & H1 & H3 & H5 & H6).
  assert (reported (mkValidator d (quality_report self)) self') as H.
  { apply (reported_trans _ s1); [now apply (check_missing_values_reported _ c1)|].
    apply (reported_trans _ (snd (check_duplicates s1)));
      [apply check_duplicates_reported|].
    apply (reported_trans _ s3);
      [now apply (check_quantity_validity_reported _ c3)|].
    apply (reported_trans _ (snd (check_categorical_values s3)));
      [apply check_categorical_values_reported|].
    apply (reported_trans _ s5);
      [now apply (check_price_outliers_reported abs_zscore _ "iqr" 1.5 c5)|].
    now apply (check_data_distribution_reported _ c6). }
  destruct H as (F & D & X & E). simpl in *.
  split; [exact F|]. split; [exact X|]. split; [exact D|]. split; [exact E|].
  split.
  - destruct (check_data_distribution_inv _ _ _ H6) as (-> & _).
    now apply (check_data_distribution_rows _ _ _ H6).
  - now apply generate_statistics_columns.
Qed.

Lemma validate_reports_every_change_witness :
  exists ok self',
    validate no_zscore new_validator (Some sample_gaps) = Ok (ok, self') /\
    (issues_found (quality_report new_validator)
     <= issues_found (quality_report self'))%nat /\
    rows (df self') <> [].
Proof.
  destruct (validate no_zscore new_validator (Some sample_gaps))
    as [[ok self']|e] eqn:E.
  - destruct (validate_reports_every_change _ _ _ _ _ E)
      as (F & _ & _ & _ & Hrows & _).
    exists ok, self'. split; [reflexivity|]. split; [exact F|exact Hrows].
  - exfalso. vm_compute in E. discriminate E.
Defined.

(** ** The cleaned dataset *)

Lemma select_length {A : Type} (mask : list bool) (l : list A) :
  (length (select mask l) <= length l)%nat.
Proof. apply sublist_length, select_sublist. Qed.

Lemma select_elem {A : Type} (mask : list bool) (l : list A) (x : A) :
  x ∈ select mask l -> x ∈ l.
Proof. intros H. exact (elem_of_sublist _ _ _ H (select_sublist mask l)). Qed.

(** X13. What a run of the whole pipeline writes back.  The columns are
    those that were loaded and no row is added; no row equals an earlier
    one; in every row the quantity is a number above 0 and at most 100000,
    the crop type, region, quality, season and demand level are vocabulary
    values, and no entry is missing outside market_price. *)
Theorem validate_cleaned (abs_zscore : list float -> list float)
    (self : DataValidator) (d : DataFrame) (ok : bool) (self' : DataValidator) :
  NoDup (columns d) ->
  validate abs_zscore self (Some d) = Ok (ok, self') ->
  columns (df self') = columns d /\
  (length (rows (df self')) <= length (rows d))%nat /\
  distinct_rows (columns d) (rows (df self')) /\
  forall r, r ∈ rows (df self') ->
    (exists q, cell_at r "quantity_kg" = Num q /\
               (0 <? q)%float = true /\ (q <=? 100000)%float = true) /\
    in_vocabulary (columns d) r = true /\
    (forall col, col ∈ columns d -> col <> "market_price" ->
       isnull (cell_at r col) = false).
Proof.
  intros Hnd Hrun.
  destruct (validate_inv _ _ _ _ _ Hrun)
    as (c1 & s1 & c3 & s3 & c5 & s5 & c6 & H1 & H3 & H5 & H6).
  destruct (check_missing_values_inv
              (mkValidator d (quality_report self)) _ _ Hnd H1) as (C1 & L1 & _).
  simpl in C1, L1.
  destruct (check_duplicates_inv s1) as (C2 & R2 & _).
  pose proof (check_duplicates_kept s1) as K2.
  destruct (check_quantity_validity_inv _ _ _ H3) as ([Q3 N3] & C3 & R3 & _).
  destruct (check_categorical_values_rows s3) as [C4 R4].
  destruct (check_price_outliers_inv _ _ _ _ H5) as (_ & C5 & R5 & _).
  destruct (check_data_distribution_inv _ _ _ H6) as (D6 & _).
  set (s2 := snd (check_duplicates s1)) in *.
  set (s4 := snd (check_categorical_values s3)) in *.
  assert (E2 : columns (df s2) = columns d) by congruence.
  assert (E3 : columns (df s3) = columns d) by congruence.
  assert (E4 : columns (df s4) = columns d) by congruence.
  rewrite D6.
  split; [congruence|]. split; [|split].
  - rewrite R5, R4, R3, R2, <- L1.
    etransitivity; [apply length_filter|].
    etransitivity; [apply length_filter|].
    etransitivity; [apply length_filter|]. apply select_length.
  - rewrite R5, R4, R3.
    do 3 apply distinct_rows_filter.
    unfold duplicated in K2. rewrite E2 in K2.
    now apply duplicated_from_distinct in K2.
  - intros r Hr. rewrite R5 in Hr.
    apply list_elem_of_filter in Hr as [_ Hr4].
    rewrite R4 in Hr4. apply list_elem_of_filter in Hr4 as [Hvoc Hr3].
    rewrite R3 in Hr3. apply list_elem_of_filter in Hr3 as [Hq Hr2].
    assert (Hr1 : r ∈ rows (df s1)).
    { rewrite R2 in Hr2. now apply select_elem in Hr2. }
    assert (Hgaps : forall col, col ∈ columns d -> col <> "market_price" ->
                                isnull (cell_at r col) = false).
    { intros col Hcol Hne.
      now apply (check_missing_values_filled
                   (mkValidator d (quality_report self)) c1 s1 r col). }
    split; [|split; [now rewrite <- E3|exact Hgaps]].
    destruct (N3 r Hr2) as [q Hcell]. exists q. split; [exact Hcell|].
    unfold quantity_rejected, num_at in Hq. rewrite Hcell in Hq.
    apply orb_false_iff in Hq as [Hle Hgt].
    assert (Hnan : PrimFloat.is_nan q = false).
    { specialize (Hgaps "quantity_kg"). rewrite Hcell in Hgaps.
      apply Hgaps; [|discriminate]. now rewrite <- E2. }
    split.
    + now apply leb_false_ltb.
    + destruct (q <=? 100000)%float eqn:E; [reflexivity|].
      apply leb_false_ltb in E; [congruence|exact Hnan|reflexivity].
Qed.

Lemma validate_cleaned_witness :
  exists ok self',
    validate no_zscore new_validator (Some sample_gaps) = Ok (ok, self') /\
    columns (df self') = sample_columns.
Proof.
  destruct (validate no_zscore new_validator (Some sample_gaps))
    as [[ok self']|e] eqn:E.
  - assert (Hnd : NoDup (columns sample_gaps))
      by (apply (bool_decide_unpack _); vm_compute; exact I).
    destruct (validate_cleaned _ _ _ _ _ Hnd E) as (Hc & _).
    exists ok, self'. split; [reflexivity|exact Hc].
  - exfalso. vm_compute in E. discriminate E.
Defined.

(** ** Entries that are not numbers in the range checks *)

(** X14. A comparison with NaN is false, so the two range checks keep what
    they cannot compare: a row whose quantity is missing stays in the
    quantity check, and a row whose price is missing stays in the outlier
    check, as does every row when a bound is itself NaN. *)
Theorem range_checks_keep_missing (abs_zscore : list float -> list float)
    (self : DataValidator) (chk : check) (self' : DataValidator)
    (r : gmap string cell) :
  r ∈ rows (df self) ->
  (check_quantity_validity self = Ok (chk, self') ->
   isnull (cell_at r "quantity_kg") = true -> r ∈ rows (df self')) /\
  (check_price_outliers abs_zscore self "iqr" 1.5 = Ok (chk, self') ->
   let bounds :=
     iqr_bounds (map (fun r => num_at r "market_price") (rows (df self))) in
   isnull (cell_at r "market_price") = true \/
   PrimFloat.is_nan (fst bounds) && PrimFloat.is_nan (snd bounds) = true ->
   r ∈ rows (df self')).
Proof.
  intros Hr. split.
  - intros Hrun Hnull.
    destruct (check_quantity_validity_inv _ _ _ Hrun) as ([_ Hnum] & _ & -> & _).
    apply list_elem_of_filter. split; [|exact Hr].
    unfold quantity_rejected, num_at.
    destruct (Hnum r Hr) as [q Hq]. rewrite Hq in *. simpl in Hnull.
    apply is_nan_eq in Hnull. subst q.
    now rewrite leb_nan_l, ltb_nan_r.
  - intros Hrun bounds Hnull.
    destruct (check_price_outliers_inv _ _ _ _ Hrun) as ([_ Hnum] & _ & -> & _).
    apply list_elem_of_filter. split; [|exact Hr].
    fold bounds. clearbody bounds. unfold price_rejected, num_at.
    destruct (Hnum r Hr) as [p Hp]. rewrite Hp in *. simpl in Hnull.
    destruct Hnull as [Hnull|Hnull].
    + apply is_nan_eq in Hnull. subst p.
      now rewrite ltb_nan_l, ltb_nan_r.
    + apply andb_true_iff in Hnull as [Hlo Hhi].
      apply is_nan_eq in Hlo, Hhi. rewrite Hlo, Hhi.
      now rewrite ltb_nan_l, ltb_nan_r.
Qed.

Lemma range_checks_keep_missing_witness :
  exists chk self',
    check_quantity_validity (mkValidator sample_no_quantity (mkReport [] 0 0))
      = Ok (chk, self') /\
    rows (df self') = rows sample_no_quantity.
Proof.
  destruct (check_quantity_validity
              (mkValidator sample_no_quantity (mkReport [] 0 0)))
    as [[chk self']|e] eqn:E.
  - exists chk, self'. split; [reflexivity|].
    destruct (range_checks_keep_missing no_zscore
                (mkValidator sample_no_quantity (mkReport [] 0 0)) chk self'
                (sample_row "2024-03-01" nan 10 (Str "Winter") (Str "Sunny")
                            (Str "High")))
      as [Hq _]; [apply list_elem_of_here|].
    specialize (Hq E eq_refl).
    destruct (check_quantity_validity_inv _ _ _ E) as (_ & _ & Hrows & _).
    rewrite Hrows in *. simpl in *.
    apply list_elem_of_filter in Hq as [Hq _].
    now rewrite filter_cons_True, filter_nil by exact Hq.
  - exfalso. vm_compute in E. discriminate E.
Defined.


(** ** data_loader.py and generate_training_data.py *)

(** ** The season of a month, three times *)

(** X8. The three month-to-season functions.  The one of the service and
    the one of the loader agree on the months 1 to 12; a number that is no
    month is Winter for the service and for the generator; the generator
    differs from the service on June to August, which it calls Monsoon.
    Every season the service derives is priced by the fallback formula and
    accepted by the validator; Monsoon is accepted by the validator but has
    no multiplier in the fallback formula. *)
Theorem season_of_month (month : Z) :
  ((1 <= month <= 12)%Z ->
     get_season_from_date month = get_season_from_month month) /\
  (~ (1 <= month <= 12)%Z ->
     get_season_from_month month = "Winter"
     /\ get_month_season month = "Winter") /\
  (((6 <= month <= 8)%Z /\ get_month_season month = "Monsoon"
      /\ get_season_from_month month = "Summer")
     \/ (~ (6 <= month <= 8)%Z
         /\ get_month_season month = get_season_from_month month)) /\
  is_Some (season_multiplier !! get_season_from_month month) /\
  season_multiplier !! "Monsoon" = None /\
  exists vocabulary,
    ("season", vocabulary) ∈ valid_values /\
    get_season_from_month month ∈ vocabulary /\
    get_month_season month ∈ vocabulary.
Proof.
  assert (Hcases : (month <= 0 \/ month = 1 \/ month = 2 \/ month = 3
                    \/ month = 4 \/ month = 5 \/ month = 6 \/ month = 7
                    \/ month = 8 \/ month = 9 \/ month = 10 \/ month = 11
                    \/ month = 12 \/ 13 <= month)%Z) by lia.
  assert (Hout : (month <= 0 \/ 13 <= month)%Z ->
                 forall l : list Z, Forall (fun m => 1 <= m <= 12)%Z l ->
                                    bool_decide (month ∈ l) = false).
  { intros Hm l Hl. apply bool_decide_eq_false_2. intros Hin.
    rewrite Forall_forall in Hl. specialize (Hl _ Hin). lia. }
  assert (Hlists : Forall (fun m => 1 <= m <= 12)%Z [12; 1; 2]%Z
                   /\ Forall (fun m => 1 <= m <= 12)%Z [3; 4; 5]%Z
                   /\ Forall (fun m => 1 <= m <= 12)%Z [6; 7; 8]%Z
                   /\ Forall (fun m => 1 <= m <= 12)%Z [9; 10; 11]%Z).
  { repeat split; repeat constructor; lia. }
  destruct Hlists as (L1 & L2 & L3 & L4).
  unfold get_season_from_date, get_season_from_month, get_month_season.
  destruct Hcases as [H|[->|[->|[->|[->|[->|[->|[->|[->|[->|[->|[->|[->|H]]]]]]]]]]]]];
    try (rewrite !(Hout (or_introl H)) by assumption);
    try (rewrite !(Hout (or_intror H)) by assumption);
    (split; [intros ?; first [reflexivity | lia]|]);
    (split; [intros ?; first [split; reflexivity | lia]|]);
    (split; [first [left; split; [lia|split; reflexivity]
                   | right; split; [lia|reflexivity]]|]);
    (split; [vm_compute; eauto|]);
    (split; [vm_compute; reflexivity|]);
    exists ["Winter"; "Spring"; "Summer"; "Autumn"; "Monsoon"];
    (split; [apply (bool_decide_unpack _); vm_compute; exact I|]);
    split; apply (bool_decide_unpack _); vm_compute; exact I.
Qed.

(** ** The loader's report and the validator's outlier check *)

Lemma select_count {A : Type} (f : A -> bool) (l : list A) :
  length (select (map f l) l) = count_true (map f l) /\
  (length (filter (fun x => f x = false) l) + count_true (map f l))%nat
  = length l.
Proof.
  induction l as [|x l [IH1 IH2]]; [split; reflexivity|].
  simpl. rewrite count_true_cons. destruct (f x) eqn:E; simpl.
  - rewrite filter_cons_False by congruence. split; [now rewrite IH1|lia].
  - rewrite filter_cons_True by exact E. simpl. split; [exact IH1|lia].
Qed.

Lemma existsb_negative (d : DataFrame) :
  existsb (fun p => (p <? 0)%float)
          (map (fun r => num_at r "market_price") (rows d)) = true <->
  exists r, r ∈ rows d /\ (num_at r "market_price" <? 0)%float = true.
Proof.
  rewrite existsb_exists. split.
  - intros (p & Hp & Hneg). apply in_map_iff in Hp as (r & <- & Hr).
    exists r. split; [now apply list_elem_of_In|exact Hneg].
  - intros (r & Hr & Hneg). exists (num_at r "market_price").
    split; [|exact Hneg]. apply in_map_iff. exists r.
    split; [reflexivity|now apply list_elem_of_In].
Qed.

Lemma check_price_outliers_verdict (abs_zscore : list float -> list float)
    (self : DataValidator) :
  numeric_column (df self) "market_price" ->
  exists chk self',
    check_price_outliers abs_zscore self "iqr" 1.5 = Ok (chk, self') /\
    passed chk =
      negb (0 <? count_true
                   (map (fun r =>
                           price_rejected
                             (iqr_bounds (map (fun r => num_at r "market_price")
                                              (rows (df self))))
                             (num_at r "market_price"))
                        (rows (df self))))%nat.
Proof.
  intros Hnum. unfold check_price_outliers.
  pose proof (numeric_column_floats _ _ Hnum) as Efs.
  destruct (get_column (df self) "market_price") as [col|e]; simpl in Efs;
    [|discriminate].
  simpl. rewrite Efs. simpl. rewrite map_map.
  set (f := fun r : gmap string cell =>
              price_rejected
                (iqr_bounds (map (fun r => num_at r "market_price")
                                 (rows (df self))))
                (num_at r "market_price")).
  match goal with
  | |- context [count_true (map ?g (rows (df self)))] => change g with f
  end.
  destruct (0 <? count_true _)%nat; eexists _, _; split; reflexivity.
Qed.

(** X15. The loader's quality report and the validator agree on the price
    outliers: the report names outliers exactly when the validator's IQR
    check with threshold 1.5 fails on the same data, and the number it
    prints is the number of rows that check removes.  It names negative
    prices exactly when some price is below zero. *)
Theorem validate_data_quality_outliers (abs_zscore : list float -> list float)
    (d : DataFrame) (report : QualityReport) (issues : list issue) :
  validate_data_quality d = Ok issues ->
  exists chk self',
    check_price_outliers abs_zscore (mkValidator d report) "iqr" 1.5
      = Ok (chk, self') /\
    (forall n, PriceOutliers n ∈ issues <->
       passed chk = false /\
       length (rows d) = (length (rows (df self')) + n)%nat) /\
    (passed chk = false -> (length (rows (df self')) < length (rows d))%nat) /\
    (NegativePrices ∈ issues <->
       exists r, r ∈ rows d /\ (num_at r "market_price" <? 0)%float = true).
Proof.
  unfold validate_data_quality.
  destruct (col ← get_column d "market_price"; as_floats col)
    as [fs|e] eqn:Efs.
  2:{ destruct (get_column d "market_price") as [col|e'];
        unfold mbind, result_bind in *; [rewrite Efs|]; discriminate. }
  destruct (get_floats_inv _ _ _ Efs) as [Hnum ->].
  destruct (get_column d "market_price") as [col|e] eqn:Ecol;
    [|discriminate Efs].
  unfold mbind, result_bind in Efs |- *. rewrite Efs.
  unfold mret, result_ret.
  destruct (check_price_outliers_verdict abs_zscore (mkValidator d report) Hnum)
    as (chk & self' & Hrun & Hpassed).
  destruct (check_price_outliers_inv _ _ _ _ Hrun) as (_ & _ & Hrows & _).
  simpl in Hpassed, Hrows.
  pose proof (existsb_negative d) as Hneg.
  set (f := fun r : gmap string cell =>
              price_rejected
                (iqr_bounds (map (fun r => num_at r "market_price") (rows d)))
                (num_at r "market_price")) in *.
  destruct (select_count f (rows d)) as [Hsel Hlen'].
  assert (Hlen : (length (rows (df self')) + count_true (map f (rows d)))%nat
                 = length (rows d)) by (rewrite Hrows; exact Hlen').
  clear Hlen' Hrows.
  intros Hissues. exists chk, self'. split; [exact Hrun|].
  rewrite <- Hneg. clear Hneg. revert Hissues.
  unfold boolean_index. cbn [rows]. rewrite map_map.
  repeat match goal with
  | |- context [map ?g (rows d)] =>
      lazymatch g with
      | (fun r => (_ || _)) => change g with f
      end
  end.
  rewrite Hsel. rewrite Hpassed.
  destruct (existsb _ (null_counts d));
    destruct (existsb (fun p => (p <? 0)%float) _);
    destruct (0 <? count_true (map f (rows d)))%nat eqn:Ecount;
    cbv beta iota zeta; cbn [app negb]; intros [= <-];
    try apply Nat.ltb_lt in Ecount;
    (split; [intros n|split]);
    rewrite ?elem_of_cons, ?elem_of_nil;
    first [ discriminate | lia | intuition (first [discriminate | lia | idtac]) ];
    try (match goal with H : PriceOutliers _ = PriceOutliers _ |- _ =>
           injection H as H end; lia);
    try (right; right; left; f_equal; lia);
    try (right; left; f_equal; lia);
    try (left; f_equal; lia).
Qed.

Lemma validate_data_quality_outliers_witness :
  exists issues chk self',
    validate_data_quality sample_prices = Ok issues /\
    check_price_outliers no_zscore
      (mkValidator sample_prices (mkReport [] 0 0)) "iqr" 1.5
    = Ok (chk, self').
Proof.
  destruct (validate_data_quality sample_prices) as [issues|e] eqn:E.
  - destruct (validate_data_quality_outliers no_zscore sample_prices
                (mkReport [] 0 0) issues E) as (chk & self' & Hrun & _).
    exists issues, chk, self'. split; [reflexivity|exact Hrun].
  - exfalso. vm_compute in E. discriminate E.
Defined.

(** ** Checks that pass *)

Lemma count_true_none {A : Type} (f : A -> bool) (l : list A) :
  (forall x, x ∈ l -> f x = false) -> count_true (map f l) = 0%nat.
Proof.
  induction l as [|x l IH]; intros H; [reflexivity|].
  simpl. rewrite count_true_cons, (H x (list_elem_of_here _ _)). simpl.
  apply IH. intros y Hy. apply H. now apply list_elem_of_further.
Qed.

Lemma check_quantity_validity_pass (self : DataValidator) :
  numeric_column (df self) "quantity_kg" ->
  (forall r, r ∈ rows (df self) ->
     quantity_rejected (num_at r "quantity_kg") = false) ->
  check_quantity_validity self =
  Ok (mkCheck "Quantity Validity" true,
      mkValidator (df self)
        (append_check (quality_report self) (mkCheck "Quantity Validity" true))).
Proof.
  intros Hnum Hall. unfold check_quantity_validity.
  pose proof (numeric_column_floats _ _ Hnum) as Efs.
  destruct (get_column (df self) "quantity_kg") as [col|e]; simpl in Efs;
    [|discriminate].
  simpl. rewrite Efs. simpl. rewrite map_map.
  set (f := fun r : gmap string cell =>
              quantity_rejected (num_at r "quantity_kg")).
  match goal with
  | |- context [count_true (map ?g (rows (df self)))] => change g with f
  end.
  now rewrite (count_true_none f (rows (df self)) Hall).
Qed.

Lemma categorical_loop_pass (entries : list (string * list string))
    (d : DataFrame) (ok : bool) (found fixed : nat) :
  (forall entry r, entry ∈ entries -> r ∈ rows d ->
     entry_ok (columns d) entry r = true) ->
  foldl categorical_step (d, ok, found, fixed) entries = (d, ok, found, fixed).
Proof.
  induction entries as [|[column valid_list] rest IH]; intros H;
    [reflexivity|].
  simpl. case_bool_decide as Hcol.
  - unfold column_values. rewrite map_map.
    rewrite count_true_none.
    + simpl. apply IH. intros entry r He. apply H.
      now apply list_elem_of_further.
    + intros r Hr. specialize (H _ r (list_elem_of_here _ _) Hr).
      unfold entry_ok in H. simpl in H.
      rewrite bool_decide_eq_true_2 in H by exact Hcol. simpl in H.
      now rewrite H.
  - apply IH. intros entry r He. apply H. now apply list_elem_of_further.
Qed.

Lemma check_categorical_values_pass (self : DataValidator) :
  (forall r, r ∈ rows (df self) ->
     in_vocabulary (columns (df self)) r = true) ->
  passed (fst (check_categorical_values self)) = true /\
  df (snd (check_categorical_values self)) = df self.
Proof.
  intros Hall. unfold check_categorical_values.
  rewrite categorical_loop_pass; [split; reflexivity|].
  intros entry r He Hr. specialize (Hall r Hr).
  unfold in_vocabulary in Hall. rewrite forallb_forall in Hall.
  apply (Hall entry). now apply list_elem_of_In.
Qed.

(** ** Generated records *)

Lemma get_month_season_values (month : Z) :
  get_month_season month ∈ ["Winter"; "Spring"; "Summer"; "Autumn"; "Monsoon"].
Proof.
  unfold get_month_season.
  repeat case_bool_decide;
    apply (bool_decide_unpack _); vm_compute; exact I.
Qed.

Lemma quantities_in_range (quantity : Z) :
  quantity ∈ quantities -> quantity_rejected (Z2float quantity) = false.
Proof.
  unfold quantities. rewrite !elem_of_cons, elem_of_nil.
  intros H; repeat (destruct H as [->|H]; [vm_compute; reflexivity|]).
  contradiction.
Qed.

Lemma quantities_present (quantity : Z) :
  quantity ∈ quantities -> PrimFloat.is_nan (Z2float quantity) = false.
Proof.
  unfold quantities. rewrite !elem_of_cons, elem_of_nil.
  intros H; repeat (destruct H as [->|H]; [vm_compute; reflexivity|]).
  contradiction.
Qed.

Section GeneratedRecords.

Variable calculate_market_price :
  string -> string -> string -> string -> string -> Z -> string -> float.

Lemma generate_record_cells (w : draws) :
  let r := generate_record calculate_market_price w in
  cell_at r "date" = Str (draw_date w) /\
  cell_at r "crop_type" = Str (draw_crop_type w) /\
  cell_at r "region" = Str (draw_region w) /\
  cell_at r "quality" = Str (draw_quality w) /\
  cell_at r "quantity_kg" = Num (Z2float (draw_quantity w)) /\
  cell_at r "season" = Str (get_month_season (draw_month w)) /\
  cell_at r "weather" = Str (draw_weather w) /\
  cell_at r "market_demand" = Str (draw_market_demand w) /\
  cell_at r "source" = Str "generated" /\
  exists p, cell_at r "market_price" = Num p.
Proof.
  destruct w as [date month crop quality region demand weather quantity].
  unfold generate_record. cbv zeta. cbn [draw_date draw_month draw_crop_type
    draw_quality draw_region draw_market_demand draw_weather draw_quantity].
  generalize (calculate_market_price crop quality region
                (get_month_season month) demand quantity weather).
  generalize (Z2float quantity). generalize (get_month_season month).
  intros season q p.
  split; [vm_compute; reflexivity|]. split; [vm_compute; reflexivity|].
  split; [vm_compute; reflexivity|]. split; [vm_compute; reflexivity|].
  split; [vm_compute; reflexivity|]. split; [vm_compute; reflexivity|].
  split; [vm_compute; reflexivity|]. split; [vm_compute; reflexivity|].
  split; [vm_compute; reflexivity|]. exists p. vm_compute. reflexivity.
Qed.

Lemma generate_record_in_vocabulary (w : draws) :
  drawn w ->
  in_vocabulary generated_columns (generate_record calculate_market_price w)
  = true.
Proof.
  intros (Hcrop & Hquality & Hregion & Hdemand & _ & _).
  destruct (generate_record_cells w)
    as (_ & Ccrop & Cregion & Cquality & _ & Cseason & _ & Cdemand & _).
  apply in_vocabulary_true. intros col valid_list Hin _.
  unfold valid_values in Hin. rewrite !elem_of_cons, elem_of_nil in Hin.
  destruct Hin as [[= -> ->]|[[= -> ->]|[[= -> ->]|[[= -> ->]|[[= -> ->]|[]]]]]].
  - exists (draw_crop_type w). split; [exact Ccrop|exact Hcrop].
  - exists (draw_region w). split; [exact Cregion|exact Hregion].
  - exists (draw_quality w). split; [exact Cquality|exact Hquality].
  - exists (get_month_season (draw_month w)).
    split; [exact Cseason|apply get_month_season_values].
  - exists (draw_market_demand w). split; [exact Cdemand|exact Hdemand].
Qed.

(** X16. Data that comes out of the generator gets through the
    validator's range and vocabulary checks untouched, as soon as there is
    one record: every quantity the generator draws is within the validator's
    range, every crop type, region, quality grade and demand level it draws
    and every season it derives from the date is in the validator's
    vocabulary, and no entry other than the price can be missing.  A
    DataFrame built from no record at all has no column, and the quantity
    check raises KeyError on it. *)
Theorem generated_records_pass (ws : list draws) (report : QualityReport) :
  Forall drawn ws ->
  let d := generate_records calculate_market_price ws in
  let self := mkValidator d report in
  (ws = [] ->
     columns d = [] /\ check_quantity_validity self = Raise KeyError) /\
  (ws <> [] ->
     columns d = generated_columns /\
     check_quantity_validity self =
       Ok (mkCheck "Quantity Validity" true,
           mkValidator d
             (append_check report (mkCheck "Quantity Validity" true))) /\
     passed (fst (check_categorical_values self)) = true /\
     df (snd (check_categorical_values self)) = d /\
     forall r col, r ∈ rows d -> col ∈ generated_columns ->
       col <> "market_price" -> isnull (cell_at r col) = false).
Proof.
  intros Hws d self. rewrite Forall_forall in Hws.
  split.
  { intros ->. split; reflexivity. }
  intros Hne.
  assert (Hcols : columns d = generated_columns).
  { subst d. destruct ws; [now contradiction Hne|reflexivity]. }
  assert (Hrow : forall r, r ∈ rows d ->
                   exists w, drawn w /\ r = generate_record calculate_market_price w).
  { intros r Hr. subst d. unfold generate_records in Hr. simpl in Hr.
    apply list_elem_of_fmap in Hr as (w & -> & Hw). exists w.
    split; [now apply Hws|reflexivity]. }
  assert (Hvoc : forall r, r ∈ rows (df self) ->
                   in_vocabulary (columns (df self)) r = true).
  { intros r Hr. destruct (Hrow r Hr) as (w & Hw & ->).
    change (columns (df self)) with (columns d). rewrite Hcols.
    now apply generate_record_in_vocabulary. }
  split; [exact Hcols|]. split; [|split; [|split]].
  - apply (check_quantity_validity_pass self).
    + split.
      * change (columns (df self)) with (columns d). rewrite Hcols.
        apply (bool_decide_unpack _). vm_compute. exact I.
      * intros r Hr. destruct (Hrow r Hr) as (w & _ & ->).
        destruct (generate_record_cells w) as (_ & _ & _ & _ & Cq & _).
        now eexists.
    + intros r Hr. destruct (Hrow r Hr) as (w & (_ & _ & _ & _ & _ & Hq) & ->).
      destruct (generate_record_cells w) as (_ & _ & _ & _ & Cq & _).
      unfold num_at. rewrite Cq. now apply quantities_in_range.
  - now apply (check_categorical_values_pass self).
  - now apply (check_categorical_values_pass self).
  - intros r col Hr Hcol Hnp. destruct (Hrow r Hr) as (w & Hw & ->).
    destruct (generate_record_cells w)
      as (C1 & C2 & C3 & C4 & C5 & C6 & C7 & C8 & C9 & _).
    unfold generated_columns in Hcol.
    rewrite !elem_of_cons, elem_of_nil in Hcol.
    destruct Hcol as [->|[->|[->|[->|[->|[->|[->|[->|[->|[->|[]]]]]]]]]]];
      try (exfalso; apply Hnp; reflexivity);
      first [ rewrite C1 | rewrite C2 | rewrite C3 | rewrite C4 | rewrite C5
            | rewrite C6 | rewrite C7 | rewrite C8 | rewrite C9 ];
      try reflexivity.
    destruct Hw as (_ & _ & _ & _ & _ & Hq).
    now apply quantities_present.
Qed.

End GeneratedRecords.

Lemma generated_records_pass_witness :
  passed (fst (check_categorical_values
                 (mkValidator
                    (generate_records (fun _ _ _ _ _ _ _ => 61.75%float)
                                      [sample_draws])
                    (mkReport [] 0 0)))) = true.
Proof.
  assert (Hdrawn : Forall drawn [sample_draws]).
  { constructor; [|constructor].
    unfold drawn.
    split; [apply (bool_decide_unpack _); vm_compute; exact I|].
    split; [apply (bool_decide_unpack _); vm_compute; exact I|].
    split; [apply (bool_decide_unpack _); vm_compute; exact I|].
    split; [apply (bool_decide_unpack _); vm_compute; exact I|].
    split; apply (bool_decide_unpack _); vm_compute; exact I. }
  destruct (generated_records_pass (fun _ _ _ _ _ _ _ => 61.75%float)
              [sample_draws] (mkReport [] 0 0) Hdrawn) as [_ Hpass].
  destruct Hpass as (_ & _ & Hvoc & _); [discriminate|exact Hvoc].
Defined.
